(** * Feira de Santana city hall spiders (scraper/spiders/cityhall.py)

    A shallow embedding of the four spiders of the module: [BidsSpider],
    [ContractsSpider], [PaymentsSpider] and [COVID19ExpensesSpider].

    Conventions.
    - A Python [str] is represented by its UTF-8 encoding, a Rocq [string].
      Substring search, [split] and [replace] on the encoding agree with the
      same operations on code points.
    - The node-selection queries (xpath / css) are not interpreted: a
      response is a record holding, for each query the code runs, the list
      of nodes or texts the query returns.
    - A generator is run to its end: the result is the trace of what it
      yielded and logged, and the exception that stopped it, if any.
    - The wall clock is an oracle [clock : nat -> datetime]; the n-th call
      of [datetime_utcnow_aware] reads [clock n]. *)

From Stdlib Require Import ZArith Lia List String Ascii Permutation.
From Stdlib Require Import Numbers.DecimalString.
From stdpp Require Import base option list gmap strings fin_maps.

Local Open Scope string_scope.
Local Open Scope list_scope.
Local Open Scope Z_scope.

(** ** Exceptions and results *)

Inductive exn : Type :=
| IndexError | KeyError | ValueError | AttributeError | OverflowError.

Inductive result (A : Type) : Type :=
| Ok (a : A)
| Raise (e : exn).
Arguments Ok {A} a.
Arguments Raise {A} e.

Definition rbind {A B} (r : result A) (k : A -> result B) : result B :=
  match r with
  | Ok a => k a
  | Raise e => Raise e
  end.

Definition raises {A} (r : result A) : Prop := exists e, r = Raise e.

Definition of_option {A} (e : exn) (o : option A) : result A :=
  match o with
  | Some a => Ok a
  | None => Raise e
  end.

(** ** Python built-ins on [str] and [list] *)

Module Py.

(** [needle in hay] *)
Fixpoint contains (needle hay : string) : bool :=
  String.prefix needle hay ||
  match hay with
  | EmptyString => false
  | String _ hay' => contains needle hay'
  end.

(** [s.startswith(p)] *)
Definition startswith (s p : string) : bool := String.prefix p s.

(** [s.split(sep)] for a non-empty [sep]: the text is cut at every
    occurrence of [sep], scanning from the left; [skip] counts the
    characters of a separator that has just been matched and [cur] is the
    segment being read. *)
Fixpoint split_go (sep s : string) (skip : nat) (cur : string) : list string :=
  match s with
  | EmptyString => [cur]
  | String c s' =>
      match skip with
      | S k => split_go sep s' k cur
      | O =>
          if String.prefix sep s
          then cur :: split_go sep s' (Nat.pred (String.length sep)) ""
          else split_go sep s' O (cur +:+ String c "")
      end
  end.

Definition split (s sep : string) : list string := split_go sep s O "".

(** [sep.join(l)] *)
Definition join (sep : string) (l : list string) : string := String.concat sep l.

(** [s.replace(old, new)] for a non-empty [old]: every occurrence found
    from the left is replaced, which is [new.join(s.split(old))]. *)
Definition replace (s old new : string) : string := join new (split s old).

(** [l[i]] for a non-negative [i] *)
Definition index {A} (l : list A) (i : nat) : result A :=
  of_option IndexError (l !! i).

(** [l[-k]] for [k >= 1] *)
Definition index_from_end {A} (l : list A) (k : nat) : result A :=
  if (Nat.leb 1 k && Nat.leb k (List.length l))%bool
  then of_option IndexError (l !! (List.length l - k)%nat)
  else Raise IndexError.

(** [zip] stops at the shortest argument *)
Fixpoint zip {A B} (l : list A) (k : list B) : list (A * B) :=
  match l, k with
  | a :: l', b :: k' => (a, b) :: zip l' k'
  | _, _ => []
  end.

(** [s[1:]]: the text without its first character; in the encoding the
    first byte goes together with the continuation bytes (10xxxxxx) after
    it. *)
Definition is_continuation (c : ascii) : bool :=
  let n := nat_of_ascii c in (Nat.leb 128 n && Nat.ltb n 192)%bool.

Fixpoint drop_continuation (s : string) : string :=
  match s with
  | String c s' => if is_continuation c then drop_continuation s' else s
  | EmptyString => EmptyString
  end.

Definition tail (s : string) : string :=
  match s with
  | EmptyString => EmptyString
  | String _ s' => drop_continuation s'
  end.

(** The ASCII digits, and the ASCII characters [str.isspace] holds of. *)
Definition is_digit (c : ascii) : bool :=
  let n := nat_of_ascii c in (Nat.leb 48 n && Nat.leb n 57)%bool.

Definition digit_value (c : ascii) : Z := Z.of_nat (nat_of_ascii c) - 48.

Definition is_space (c : ascii) : bool :=
  let n := nat_of_ascii c in
  ((Nat.leb 9 n && Nat.leb n 13) || (Nat.leb 28 n && Nat.leb n 32))%bool.

(** The code points of a text.  A [str] is held here in UTF-8;
    [code_points] reads the characters back, and gives None for bytes that
    are the encoding of no text. *)
Definition code_unit (c : ascii) : Z := Z.of_N (N_of_ascii c).

Definition continuation_bits (c : ascii) : option Z :=
  let b := code_unit c in
  if (128 <=? b) && (b <? 192) then Some (b - 128) else None.

Fixpoint code_points (s : string) : option (list Z) :=
  match s with
  | EmptyString => Some []
  | String c s1 =>
      let b := code_unit c in
      if b <? 128 then cons b <$> code_points s1
      else if b <? 192 then None
      else if b <? 224 then
        match s1 with
        | String c1 s2 =>
            match continuation_bits c1 with
            | Some x1 =>
                let cp := (b - 192) * 64 + x1 in
                if 128 <=? cp then cons cp <$> code_points s2 else None
            | None => None
            end
        | EmptyString => None
        end
      else if b <? 240 then
        match s1 with
        | String c1 (String c2 s3) =>
            match continuation_bits c1, continuation_bits c2 with
            | Some x1, Some x2 =>
                let cp := (b - 224) * 4096 + x1 * 64 + x2 in
                if (2048 <=? cp) && negb ((55296 <=? cp) && (cp <=? 57343))
                then cons cp <$> code_points s3 else None
            | _, _ => None
            end
        | _ => None
        end
      else if b <? 248 then
        match s1 with
        | String c1 (String c2 (String c3 s4)) =>
            match continuation_bits c1, continuation_bits c2, continuation_bits c3 with
            | Some x1, Some x2, Some x3 =>
                let cp := (b - 240) * 262144 + x1 * 4096 + x2 * 64 + x3 in
                if (65536 <=? cp) && (cp <=? 1114111)
                then cons cp <$> code_points s4 else None
            | _, _, _ => None
            end
        | _ => None
        end
      else None
  end.

(** [int(s)], base ten.  The text is first made ASCII
    (_PyUnicode_TransformDecimalAndSpaceToASCII): a character below 127
    stays, a white space character beyond ASCII becomes a space, a decimal
    digit of any script becomes the ASCII digit of its value, and with any
    other character the text is no integer.  Then (PyLong_FromString): the
    white space of C around the number is skipped; a sign may come first;
    the digits may have single underscores between them; a number of more
    than 4300 digits is refused (sys.int_max_str_digits).  Every failure
    is ValueError.  The characters are those of Unicode 14, which
    Python 3.11 has. *)
Definition unicode_spaces : list Z :=
  [133; 160; 5760; 8192; 8193; 8194; 8195; 8196; 8197; 8198; 8199; 8200; 8201;
   8202; 8232; 8233; 8239; 8287; 12288].

(** The zeros of the decimal digits beyond ASCII; the digits 1 to 9 of a
    script follow its zero. *)
Definition decimal_zeros : list Z :=
  [1632; 1776; 1984; 2406; 2534; 2662; 2790; 2918; 3046; 3174; 3302; 3430;
   3558; 3664; 3792; 3872; 4160; 4240; 6112; 6160; 6470; 6608; 6784; 6800;
   6992; 7088; 7232; 7248; 42528; 43216; 43264; 43472; 43504; 43600; 44016;
   65296; 66720; 68912; 69734; 69872; 69942; 70096; 70384; 70736; 70864;
   71248; 71360; 71472; 71904; 72016; 72784; 73040; 73120; 92768; 92864;
   93008; 120782; 120792; 120802; 120812; 120822; 123200; 123632; 125264;
   130032].

Definition decimal_digit (cp : Z) : option Z :=
  (fun zero => cp - zero) <$>
    List.find (fun zero => (zero <=? cp) && (cp <=? zero + 9)) decimal_zeros.

Definition to_ascii (cp : Z) : option Z :=
  if cp <? 127 then Some cp
  else if existsb (Z.eqb cp) unicode_spaces then Some 32
  else (fun d => 48 + d) <$> decimal_digit cp.

Definition is_c_space (c : Z) : bool := (c =? 32) || ((9 <=? c) && (c <=? 13)).

Definition is_c_digit (c : Z) : bool := (48 <=? c) && (c <=? 57).

Fixpoint skip_spaces (chars : list Z) : list Z :=
  match chars with
  | c :: rest => if is_c_space c then skip_spaces rest else chars
  | [] => []
  end.

(** The scan of the digits: the value, the number of digits and what
    comes after them; None for two underscores in a row or an underscore
    at the end. *)
Fixpoint scan_digits (chars : list Z) (acc digits : Z) (after_underscore : bool)
  : option (Z * Z * list Z) :=
  match chars with
  | c :: rest =>
      if is_c_digit c then scan_digits rest (acc * 10 + (c - 48)) (digits + 1) false
      else if c =? 95 then
        if after_underscore then None else scan_digits rest acc digits true
      else if after_underscore then None else Some (acc, digits, chars)
  | [] => if after_underscore then None else Some (acc, digits, [])
  end.

Definition int_max_str_digits : Z := 4300.

Definition int_of_chars (chars : list Z) : option Z :=
  let chars := skip_spaces chars in
  let '(sign, chars) :=
    match chars with
    | c :: rest => if c =? 45 then (-1, rest) else if c =? 43 then (1, rest) else (1, chars)
    | [] => (1, chars)
    end in
  match chars with
  | c :: _ =>
      if is_c_digit c then
        match scan_digits chars 0 0 false with
        | Some (n, digits, rest) =>
            match skip_spaces rest with
            | [] => if digits <=? int_max_str_digits then Some (sign * n) else None
            | _ :: _ => None
            end
        | None => None
        end
      else None
  | [] => None
  end.

Definition int (s : string) : result Z :=
  of_option ValueError
    (chars ← code_points s; chars ← mapM to_ascii chars; int_of_chars chars).

(** [str(n)] for an integer *)
Definition str (n : Z) : string := NilZero.string_of_int (Z.to_int n).

(** [range(a, b)] *)
Definition range (a b : Z) : list Z :=
  List.map (fun i => a + Z.of_nat i) (seq 0 (Z.to_nat (b - a))).

End Py.

(** ** [datetime.date] and [datetime.datetime] *)

Record date : Type := mkdate { year : Z; month : Z; day : Z }.

Definition is_leap (y : Z) : bool :=
  (y mod 4 =? 0) && (negb (y mod 100 =? 0) || (y mod 400 =? 0)).

Definition days_in_month (y m : Z) : Z :=
  if m =? 2 then (if is_leap y then 29 else 28)
  else if (m =? 4) || (m =? 6) || (m =? 9) || (m =? 11) then 30
  else 31.

Definition MINYEAR : Z := 1.
Definition MAXYEAR : Z := 9999.

Definition valid_date (d : date) : bool :=
  (MINYEAR <=? year d) && (year d <=? MAXYEAR) &&
  (1 <=? month d) && (month d <=? 12) &&
  (1 <=? day d) && (day d <=? days_in_month (year d) (month d)).

(** [date(y, m, d)]: OverflowError for an argument that is no int of C,
    ValueError for a date that does not exist. *)
Definition is_c_int (n : Z) : bool := (-2147483648 <=? n) && (n <=? 2147483647).

Definition date_new (y m d : Z) : result date :=
  if is_c_int y && is_c_int m && is_c_int d then
    if valid_date (mkdate y m d) then Ok (mkdate y m d) else Raise ValueError
  else Raise OverflowError.

(** Comparison of dates is that of the triples (year, month, day). *)
Definition date_ltb (a b : date) : bool :=
  (year a <? year b) ||
  ((year a =? year b) &&
   ((month a <? month b) ||
    ((month a =? month b) && (day a <? day b)))).

Definition date_leb (a b : date) : bool := negb (date_ltb b a).
Definition date_geb (a b : date) : bool := date_leb b a.

(** [toordinal]: day 1 is 0001-01-01. *)
Definition days_before_year (y : Z) : Z :=
  let p := y - 1 in p * 365 + p / 4 - p / 100 + p / 400.

Fixpoint days_before_month_go (y : Z) (k : nat) : Z :=
  match k with
  | O => 0
  | S k' => days_before_month_go y k' + days_in_month y (Z.of_nat k)
  end.

Definition days_before_month (y m : Z) : Z :=
  days_before_month_go y (Z.to_nat (m - 1)).

Definition toordinal (d : date) : Z :=
  days_before_year (year d) + days_before_month (year d) (month d) + day d.

(** [d + timedelta(days=1)]: the date whose ordinal is one more than that
    of [d] (see [toordinal_add_one_day]); past [date.max] the addition
    raises OverflowError. *)
Definition next_day (d : date) : date :=
  if day d <? days_in_month (year d) (month d)
  then mkdate (year d) (month d) (day d + 1)
  else if month d <? 12
       then mkdate (year d) (month d + 1) 1
       else mkdate (year d + 1) 1 1.

Definition add_one_day (d : date) : result date :=
  let d' := next_day d in
  if year d' <=? MAXYEAR then Ok d' else Raise OverflowError.

(** A [datetime]: its calendar date and the microseconds since midnight. *)
Record datetime : Type := mkdatetime { datetime_date : date; datetime_micros : Z }.

(** [n] written with at least [w] digits *)
Definition zero_pad (w : nat) (n : Z) : string :=
  let s := Py.str n in
  String.concat "" (List.repeat "0" (w - String.length s)%nat) +:+ s.

(** [d.strftime("%d/%m/%Y")], with the strftime of the C library of Linux:
    the day and the month with two digits, the year as it is written, so
    with fewer than four digits before the year 1000 (01/01/999). *)
Definition strftime_dmY (d : date) : string :=
  zero_pad 2 (day d) +:+ "/" +:+ zero_pad 2 (month d) +:+ "/" +:+ Py.str (year d).

(** ** Generators, the log and the clock *)

Inductive level : Type := INFO | WARNING.

(** The messages the spiders log, by their format string. *)
Inductive log_record : Type :=
| InitialDate (start_date : date)          (* "Data inicial: {start_date}" *)
| InvalidURL (document_url : string)       (* "URL Inválida: {document_url}" *)
| MultipleURLs (document_urls : list string). (* "Múltiplas URLs: {document_urls}" *)

Inductive event (Y : Type) : Type :=
| Yield (y : Y)
| Log (l : level) (r : log_record).
Arguments Yield {Y} y.
Arguments Log {Y} l r.

(** The outcome of running a piece of a generator from the moment the clock
    has been read [n] times: what it yielded and logged, how many times the
    clock has been read afterwards, and its value or the exception that
    ended it. *)
Record outcome (Y A : Type) : Type := mkoutcome {
  trace : list (event Y);
  reads : nat;
  value : result A
}.
Arguments mkoutcome {Y A} trace reads value.
Arguments trace {Y A} o.
Arguments reads {Y A} o.
Arguments value {Y A} o.

Definition gen (Y A : Type) : Type := nat -> outcome Y A.

Definition gret {Y A} (a : A) : gen Y A := fun n => mkoutcome [] n (Ok a).

Definition gbind {Y A B} (m : gen Y A) (k : A -> gen Y B) : gen Y B :=
  fun n =>
    let o := m n in
    match value o with
    | Ok a => let o' := k a (reads o) in
              mkoutcome (trace o ++ trace o') (reads o') (value o')
    | Raise e => mkoutcome (trace o) (reads o) (Raise e)
    end.

Definition lift {Y A} (r : result A) : gen Y A := fun n => mkoutcome [] n r.
Definition yield {Y} (y : Y) : gen Y unit := fun n => mkoutcome [Yield y] n (Ok tt).
Definition log {Y} (l : level) (r : log_record) : gen Y unit :=
  fun n => mkoutcome [Log l r] n (Ok tt).

Declare Scope gen_scope.
Delimit Scope gen_scope with gen.
Notation "x <- m ;; k" := (gbind m (fun x => k))
  (at level 100, m at next level, k at level 200, right associativity) : gen_scope.
Notation "m ;; k" := (gbind m (fun _ => k))
  (at level 100, k at level 200, right associativity) : gen_scope.

Declare Scope result_scope.
Delimit Scope result_scope with result.
Notation "x <- m ;; k" := (rbind m (fun x => k))
  (at level 100, m at next level, k at level 200, right associativity) : result_scope.

(** [for x in l: body] *)
Fixpoint for_each {Y A} (l : list A) (body : A -> gen Y unit) : gen Y unit :=
  match l with
  | [] => gret tt
  | x :: l' => (body x ;; for_each l' body)%gen
  end.

(** What a generator yielded. *)
Fixpoint yields {Y} (t : list (event Y)) : list Y :=
  match t with
  | [] => []
  | Yield y :: t' => y :: yields t'
  | Log _ _ :: t' => yields t'
  end.

Fixpoint logged {Y} (t : list (event Y)) : list (level * log_record) :=
  match t with
  | [] => []
  | Yield _ :: t' => logged t'
  | Log l r :: t' => (l, r) :: logged t'
  end.

(** ** What the module imports *)

(** The methods of [str] that depend on the tables of Unicode, the search
    of the pattern of [BidsSpider.parse_page] and the join of addresses. *)
Class PyStr : Type := {
  str_lower : string -> string;       (* s.lower() *)
  str_upper : string -> string;       (* s.upper() *)
  str_capitalize : string -> string;  (* s.capitalize() *)
  str_strip : string -> string;       (* s.strip() *)
  str_isspace : string -> bool;       (* s.isspace() *)
  (* re.compile(r"licitacoes_pm\.asp[\?|&]cat=(\w+)\&dt=(\d+-\d+)").search(s):
     groups 1 and 2 of the first match *)
  url_pattern_search : string -> option (string * string);
  (* response.urljoin(url), from the URL of the response *)
  urljoin : string -> string -> string
}.

(** The helpers of scraper/spiders/utils.py and datasets/parsers.py; the
    clock of [datetime_utcnow_aware] is the oracle of the generators. *)
Class Utils : Type := {
  (* the value of a query parameter; None stands for a missing one *)
  extract_param : string -> string -> result (option string);
  identify_contract_id : string -> result (option string);
  is_url : string -> bool;
  strip_accents : string -> string;
  from_str_to_datetime : string -> result (option datetime)
}.

Definition datetime_utcnow_aware {Y} (clock : nat -> datetime) : gen Y datetime :=
  fun n => mkoutcome [] (S n) (Ok (clock n)).

(** ** Items *)

Record history_event : Type := mkhistory {
  published_at : datetime;
  event_text : string;
  event_url : string
}.

Inductive field_value : Type :=
| VNone
| VStr (s : string)
| VInt (n : Z)
| VDatetime (t : datetime)
| VFiles (urls : list string)
| VHistory (h : list history_event).

(** A scrapy item: its fields by name. *)
Abbreviation Item := (gmap string field_value).

Definition of_opt_str (o : option string) : field_value :=
  match o with Some s => VStr s | None => VNone end.
Definition of_opt_datetime (o : option datetime) : field_value :=
  match o with Some t => VDatetime t | None => VNone end.

(** A value that counts as true in [if x:] for an optional text. *)
Definition truthy (o : option string) : bool :=
  match o with
  | Some s => negb (String.eqb s "")
  | None => false
  end.

Definition CRLF : string := String "013" (String "010" "").

(** ** BidsSpider *)

Module BidsSpider.

Section Spider.
Context `{PyStr} `{Utils}.
Variable clock : nat -> datetime.
(* self.start_date, which BaseSpider provides *)
Variable start_date : date.

Definition get_modality (modality_text : option string) : option string :=
  match modality_text with
  | None => None
  | Some text =>
      let modality_text := strip_accents (str_lower text) in
      if Py.contains "tomada" (str_lower modality_text) then
        Some "tomada_de_precos"
      else if Py.contains "pregao presencial" (str_lower modality_text) then
        Some "pregao_presencial"
      else if Py.contains "pregao eletronico" (str_lower modality_text) then
        Some "pregao_eletronico"
      else if Py.contains "leilao" (str_lower modality_text) then
        Some "leilao"
      else if Py.contains "inexigibilidade" (str_lower modality_text) then
        Some "inexigibilidade"
      else if Py.contains "dispensa" (str_lower modality_text) then
        Some "dispensada"
      else if Py.contains "convite" (str_lower modality_text) then
        Some "convite"
      else if Py.contains "concurso" (str_lower modality_text) then
        Some "concurso"
      else if Py.contains "concorrencia" (str_lower modality_text) then
        Some "concorrencia"
      else if Py.contains "chamada" (str_lower modality_text) then
        Some "chamada_publica"
      else if Py.contains "chamamento" (str_lower modality_text) then
        Some "chamada_publica"
      else None
  end.

Definition follow_this_date (url : string) : result bool :=
  (param <- extract_param url "dt" ;;
   (* None has no split *)
   month_year <- of_option AttributeError param ;;
   let month_year := Py.split month_year "-" in
   y_text <- Py.index month_year 1 ;;
   y <- Py.int y_text ;;
   m_text <- Py.index month_year 0 ;;
   m <- Py.int m_text ;;
   month_year <- date_new y m 1 ;;
   Ok (date_geb month_year start_date))%result.

(** The page of the links: its address and what
    [//table/tbody/tr/td[1]/div/a//@href] extracts. *)
Record index_response : Type := mkindex {
  index_url : string;
  index_hrefs : list string
}.

(** [response.follow(url, self.parse_page)]: a request for the address
    joined to that of the response, with [parse_page] as its callback. *)
Record follow_request : Type := Follow { follow_url : string }.

Definition base_url : string := "http://www.feiradesantana.ba.gov.br".

(** The address of a link after the first test of the loop of [parse]. *)
Definition absolute_link (response : index_response) (url : string) : string :=
  if negb (Py.contains base_url url) then
    (* todos os anos exceto 2017 e 2018 *)
    if Py.startswith url "servicos.asp"
    then urljoin (index_url response) (base_url +:+ "/" +:+ url)
    else urljoin (index_url response) (base_url +:+ "/seadm/" +:+ url)
  else url.

Definition parse_link (response : index_response) (url : string)
  : gen follow_request unit :=
  (let url := absolute_link response url in
   follow <- lift (follow_this_date url) ;;
   if follow : bool
   then yield (Follow (urljoin (index_url response) url))
   else gret tt)%gen.

Definition parse (response : index_response) : gen follow_request unit :=
  (log INFO (InitialDate start_date) ;;
   for_each (index_hrefs response) (parse_link response))%gen.

(** A node of [raw_descriptions]: what [.//@href] and [.//text()] extract
    under it. *)
Record description_node : Type := mkdescription {
  description_hrefs : list string;
  description_texts : list string
}.

(** A row ([.//tr]) of a node of [raw_bids_history]. *)
Record history_row : Type := mkrow {
  row_td2_text : option string;      (* .//td[2]/text() *)
  row_td3_div_text : option string;  (* .//td[3]/div/text() *)
  row_td4_href : option string       (* .//td[4]/div/a//@href *)
}.

Record response : Type := mkresponse {
  url : string;
  raw_modalities : list string;
  raw_descriptions : list description_node;
  raw_bids_history : list (list history_row);
  raw_date : list string
}.

Definition _parse_description (raw_descriptions : list string) : string :=
  let descriptions :=
    List.filter (fun description => negb (str_isspace description))
                (List.map str_strip raw_descriptions) in
  Py.join "" descriptions.

Definition _parse_descriptions_step (raw_description : description_node)
  : gen Item (list (string * option string)) :=
  (let document_url := head (description_hrefs raw_description) in
   document_url <-
     match document_url with
     | Some u =>
         if (truthy document_url && negb (is_url u))%bool
         then (log WARNING (InvalidURL u) ;; gret None)
         else gret document_url
     | None => gret None
     end ;;
   let description := _parse_description (description_texts raw_description) in
   let document_urls := description_hrefs raw_description in
   (if Nat.ltb 1 (List.length document_urls)
    then log WARNING (MultipleURLs document_urls)
    else gret tt) ;;
   gret (if String.eqb description "Objeto" then []
         else [(description, document_url)]))%gen.

Fixpoint _parse_descriptions (raw_descriptions : list description_node)
  : gen Item (list (string * option string)) :=
  match raw_descriptions with
  | [] => gret []
  | raw_description :: rest =>
      (found <- _parse_descriptions_step raw_description ;;
       descriptions <- _parse_descriptions rest ;;
       gret (found ++ descriptions))%gen
  end.

Definition _parse_bid_history_row (row : history_row) : result (list history_event) :=
  (date <- of_option AttributeError (row_td2_text row) ;;
   date <- from_str_to_datetime (str_strip date) ;;
   let event := row_td3_div_text row in
   let url := row_td4_href row in
   match event, date with
   | Some e, Some d =>
       if truthy event
       then Ok [mkhistory d (str_capitalize e) (if truthy url then default "" url else "")]
       else Ok []
   | _, _ => Ok []
   end)%result.

Fixpoint _parse_bid_history (rows : list history_row) : result (list history_event) :=
  match rows with
  | [] => Ok []
  | row :: rest =>
      (found <- _parse_bid_history_row row ;;
       bids_history <- _parse_bid_history rest ;;
       Ok (found ++ bids_history))%result
  end.

Fixpoint _parse_bids_history (raw_bids_history : list (list history_row))
  : result (list (list history_event)) :=
  match raw_bids_history with
  | [] => Ok []
  | raw_bid_history :: rest =>
      (bids_history <- _parse_bid_history raw_bid_history ;;
       all_bids_history <- _parse_bids_history rest ;;
       Ok (bids_history :: all_bids_history))%result
  end.

(** The dictionary {"codes": ..., "modality": ...} of a modality cell. *)
Record modality_and_code : Type := mkmodality {
  codes : string;
  modality : option string
}.

Fixpoint _parse_modalities (raw_modalities : list string) : list modality_and_code :=
  match raw_modalities with
  | [] => []
  | raw_modality :: rest =>
      let modality := str_strip raw_modality in
      if String.eqb modality "" then _parse_modalities rest
      else
        let modality := Py.replace modality CRLF " / " in
        mkmodality modality (get_modality (Some modality)) :: _parse_modalities rest
  end.

Definition _parse_date (raw_date : list string) : list string :=
  List.map Py.tail raw_date.

Definition parse_page_item (response : response)
    (row : modality_and_code * (string * option string) * list history_event * string)
  : gen Item unit :=
  (let '(modality_and_code, (description, document_url), history, date) := row in
   (* match is None when the pattern is not found *)
   groups <- lift (of_option AttributeError (url_pattern_search (url response))) ;;
   month_year <- lift (match Py.split (snd groups) "-" with
                       | [month; year] => Ok (month, year)
                       | _ => Raise ValueError
                       end) ;;
   crawled_at <- datetime_utcnow_aware clock ;;
   month <- lift (Py.int (fst month_year)) ;;
   year <- lift (Py.int (snd month_year)) ;;
   session_at <- lift (from_str_to_datetime date) ;;
   let item : Item :=
     <["crawled_at" := VDatetime crawled_at]>
     (<["crawled_from" := VStr (url response)]>
     (<["public_agency" := VStr (str_upper (fst groups))]>
     (<["month" := VInt month]>
     (<["year" := VInt year]>
     (<["description" := VStr description]>
     (<["history" := VHistory history]>
     (<["codes" := VStr (codes modality_and_code)]>
     (<["modality" := of_opt_str (modality modality_and_code)]>
     (<["session_at" := of_opt_datetime session_at]> ∅))))))))) in
   let item :=
     match document_url with
     | Some u =>
         if truthy document_url
         then <["files" := VFiles [urljoin (url response) u]]> item
         else item
     | None => item
     end in
   yield item)%gen.

Definition parse_page (response : response) : gen Item unit :=
  (descriptions <- _parse_descriptions (raw_descriptions response) ;;
   bids_history <- lift (_parse_bids_history (raw_bids_history response)) ;;
   let modalities := _parse_modalities (raw_modalities response) in
   let date := _parse_date (raw_date response) in
   let bid_data := Py.zip (Py.zip (Py.zip modalities descriptions) bids_history) date in
   for_each bid_data (parse_page_item response))%gen.

End Spider.

End BidsSpider.

(** ** Requests *)

Inductive callback : Type := Parse | ParsePage.

(** [scrapy.FormRequest(url, formdata=..., callback=..., meta=...)].  The
    form data are encoded into the body when the request is built, so a
    request keeps the content the dictionary had at that moment;
    [request_meta_data] is the content, at the same moment, of the
    dictionary stored under meta["data"]. *)
Record request : Type := FormRequest {
  request_url : string;
  request_formdata : gmap string string;
  request_callback : callback;
  request_meta_data : option (gmap string string)
}.

(** [while cond: body], run for at most [fuel] rounds; the value is the
    final state, or None when the rounds did not suffice. *)
Fixpoint while {Y S} (fuel : nat) (cond : S -> bool) (body : S -> gen Y S) (s : S)
  : gen Y (option S) :=
  if cond s then
    match fuel with
    | O => gret None
    | S fuel' => (s' <- body s ;; while fuel' cond body s')%gen
    end
  else gret (Some s).

(** The response to a query: the texts under [div.pagination li a] and the
    dictionary the request carried under meta["data"]. *)
Record query_response : Type := mkquery {
  pagination_texts : list string;
  response_meta_data : gmap string string
}.

(** The loop over the pages of a query; [data] is the one dictionary all
    the rounds write to, and the value is its final content. *)
Fixpoint page_requests (url : string) (pages : list Z) (last_page : Z)
    (data : gmap string string) : gen request (gmap string string) :=
  match pages with
  | [] => gret data
  | page :: rest =>
      let data := <["POST_PAGINA" := Py.str page]> data in
      let data := <["POST_PAGINAS" := Py.str last_page]> data in
      (yield (FormRequest url data ParsePage None) ;;
       page_requests url rest last_page data)%gen
  end.

(** ** ContractsSpider *)

Module ContractsSpider.

Definition url : string :=
  "http://www.transparencia.feiradesantana.ba.gov.br/controller/contrato.php".

Definition data : gmap string string :=
  <["POST_PARAMETRO" := "PesquisaContratos"]>
  (<["POST_DATA" := ""]>
  (<["POST_NMCREDOR" := ""]>
  (<["POST_CPFCNPJ" := ""]>
  (<["POST_NUCONTRATO" := ""]> ∅)))).

Definition initial_date : date := mkdate 2010 1 1.

Section Spider.
Context `{PyStr} `{Utils}.
Variable clock : nat -> datetime.
Variable start_date : date.

Definition start_requests_body (start_date : date) : gen request date :=
  (let formatted_date := strftime_dmY start_date in
   let data := <["POST_DATA" := formatted_date +:+ " - " +:+ formatted_date]> data in
   yield (FormRequest url data Parse (Some data)) ;;
   lift (add_one_day start_date))%gen.

Definition start_requests (fuel : nat) : gen request (option date) :=
  (log INFO (InitialDate start_date) ;;
   now <- datetime_utcnow_aware clock ;;
   let today := datetime_date now in
   while fuel (fun start_date => date_ltb start_date today)
         start_requests_body start_date)%gen.

Definition parse (response : query_response) : gen request (gmap string string) :=
  let pages := pagination_texts response in
  match pages with
  | [] => gret (response_meta_data response)
  | _ :: _ =>
      (last_text <- lift (Py.index_from_end pages 2) ;;
       last_page <- lift (Py.int last_text) ;;
       page_requests url (Py.range 1 (last_page + 1)) last_page
                     (response_meta_data response))%gen
  end.

(** A row of [tbody tr:not([class^="informacao"])]: the texts under [th]. *)
Record headline_node : Type := mkheadline { headline_th_texts : list string }.

(** A row [tr.informacao]: the texts under [p] and the href of [a.btn]. *)
Record details_node : Type := mkdetails {
  details_p_texts : list string;
  details_btn_href : option string
}.

Record response : Type := mkresponse {
  response_url : string;
  headlines : list headline_node;
  contract_details : list details_node
}.

Definition labels : list string :=
  ["Objeto:"; "Contratada:"; "Valor:"; "Data Final de Contrato:"; "VISUALIZAR"].

Fixpoint clean_details_texts (texts : list string) : list string :=
  match texts with
  | [] => []
  | details :: rest =>
      let details := str_strip details in
      if (negb (String.eqb details "") && negb (existsb (String.eqb details) labels))%bool
      then details :: clean_details_texts rest
      else clean_details_texts rest
  end.

Definition clean_details (raw_details : details_node) : list string :=
  clean_details_texts (details_p_texts raw_details).

Definition base_url : string := "http://www.transparencia.feiradesantana.ba.gov.br".

Definition parse_page_item (response : response) (row : headline_node * details_node)
  : gen Item unit :=
  (let '(headline, raw_details) := row in
   let contract_and_date := headline_th_texts headline in
   headline_text <- lift (Py.index contract_and_date 0) ;;
   contract_id <- lift (identify_contract_id headline_text) ;;
   starts_at <- lift (Py.index contract_and_date 1) ;;
   let details := clean_details raw_details in
   let document_url := details_btn_href raw_details in
   contractor_text <- lift (Py.index details 1) ;;
   let contractor := Py.split contractor_text " - " in
   contractor_document <- lift (Py.index contractor 0) ;;
   contractor_name <- lift (Py.index contractor 1) ;;
   summary <- lift (Py.index details 0) ;;
   value <- lift (Py.index details 2) ;;
   ends_at <- lift (Py.index details 3) ;;
   crawled_at <- datetime_utcnow_aware clock ;;
   let item : Item :=
     <["contract_id" := of_opt_str contract_id]>
     (<["starts_at" := VStr starts_at]>
     (<["summary" := VStr summary]>
     (<["contractor_document" := VStr contractor_document]>
     (<["contractor_name" := VStr contractor_name]>
     (<["value" := VStr value]>
     (<["ends_at" := VStr ends_at]>
     (<["crawled_at" := VDatetime crawled_at]>
     (<["crawled_from" := VStr (response_url response)]> ∅)))))))) in
   let item :=
     match document_url with
     | Some u =>
         if truthy document_url
         then <["files" := VFiles [base_url +:+ u]]> item
         else item
     | None => item
     end in
   yield item)%gen.

Definition parse_page (response : response) : gen Item unit :=
  for_each (Py.zip (headlines response) (contract_details response))
           (parse_page_item response).

End Spider.

End ContractsSpider.

(** ** PaymentsSpider *)

(** A page of payments: the texts under [td] of each row
    [#editable-sample tr.accordion-toggle] and of each block
    [#editable-sample div.accordion-inner]. *)
Record payments_response : Type := mkpayments {
  payments_url : string;
  payments_headlines : list (list string);
  payments_details : list (list string)
}.

Module PaymentsSpider.

Definition url : string :=
  "http://www.transparencia.feiradesantana.ba.gov.br/controller/despesa.php".

Definition data : gmap string string :=
  <["POST_PARAMETRO" := "PesquisaDespesas"]>
  (<["POST_FASE" := ""]>
  (<["POST_UNIDADE" := ""]>
  (<["POST_DATA" := ""]>
  (<["POST_NMCREDOR" := ""]>
  (<["POST_CPFCNPJ" := ""]> ∅))))).

Definition initial_date : date := mkdate 2010 1 1.

Definition mapping : gmap string string :=
  <["N°:" := "number"]>
  (<["CPF/CNPJ:" := "document"]>
  (<["Data:" := "date"]>
  (<["N° do processo:" := "process_number"]>
  (<["Bem / Serviço Prestado:" := "summary"]>
  (<["Natureza:" := "group"]>
  (<["Ação:" := "action"]>
  (<["Função:" := "function"]>
  (<["Subfunção:" := "subfunction"]>
  (<["Processo Licitatório:" := "type_of_process"]>
  (<["Fonte de Recurso:" := "resource"]> ∅)))))))))).

(** The loop [while details_copy: ...]: two [pop(0)] and one assignment to
    the item in each round.  The second [pop(0)] raises IndexError on an
    empty list, [mapping[key]] raises KeyError for a key it does not
    have. *)
Fixpoint extract_details (details_copy : list string) (item : Item) : result Item :=
  match details_copy with
  | [] => Ok item
  | key :: details_copy =>
      match details_copy with
      | [] => Raise IndexError
      | value :: details_copy =>
          (field <- of_option KeyError (mapping !! key) ;;
           extract_details details_copy (<[field := VStr value]> item))%result
      end
  end.

Section Spider.
Context `{PyStr}.
Variable clock : nat -> datetime.
Variable start_date : date.

Definition start_requests_body (start_date : date) : gen request date :=
  (let formatted_date := strftime_dmY start_date in
   let data := <["POST_DATA" := formatted_date +:+ " - " +:+ formatted_date]> data in
   yield (FormRequest url data Parse (Some data)) ;;
   lift (add_one_day start_date))%gen.

Definition start_requests (fuel : nat) : gen request (option date) :=
  (log INFO (InitialDate start_date) ;;
   now <- datetime_utcnow_aware clock ;;
   let today := datetime_date now in
   while fuel (fun start_date => date_ltb start_date today)
         start_requests_body start_date)%gen.

Definition parse (response : query_response) : gen request (gmap string string) :=
  let pages := pagination_texts response in
  match pages with
  | [] => gret (response_meta_data response)
  | _ :: _ =>
      (last_text <- lift (Py.index_from_end pages 2) ;;
       last_page <- lift (Py.int last_text) ;;
       page_requests url (Py.range 1 (last_page + 1)) last_page
                     (response_meta_data response))%gen
  end.

Definition parse_page_item (response : payments_response)
    (row : list string * list string) : gen Item unit :=
  (let '(headline, raw_details) := row in
   let headline := List.map str_strip headline in
   published_at <- lift (Py.index headline 0) ;;
   phase <- lift (Py.index headline 1) ;;
   company_or_person <- lift (Py.index headline 2) ;;
   value <- lift (Py.index headline 3) ;;
   crawled_at <- datetime_utcnow_aware clock ;;
   let item : Item :=
     <["published_at" := VStr published_at]>
     (<["phase" := VStr phase]>
     (<["company_or_person" := VStr company_or_person]>
     (<["value" := VStr value]>
     (<["crawled_at" := VDatetime crawled_at]>
     (<["crawled_from" := VStr (payments_url response)]> ∅))))) in
   let details := List.map str_strip raw_details in
   item <- lift (extract_details details item) ;;
   yield item)%gen.

Definition parse_page (response : payments_response) : gen Item unit :=
  for_each (Py.zip (payments_headlines response) (payments_details response))
           (parse_page_item response).

End Spider.

End PaymentsSpider.

(** ** COVID19ExpensesSpider *)

Module COVID19ExpensesSpider.

Definition source : string :=
  "http://www.transparencia.feiradesantana.ba.gov.br/index.php?view=despesascovid".

Definition url : string :=
  "http://www.transparencia.feiradesantana.ba.gov.br/controller/despesaCovid.php".

Definition data : gmap string string :=
  <["POST_PARAMETRO" := "PesquisaDespesasCovid"]>
  (<["POST_DATA" := ""]>
  (<["POST_NMCREDOR" := ""]>
  (<["POST_CPFCNPJ" := ""]>
  (<["POST_BEM" := ""]> ∅)))).

Definition initial_date : date := mkdate 2010 1 1.

(** [self.data] is the dictionary of the class; [data] below is the copy
    each round makes and writes the phase to. *)
Definition start_requests_phase (self_data : gmap string string) (phase : string)
  : gen request unit :=
  let data := self_data in
  let data := <["POST_FASE" := phase]> data in
  yield (FormRequest url self_data Parse None).

Definition start_requests : gen request unit :=
  for_each ["PAG"; "EMP"; "LIQ"] (start_requests_phase data).

(** Each round starts from a new copy of [self.data]. *)
Fixpoint page_requests (pages : list Z) (last_page : Z) : gen request unit :=
  match pages with
  | [] => gret tt
  | page :: rest =>
      let data := data in
      let data := <["POST_PAGINA" := Py.str page]> data in
      let data := <["POST_PAGINAS" := Py.str last_page]> data in
      (yield (FormRequest url data ParsePage None) ;;
       page_requests rest last_page)%gen
  end.

Definition parse (pagination_texts : list string) : gen request unit :=
  let pages := pagination_texts in
  match pages with
  | [] => gret tt
  | _ :: _ =>
      (last_text <- lift (Py.index_from_end pages 2) ;;
       last_page <- lift (Py.int last_text) ;;
       page_requests (Py.range 1 (last_page + 1)) last_page)%gen
  end.

Definition mapping : gmap string string :=
  <["N°:" := "number"]>
  (<["CPF/CNPJ:" := "document"]>
  (<["Data:" := "date"]>
  (<["N° do processo:" := "process_number"]>
  (<["Bem / Serviço Prestado:" := "summary"]>
  (<["Natureza:" := "group"]>
  (<["Ação:" := "action"]>
  (<["Função:" := "function"]>
  (<["Subfunção:" := "subfunction"]>
  (<["Processo Licitatório:" := "type_of_process"]>
  (<["Fonte de Recurso:" := "resource"]> ∅)))))))))).

Fixpoint extract_details (details_copy : list string) (item : Item) : result Item :=
  match details_copy with
  | [] => Ok item
  | key :: details_copy =>
      match details_copy with
      | [] => Raise IndexError
      | value :: details_copy =>
          (field <- of_option KeyError (mapping !! key) ;;
           extract_details details_copy (<[field := VStr value]> item))%result
      end
  end.

Section Spider.
Context `{PyStr}.
Variable clock : nat -> datetime.

Definition parse_page_item (response : payments_response)
    (row : list string * list string) : gen Item unit :=
  (let '(headline, raw_details) := row in
   let headline := List.map str_strip headline in
   published_at <- lift (Py.index headline 0) ;;
   phase <- lift (Py.index headline 1) ;;
   company_or_person <- lift (Py.index headline 2) ;;
   value <- lift (Py.index headline 3) ;;
   crawled_at <- datetime_utcnow_aware clock ;;
   let item : Item :=
     <["published_at" := VStr published_at]>
     (<["phase" := VStr phase]>
     (<["company_or_person" := VStr company_or_person]>
     (<["value" := VStr value]>
     (<["crawled_at" := VDatetime crawled_at]>
     (<["crawled_from" := VStr source]> ∅))))) in
   let details := List.map str_strip raw_details in
   item <- lift (extract_details details item) ;;
   yield item)%gen.

Definition parse_page (response : payments_response) : gen Item unit :=
  for_each (Py.zip (payments_headlines response) (payments_details response))
           (parse_page_item response).

End Spider.

End COVID19ExpensesSpider.

(** ** An instance for Portuguese text

    The string methods below read Basic Latin and the accented letters of
    Latin-1 (U+00C0 to U+00FF, two bytes C3 xx in the encoding), which is
    what the pages of the portal hold.  They are used to run the spiders on
    the examples; the theorems about the spiders hold for every instance. *)

Module Latin1.

Local Open Scope nat_scope.

Definition lower_byte (n : nat) : nat :=
  if (65 <=? n) && (n <=? 90) then n + 32 else n.

Definition upper_byte (n : nat) : nat :=
  if (97 <=? n) && (n <=? 122) then n - 32 else n.

(** The byte after C3: À..Þ are 80..9E (97 is the sign ×), à..þ are A0..BE
    (B7 is the sign ÷). *)
Definition lower_c3 (n : nat) : nat :=
  if (128 <=? n) && (n <=? 158) && negb (n =? 151) then n + 32 else n.

Definition upper_c3 (n : nat) : nat :=
  if (160 <=? n) && (n <=? 190) && negb (n =? 183) then n - 32 else n.

Fixpoint lower_go (after_c3 : bool) (s : string) : string :=
  match s with
  | EmptyString => EmptyString
  | String c s' =>
      let n := nat_of_ascii c in
      if after_c3 then String (ascii_of_nat (lower_c3 n)) (lower_go false s')
      else String (ascii_of_nat (lower_byte n)) (lower_go (n =? 195) s')
  end.

Definition lower (s : string) : string := lower_go false s.

(** The capital of a letter of two bytes: ß (C3 9F) becomes [eszett], ÿ
    (C3 BF) becomes Ÿ (C5 B8) and µ (C2 B5) becomes Μ (CE 9C), which are
    not in Latin-1. *)
Definition upper_pair (eszett : string) (c d : nat) : string :=
  if (c =? 195) && (d =? 159) then eszett
  else if (c =? 195) && (d =? 191) then String (ascii_of_nat 197) (String (ascii_of_nat 184) "")
  else if (c =? 194) && (d =? 181) then String (ascii_of_nat 206) (String (ascii_of_nat 156) "")
  else if c =? 195 then String (ascii_of_nat c) (String (ascii_of_nat (upper_c3 d)) "")
  else String (ascii_of_nat c) (String (ascii_of_nat d) "").

Fixpoint upper (s : string) : string :=
  match s with
  | EmptyString => EmptyString
  | String c s' =>
      let n := nat_of_ascii c in
      if (n =? 194) || (n =? 195) then
        match s' with
        | String d s'' => upper_pair "SS" n (nat_of_ascii d) +:+ upper s''
        | EmptyString => s
        end
      else String (ascii_of_nat (upper_byte n)) (upper s')
  end.

(** [s.capitalize()]: the first character in title case, the others in
    lower case. *)
Definition capitalize (s : string) : string :=
  match s with
  | EmptyString => EmptyString
  | String c s' =>
      let n := nat_of_ascii c in
      if (n =? 194) || (n =? 195) then
        match s' with
        | String d s'' => upper_pair "Ss" n (nat_of_ascii d) +:+ lower s''
        | EmptyString => s
        end
      else String (ascii_of_nat (upper_byte n)) (lower s')
  end.

(** The white space of Latin-1 that takes two bytes: U+0085 (C2 85) and
    U+00A0 (C2 A0). *)
Definition is_space_pair (c d : ascii) : bool :=
  (nat_of_ascii c =? 194) && ((nat_of_ascii d =? 133) || (nat_of_ascii d =? 160)).

Fixpoint lstrip (s : string) : string :=
  match s with
  | EmptyString => EmptyString
  | String c s' =>
      if Py.is_space c then lstrip s'
      else match s' with
           | String d s'' => if is_space_pair c d then lstrip s'' else s
           | EmptyString => s
           end
  end.

Fixpoint rstrip (s : string) : string :=
  match s with
  | EmptyString => EmptyString
  | String c s' =>
      match rstrip s' with
      | EmptyString => if Py.is_space c then EmptyString else String c EmptyString
      | String d EmptyString =>
          if is_space_pair c d then EmptyString else String c (String d EmptyString)
      | r => String c r
      end
  end.

Definition strip (s : string) : string := rstrip (lstrip s).

Definition isspace (s : string) : bool :=
  negb (String.eqb s "") && String.eqb (lstrip s) "".

(** The pattern of [parse_page]:
    licitacoes_pm\.asp[\?|&]cat=(\w+)\&dt=(\d+-\d+) *)
Fixpoint strip_prefix (p s : string) : option string :=
  match p, s with
  | EmptyString, _ => Some s
  | String a p', String b s' => if Ascii.eqb a b then strip_prefix p' s' else None
  | String _ _, EmptyString => None
  end.

Fixpoint span (f : ascii -> bool) (s : string) : string * string :=
  match s with
  | String c s' =>
      if f c then let '(a, b) := span f s' in (String c a, b) else (EmptyString, s)
  | EmptyString => (EmptyString, EmptyString)
  end.

Definition is_word (c : ascii) : bool :=
  let n := nat_of_ascii c in
  Py.is_digit c || ((65 <=? n) && (n <=? 90)) || ((97 <=? n) && (n <=? 122)) || (n =? 95).

Definition nonempty (s : string) : bool := negb (String.eqb s "").

Definition url_pattern_at (s : string) : option (string * string) :=
  s ← strip_prefix "licitacoes_pm.asp" s;
  match s with
  | String c s =>
      if Ascii.eqb c "?" || Ascii.eqb c "|" || Ascii.eqb c "&" then
        s ← strip_prefix "cat=" s;
        let '(cat, s) := span is_word s in
        if nonempty cat then
          s ← strip_prefix "&dt=" s;
          let '(month, s) := span Py.is_digit s in
          if nonempty month then
            s ← strip_prefix "-" s;
            let '(year, _) := span Py.is_digit s in
            if nonempty year then Some (cat, month +:+ "-" +:+ year) else None
          else None
        else None
      else None
  | EmptyString => None
  end.

Fixpoint search_url_pattern (s : string) : option (string * string) :=
  match url_pattern_at s with
  | Some groups => Some groups
  | None =>
      match s with
      | String _ s' => search_url_pattern s'
      | EmptyString => None
      end
  end.

(** [urljoin] of an absolute URL is that URL; a path from the root keeps
    the scheme and the host of the base, another path replaces the last
    segment of the base. *)
Fixpoint index_of (p s : string) (i : nat) : option nat :=
  if String.prefix p s then Some i
  else match s with
       | String _ s' => index_of p s' (S i)
       | EmptyString => None
       end.

Fixpoint last_slash (s : string) (i : nat) (found : nat) : nat :=
  match s with
  | String c s' => last_slash s' (S i) (if Ascii.eqb c "/" then S i else found)
  | EmptyString => found
  end.

Definition join_url (base url : string) : string :=
  if Py.contains "://" url then url
  else
    let host_start := default 0 ((fun i => i + 3) <$> index_of "://" base 0) in
    let rest := String.substring host_start (String.length base) base in
    let host_end := host_start + default (String.length rest) (index_of "/" rest 0) in
    if String.prefix "/" url then String.substring 0 host_end base +:+ url
    else
      let dir_end := last_slash rest host_start host_start in
      if dir_end =? host_start then base +:+ "/" +:+ url
      else String.substring 0 dir_end base +:+ url.

End Latin1.

#[global] Instance latin1_pystr : PyStr := {|
  str_lower := Latin1.lower;
  str_upper := Latin1.upper;
  str_capitalize := Latin1.capitalize;
  str_strip := Latin1.strip;
  str_isspace := Latin1.isspace;
  url_pattern_search := Latin1.search_url_pattern;
  urljoin := Latin1.join_url
|}.

(** ** The helpers that are not in the module

    scraper/spiders/utils.py and datasets/parsers.py are imported by the
    module and are not part of it. *)

Module Helpers.

Local Open Scope nat_scope.

(** Modelled from the spec: [extract_param] of scraper/spiders/utils.py,
    which "extracts an embedded month/year token from the URL": the value
    of the named parameter of the query of the URL, None when the URL has
    no such parameter. *)
Definition query_of (url : string) : string :=
  match Py.split url "?" with
  | _ :: q :: _ => List.hd "" (Py.split q "#")
  | _ => ""
  end.

Fixpoint find_param (name : string) (pairs : list string) : option string :=
  match pairs with
  | [] => None
  | p :: rest =>
      match Latin1.strip_prefix (name +:+ "=") p with
      | Some v => if Latin1.nonempty v then Some v else find_param name rest
      | None => find_param name rest
      end
  end.

Definition extract_param (url param : string) : result (option string) :=
  Ok (find_param param (Py.split (query_of url) "&")).

(** Modelled from the spec: [identify_contract_id] of
    scraper/spiders/utils.py, which "extracts a canonical contract
    identifier from a free-text headline": the first run of digits, a dash,
    digits, a dash and letters or digits, as 11-2017-1926C in the docstring
    of [ContractsSpider.parse_page]; None when there is none. *)
Definition contract_id_at (s : string) : option string :=
  let '(a, s) := Latin1.span Py.is_digit s in
  if Latin1.nonempty a then
    s ← Latin1.strip_prefix "-" s;
    let '(b, s) := Latin1.span Py.is_digit s in
    if Latin1.nonempty b then
      s ← Latin1.strip_prefix "-" s;
      let '(c, _) := Latin1.span Latin1.is_word s in
      if Latin1.nonempty c then Some (a +:+ "-" +:+ b +:+ "-" +:+ c) else None
    else None
  else None.

Fixpoint find_contract_id (s : string) : option string :=
  match contract_id_at s with
  | Some id => Some id
  | None =>
      match s with
      | String _ s' => find_contract_id s'
      | EmptyString => None
      end
  end.

Definition identify_contract_id (text : string) : result (option string) :=
  Ok (find_contract_id text).

(** Modelled from the spec: [is_url] of scraper/spiders/utils.py, which
    "detects and rejects non-absolute/invalid URLs": an absolute http or
    https URL. *)
Definition is_url (url : string) : bool :=
  (String.prefix "http://" url && (7 <? String.length url)) ||
  (String.prefix "https://" url && (8 <? String.length url)).

(** Modelled from the spec: [strip_accents] of scraper/spiders/utils.py,
    the "accent-stripped" text: an accented letter of Latin-1 becomes its
    base letter and a combining mark (U+0300 to U+036F) is dropped. *)
Definition base_letter (n : nat) : option ascii :=
  if (128 <=? n) && (n <=? 133) then Some "A"%char
  else if n =? 135 then Some "C"%char
  else if (136 <=? n) && (n <=? 139) then Some "E"%char
  else if (140 <=? n) && (n <=? 143) then Some "I"%char
  else if n =? 145 then Some "N"%char
  else if (146 <=? n) && (n <=? 150) then Some "O"%char
  else if (153 <=? n) && (n <=? 156) then Some "U"%char
  else if n =? 157 then Some "Y"%char
  else if (160 <=? n) && (n <=? 165) then Some "a"%char
  else if n =? 167 then Some "c"%char
  else if (168 <=? n) && (n <=? 171) then Some "e"%char
  else if (172 <=? n) && (n <=? 175) then Some "i"%char
  else if n =? 177 then Some "n"%char
  else if (178 <=? n) && (n <=? 182) then Some "o"%char
  else if (185 <=? n) && (n <=? 188) then Some "u"%char
  else if (n =? 189) || (n =? 191) then Some "y"%char
  else None.

Definition is_combining (lead next : nat) : bool :=
  ((lead =? 204) && (128 <=? next) && (next <=? 191)) ||
  ((lead =? 205) && (128 <=? next) && (next <=? 175)).

Fixpoint strip_accents (s : string) : string :=
  match s with
  | EmptyString => EmptyString
  | String c s' =>
      match s' with
      | String d s'' =>
          if is_combining (nat_of_ascii c) (nat_of_ascii d) then strip_accents s''
          else if nat_of_ascii c =? 195 then
            match base_letter (nat_of_ascii d) with
            | Some b => String b (strip_accents s'')
            | None => String c (String d (strip_accents s''))
            end
          else String c (strip_accents s')
      | EmptyString => s
      end
  end.

(** Modelled from the spec: [from_str_to_datetime] of datasets/parsers.py,
    which "accepts the portal's native textual date format and produces a
    timestamp": the midnight of a date written day/month/year, None for
    another text. *)
Definition from_str_to_datetime (date_str : string) : result (option datetime) :=
  Ok match Py.split date_str "/" with
     | [d; m; y] =>
         match Py.int d, Py.int m, Py.int y with
         | Ok d, Ok m, Ok y =>
             match date_new y m d with
             | Ok date => Some (mkdatetime date 0)
             | Raise _ => None
             end
         | _, _, _ => None
         end
     | _ => None
     end.

End Helpers.

#[global] Instance helpers_utils : Utils := {|
  extract_param := Helpers.extract_param;
  identify_contract_id := Helpers.identify_contract_id;
  is_url := Helpers.is_url;
  strip_accents := Helpers.strip_accents;
  from_str_to_datetime := Helpers.from_str_to_datetime
|}.

(** * The vocabulary of the properties *)

(** A round of a loop that either stops the generator with nothing
    yielded or logged, or reads the clock once and yields one value that
    [Q] holds of. *)
Definition one_item {Y} (Q : nat -> Y -> Prop) (m : gen Y unit) : Prop :=
  forall n,
    (trace (m n) = [] /\ raises (value (m n))) \/
    (exists y, trace (m n) = [Yield y] /\ reads (m n) = S n /\
               value (m n) = Ok tt /\ Q n y).

(** The table of the specification: the keywords in the order they are
    tried, each with its category. *)
Definition modality_table : list (string * string) :=
  [("tomada", "tomada_de_precos");
   ("pregao presencial", "pregao_presencial");
   ("pregao eletronico", "pregao_eletronico");
   ("leilao", "leilao");
   ("inexigibilidade", "inexigibilidade");
   ("dispensa", "dispensada");
   ("convite", "convite");
   ("concurso", "concurso");
   ("concorrencia", "concorrencia");
   ("chamada", "chamada_publica");
   ("chamamento", "chamada_publica")].

(** The category of the first keyword of the table found in the text. *)
Fixpoint first_match (table : list (string * string)) (text : string) : option string :=
  match table with
  | [] => None
  | (keyword, category) :: rest =>
      if Py.contains keyword text then Some category else first_match rest text
  end.

(** The text the keywords are searched in. *)
Definition normalized `{PyStr} `{Utils} (text : string) : string :=
  str_lower (strip_accents (str_lower text)).

(** The no-break space, U+00A0, in UTF-8. *)
Definition nbsp : string := String "194" (String "160" "").

(** The request for page [p] of [last]: the dictionary of the query with
    the two page fields. *)
Definition page_request (url : string) (data : gmap string string) (last p : Z)
  : request :=
  FormRequest url
    (<["POST_PAGINAS" := Py.str last]> (<["POST_PAGINA" := Py.str p]> data))
    ParsePage None.

(** The walker of the pages, with the address of the spider: the [parse]
    of the contracts and of the payments. *)
Definition walk (url : string) (response : query_response)
  : gen request (gmap string string) :=
  match pagination_texts response with
  | [] => gret (response_meta_data response)
  | _ :: _ =>
      (last_text <- lift (Py.index_from_end (pagination_texts response) 2) ;;
       last_page <- lift (Py.int last_text) ;;
       page_requests url (Py.range 1 (last_page + 1)) last_page
                     (response_meta_data response))%gen
  end.

(** What the walker does, by the entries of the pagination control. *)
Inductive walked (url : string) (response : query_response) (n : nat) : Prop :=
| walked_single :
    pagination_texts response = [] ->
    trace (walk url response n) = [] ->
    value (walk url response n) = Ok (response_meta_data response) ->
    walked url response n
| walked_pages last_text last_page :
    Py.index_from_end (pagination_texts response) 2 = Ok last_text ->
    Py.int last_text = Ok last_page ->
    yields (trace (walk url response n)) =
      List.map (page_request url (response_meta_data response) last_page)
               (Py.range 1 (last_page + 1)) ->
    ~ raises (value (walk url response n)) ->
    walked url response n
| walked_short :
    pagination_texts response <> [] ->
    Py.index_from_end (pagination_texts response) 2 = Raise IndexError ->
    trace (walk url response n) = [] ->
    value (walk url response n) = Raise IndexError ->
    walked url response n
| walked_unparsable last_text :
    Py.index_from_end (pagination_texts response) 2 = Ok last_text ->
    Py.int last_text = Raise ValueError ->
    trace (walk url response n) = [] ->
    value (walk url response n) = Raise ValueError ->
    walked url response n.

(** What [parse] does with the response to a query, for the address [url]
    of the spider. *)
Definition walks (parse : query_response -> gen request (gmap string string))
    (url : string) : Prop :=
  forall (response : query_response) (n : nat),
    (pagination_texts response = [] ->
     trace (parse response n) = [] /\
     value (parse response n) = Ok (response_meta_data response)) /\
    (forall last_text last_page,
        Py.index_from_end (pagination_texts response) 2 = Ok last_text ->
        Py.int last_text = Ok last_page ->
        yields (trace (parse response n)) =
          List.map (page_request url (response_meta_data response) last_page)
                   (Py.range 1 (last_page + 1)) /\
        ~ raises (value (parse response n))) /\
    (pagination_texts response <> [] ->
     Py.index_from_end (pagination_texts response) 2 = Raise IndexError ->
     trace (parse response n) = [] /\
     value (parse response n) = Raise IndexError) /\
    (forall last_text,
        Py.index_from_end (pagination_texts response) 2 = Ok last_text ->
        Py.int last_text = Raise ValueError ->
        trace (parse response n) = [] /\
        value (parse response n) = Raise ValueError).

(** The entries of [mapping]. *)
Definition mapping_entries : list (string * string) :=
  [("N°:", "number");
   ("CPF/CNPJ:", "document");
   ("Data:", "date");
   ("N° do processo:", "process_number");
   ("Bem / Serviço Prestado:", "summary");
   ("Natureza:", "group");
   ("Ação:", "action");
   ("Função:", "function");
   ("Subfunção:", "subfunction");
   ("Processo Licitatório:", "type_of_process");
   ("Fonte de Recurso:", "resource")].

(** The label of a field. *)
Definition label_of (field : string) : string :=
  default "" (fst <$> List.find (fun entry => String.eqb (snd entry) field) mapping_entries).

(** The provenance of a record: the reading of the clock and the address
    the record says it comes from. *)
Definition provenance (clock : nat -> datetime) (crawled_from : string)
    (n : nat) (it : Item) : Prop :=
  it !! "crawled_at" = Some (VDatetime (clock n)) /\
  it !! "crawled_from" = Some (VStr crawled_from).

(** A clock for the examples: the seconds of the 15th of August 2020. *)
Definition example_clock (n : nat) : datetime :=
  mkdatetime (mkdate 2020 8 15) (Z.of_nat n * 1000000).

(** What an odd block of tokens does to a page: the generator ends with an
    exception at that block; the records of the blocks before it, if they
    were all read, are the only ones yielded, and nothing is logged. *)
Definition stops_at_odd_block (parse_page : payments_response -> gen Item unit) : Prop :=
  forall (response : payments_response) (n : nat)
         (hs : list (list string)) (h : list string) (hs' : list (list string))
         (ds : list (list string)) (d : list string) (ds' : list (list string)),
    payments_headlines response = hs ++ h :: hs' ->
    payments_details response = ds ++ d :: ds' ->
    List.length hs = List.length ds ->
    Nat.Odd (List.length d) ->
    raises (value (parse_page response n)) /\
    logged (trace (parse_page response n)) = [] /\
    (List.length (yields (trace (parse_page response n))) <= List.length hs)%nat.

(** A page of payments whose first block has three tokens. *)
Definition odd_page : payments_response :=
  mkpayments PaymentsSpider.url
    [["22/10/2019"; "PAG"; "ACME LTDA"; "R$ 62.960,00"];
     ["23/10/2019"; "PAG"; "OUTRA LTDA"; "R$ 10,00"]]
    [["Data:"; "22/10/2019"; "N°:"];
     ["Data:"; "23/10/2019"; "N°:"; "19000215/0005"]].

(** The tokens of a list of (label, value) pairs. *)
Fixpoint tokens (pairs : list (string * string)) : list string :=
  match pairs with
  | [] => []
  | (label, value) :: rest => label :: value :: tokens rest
  end.

(** One round of the loop on a pair with a known label. *)
Definition assign (it : Item) (pair : string * string) : Item :=
  match PaymentsSpider.mapping !! fst pair with
  | Some field => <[field := VStr (snd pair)]> it
  | None => it
  end.

(** A pair whose label is in [mapping]. *)
Definition known (pair : string * string) : Prop :=
  is_Some (PaymentsSpider.mapping !! fst pair).

(** A page of payments with one well-formed block. *)
Definition example_payments (url : string) : payments_response :=
  mkpayments url
    [["22/10/2019"; " PAG "; "ACME LTDA"; "R$ 62.960,00"]]
    [["N°:"; "19000215/0004"; "CPF/CNPJ:"; "90.180.605/0001-02";
      "Data:"; "22/10/2019"; "N° do processo:"; "010-2019"]].

(** An event without the time of the record. *)
Definition forget_time (e : event Item) : event Item :=
  match e with
  | Yield it => Yield (delete "crawled_at" it)
  | Log l r => Log l r
  end.

(** Two outcomes that differ at most in the crawled_at of their records. *)
Definition same_but_time {A} (o1 o2 : outcome Item A) : Prop :=
  reads o1 = reads o2 /\ value o1 = value o2 /\
  List.map forget_time (trace o1) = List.map forget_time (trace o2).

(** Two runs agree on everything but the time of the records. *)
Definition agree_but_time {A} (o1 o2 : outcome Item A) : Prop :=
  value o1 = value o2 /\
  logged (trace o1) = logged (trace o2) /\
  List.map (delete "crawled_at") (yields (trace o1)) =
  List.map (delete "crawled_at") (yields (trace o2)).

(** The page of the docstring of [ContractsSpider.parse_page]. *)
Definition example_contracts : ContractsSpider.response :=
  ContractsSpider.mkresponse
    ContractsSpider.url
    [ContractsSpider.mkheadline
       ["CONTRATO N° 11-2017-1926C   REFERENTE A CONTRATAÇÃO DE EMPRESA AQUISIÇÃO DE ÁGUA MINERAL NATURAL PARA A...";
        "01/06/2017"]]
    [ContractsSpider.mkdetails
       ["Objeto:";
        "REFERENTE A CONTRATAÇÃO DE EMPRESA AQUISIÇÃO DE ÁGUA MINERAL NATURAL PARA ATENDER AS NECESSIDADES DA SUPERINTENDÊNCIA MUNICIPAL DE TRÂNSITO.";
        "Contratada:";
        " 74.096.231/0001-80 - WAMBERTO LOPES DE ARAUJO - ME ";
        "Valor:"; "R$ 62.960,00";
        "Data Final de Contrato:"; "01/06/2018";
        "VISUALIZAR"]
       (Some "/contratos/11-2017-1926C.pdf")].

(** The record of the page of the docstring. *)
Definition example_contract_item : Item :=
  <["files" := VFiles ["http://www.transparencia.feiradesantana.ba.gov.br/contratos/11-2017-1926C.pdf"]]>
  (<["contract_id" := VStr "11-2017-1926C"]>
  (<["starts_at" := VStr "01/06/2017"]>
  (<["summary" := VStr "REFERENTE A CONTRATAÇÃO DE EMPRESA AQUISIÇÃO DE ÁGUA MINERAL NATURAL PARA ATENDER AS NECESSIDADES DA SUPERINTENDÊNCIA MUNICIPAL DE TRÂNSITO."]>
  (<["contractor_document" := VStr "74.096.231/0001-80"]>
  (<["contractor_name" := VStr "WAMBERTO LOPES DE ARAUJO"]>
  (<["value" := VStr "R$ 62.960,00"]>
  (<["ends_at" := VStr "01/06/2018"]>
  (<["crawled_at" := VDatetime (example_clock 0)]>
  (<["crawled_from" := VStr ContractsSpider.url]> ∅))))))))).

(** The day a leap year has more. *)
Definition leap_day (y : Z) : Z := if is_leap y then 1 else 0.

(** The days before a month, month by month. *)
Definition days_before_month_table (y m : Z) : Z :=
  if m <=? 1 then 0
  else if m =? 2 then 31
  else leap_day y +
       (if m =? 3 then 59 else if m =? 4 then 90 else if m =? 5 then 120
        else if m =? 6 then 151 else if m =? 7 then 181 else if m =? 8 then 212
        else if m =? 9 then 243 else if m =? 10 then 273 else if m =? 11 then 304
        else 334).

(** [k] days from [d] on. *)
Fixpoint days_from (d : date) (k : nat) : list date :=
  match k with
  | O => []
  | S k' => d :: days_from (next_day d) k'
  end.

(** The number of days from [start] to [today]. *)
Definition days_between (start today : date) : nat :=
  Z.to_nat (toordinal today - toordinal start).

(** The request for the day [d]. *)
Definition day_request (url : string) (data : gmap string string) (d : date) : request :=
  let formatted_date := strftime_dmY d in
  let data := <["POST_DATA" := formatted_date +:+ " - " +:+ formatted_date]> data in
  FormRequest url data Parse (Some data).

(** The round of the loop of [start_requests]. *)
Definition day_round (url : string) (data : gmap string string) (d : date)
  : gen request date :=
  (yield (day_request url data d) ;; lift (add_one_day d))%gen.

(** A window of the specification: from its start up to its end, which
    is not in it. *)
Record CrawlWindow : Type := mkwindow { window_start : date; window_end : date }.

(** The window of the query of a day: the day, up to the next day. *)
Definition day_window (d : date) : CrawlWindow := mkwindow d (next_day d).

(** The windows of a crawl from [start] to [today], in the order of the
    queries. *)
Record day_windows (start today : date) (windows : list CrawlWindow) : Prop := {
  (* a window is one calendar day *)
  windows_one_day : forall i w,
    windows !! i = Some w ->
    valid_date (window_start w) = true /\ window_end w = next_day (window_start w);
  (* each day from the start to the eve of today has its window, once *)
  windows_every_day : forall d,
    valid_date d = true -> date_leb start d = true -> date_ltb d today = true ->
    exists i, windows !! i = Some (day_window d);
  windows_once : forall i j w,
    windows !! i = Some w -> windows !! j = Some w -> i = j;
  (* in ascending order *)
  windows_ascending : forall i j wi wj,
    (i < j)%nat -> windows !! i = Some wi -> windows !! j = Some wj ->
    date_ltb (window_start wi) (window_start wj) = true;
  (* a window ends where the next one starts *)
  windows_contiguous : forall i w w',
    windows !! i = Some w -> windows !! S i = Some w' ->
    window_end w = window_start w';
  (* all within [start, today) *)
  windows_within : forall i w,
    windows !! i = Some w ->
    date_leb start (window_start w) = true /\
    date_ltb (window_start w) today = true /\
    date_leb (window_end w) today = true;
  (* none when the start is today or later *)
  windows_empty : date_leb today start = true -> windows = []
}.

(** Whether all the characters of a text satisfy [f]. *)
Fixpoint all_chars (f : ascii -> bool) (s : string) : bool :=
  match s with
  | EmptyString => true
  | String c s' => f c && all_chars f s'
  end.

(** The number a text of ASCII digits writes. *)
Fixpoint read_digits (s : string) (acc : Z) : option Z :=
  match s with
  | EmptyString => Some acc
  | String c s' =>
      if Py.is_digit c then read_digits s' (acc * 10 + Py.digit_value c) else None
  end.

Definition read_number (s : string) : option Z :=
  match s with
  | EmptyString => None
  | String _ _ => read_digits s 0
  end.

(** Whether a text is the number [n] in ASCII digits. *)
Definition writes (text : string) (n : Z) : bool :=
  all_chars Py.is_digit text &&
  match read_number text with
  | Some k => k =? n
  | None => false
  end.

(** The day a text day/month/year names. *)
Definition read_day (s : string) : option date :=
  match Py.split s "/" with
  | [d; m; y] =>
      match read_number d, read_number m, read_number y with
      | Some d, Some m, Some y =>
          if valid_date (mkdate y m d) then Some (mkdate y m d) else None
      | _, _, _ => None
      end
  | _ => None
  end.

(** The window a query asks the portal for.  POST_DATA holds the first and
    the last day of the records wanted, as "first - last"; the window
    starts at the first day and ends at the day after the last, which is
    not in it. *)
Definition queried_window (r : request) : option CrawlWindow :=
  match request_formdata r !! "POST_DATA" with
  | Some text =>
      match Py.split text " - " with
      | [first; last] =>
          match read_day first, read_day last with
          | Some first, Some last => Some (mkwindow first (next_day last))
          | _, _ => None
          end
      | _ => None
      end
  | None => None
  end.

(** What [start_requests] does, for the address and the form of the
    spider: with rounds enough for the days between the start and today,
    the loop ends and the requests yielded are those of the days of the
    windows; the window each request asks the portal for, read back from
    the text of its POST_DATA, is the window of its day, and no two of the
    requests are the same. *)
Definition crawls_each_day
    (start_requests : (nat -> datetime) -> date -> nat -> gen request (option date))
    (url : string) (data : gmap string string) : Prop :=
  forall (clock : nat -> datetime) (start_date : date) (fuel n : nat),
    valid_date start_date = true ->
    valid_date (datetime_date (clock n)) = true ->
    (days_between start_date (datetime_date (clock n)) <= fuel)%nat ->
    exists days,
      yields (trace (start_requests clock start_date fuel n)) =
        day_request url data <$> days /\
      (exists final, value (start_requests clock start_date fuel n) = Ok (Some final)) /\
      day_windows start_date (datetime_date (clock n)) (day_window <$> days) /\
      queried_window <$> yields (trace (start_requests clock start_date fuel n)) =
        Some <$> (day_window <$> days) /\
      NoDup (yields (trace (start_requests clock start_date fuel n))).

(** The comparison of the specification: the month and year of the link
    against the month and year of the start. *)
Definition month_year_geb (y m : Z) (start : date) : bool :=
  (year start <? y) || ((year start =? y) && (month start <=? m)).

(** The comparison of the code: the first day of the month of the link
    against the start. *)
Definition first_day_geb (y m : Z) (start : date) : bool :=
  (year start <? y) ||
  ((year start =? y) &&
   ((month start <? m) || ((month start =? m) && (day start =? 1)))).

(** The month and year [follow_this_date] reads in a link: the first two
    fields between "-" of the parameter dt, as integers in the range of a
    date; the fields after the second are not read. *)
Definition reads_month_year `{Utils} (url : string) (y m : Z) : Prop :=
  exists (token m_text y_text : string) (rest : list string),
    extract_param url "dt" = Ok (Some token) /\
    Py.split token "-" = m_text :: y_text :: rest /\
    Py.int y_text = Ok y /\ Py.int m_text = Ok m /\
    1 <= y <= 9999 /\ 1 <= m <= 12.

(** The link of the docstring of [follow_this_date]. *)
Definition example_link : string :=
  "http://www.feiradesantana.ba.gov.br/seadm/licitacoes_pm.asp?cat=PMFS&dt=08-2020#links".

(** A page of bids: a header row and one bid, with a relative link and a
    second link, and a history of two rows, one of them without a date. *)
Definition example_bids : BidsSpider.response :=
  BidsSpider.mkresponse example_link
    ["  "; " PREGÃO ELETRÔNICO 041-2020 "]
    [BidsSpider.mkdescription [] [" Objeto "];
     BidsSpider.mkdescription ["arquivos/edital.pdf"; "arquivos/anexo.pdf"]
       [" Aquisição de água mineral "; "   "; "natural."]]
    [[BidsSpider.mkrow (Some " 20/08/2020 ") (Some "EDITAL publicado") None;
      BidsSpider.mkrow (Some "sem data") (Some "nota") (Some "x.pdf")]]
    [":21/08/2020"].

Definition example_bid_item : Item :=
  <["crawled_at" := VDatetime (example_clock 0)]>
  (<["crawled_from" := VStr example_link]>
  (<["public_agency" := VStr "PMFS"]>
  (<["month" := VInt 8]>
  (<["year" := VInt 2020]>
  (<["description" := VStr "Aquisição de água mineralnatural."]>
  (<["history" := VHistory [mkhistory (mkdatetime (mkdate 2020 8 20) 0) "Edital publicado" ""]]>
  (<["codes" := VStr "PREGÃO ELETRÔNICO 041-2020"]>
  (<["modality" := VStr "pregao_eletronico"]>
  (<["session_at" := VDatetime (mkdatetime (mkdate 2020 8 21) 0)]> ∅))))))))).

(** ** The vocabulary of the pages, the links and the records *)

(** Whether [parse] follows a link: the answer of [follow_this_date] for
    the address of the link. *)
Definition followed `{PyStr} `{Utils} (start_date : date)
    (response : BidsSpider.index_response) (url : string) : bool :=
  match BidsSpider.follow_this_date start_date
          (BidsSpider.absolute_link response url) with
  | Ok true => true
  | _ => false
  end.

(** The request [parse] yields for a link it follows. *)
Definition link_request `{PyStr} (response : BidsSpider.index_response)
    (url : string) : BidsSpider.follow_request :=
  BidsSpider.Follow
    (urljoin (BidsSpider.index_url response) (BidsSpider.absolute_link response url)).

(** A link whose date [follow_this_date] reads. *)
Definition date_read `{PyStr} `{Utils} (start_date : date)
    (response : BidsSpider.index_response) (url : string) : Prop :=
  exists b, BidsSpider.follow_this_date start_date
              (BidsSpider.absolute_link response url) = Ok b.

(** The link [_parse_descriptions] keeps for a node: the first href,
    unless it is not empty and is no URL. *)
Definition kept_url `{Utils} (raw_description : BidsSpider.description_node)
  : option string :=
  match head (BidsSpider.description_hrefs raw_description) with
  | Some u => if (truthy (Some u) && negb (is_url u))%bool then None else Some u
  | None => None
  end.

(** The warnings [_parse_descriptions] logs for a node. *)
Definition description_warnings `{Utils} (raw_description : BidsSpider.description_node)
  : list log_record :=
  match head (BidsSpider.description_hrefs raw_description) with
  | Some u => if (truthy (Some u) && negb (is_url u))%bool then [InvalidURL u] else []
  | None => []
  end ++
  (if Nat.ltb 1 (List.length (BidsSpider.description_hrefs raw_description))
   then [MultipleURLs (BidsSpider.description_hrefs raw_description)] else []).

(** The descriptions [_parse_descriptions] returns: those of the nodes
    whose text is not "Objeto". *)
Definition described `{PyStr} `{Utils} (raw_description : BidsSpider.description_node)
  : list (string * option string) :=
  let description :=
    BidsSpider._parse_description (BidsSpider.description_texts raw_description) in
  if String.eqb description "Objeto" then []
  else [(description, kept_url raw_description)].

(** The rows of the loop of [parse_page], for the histories read. *)
Definition bid_rows `{PyStr} `{Utils} (response : BidsSpider.response)
    (bids_history : list (list history_event))
  : list (BidsSpider.modality_and_code * (string * option string)
          * list history_event * string) :=
  Py.zip (Py.zip (Py.zip (BidsSpider._parse_modalities (BidsSpider.raw_modalities response))
                         (BidsSpider.raw_descriptions response ≫= described))
                 bids_history)
         (BidsSpider._parse_date (BidsSpider.raw_date response)).

(** What the record of a row holds. *)
Definition bid_record `{PyStr} `{Utils} (response : BidsSpider.response)
    (row : BidsSpider.modality_and_code * (string * option string)
           * list history_event * string) (it : Item) : Prop :=
  let '(modality_and_code, (description, document_url), history, date) := row in
  it !! "crawled_from" = Some (VStr (BidsSpider.url response)) /\
  it !! "description" = Some (VStr description) /\
  it !! "history" = Some (VHistory history) /\
  it !! "codes" = Some (VStr (BidsSpider.codes modality_and_code)) /\
  it !! "modality" = Some (of_opt_str (BidsSpider.modality modality_and_code)) /\
  it !! "files" =
    (if truthy document_url
     then Some (VFiles [urljoin (BidsSpider.url response) (default "" document_url)])
     else None) /\
  exists agency month_year month_text year_text month year,
    url_pattern_search (BidsSpider.url response) = Some (agency, month_year) /\
    Py.split month_year "-" = [month_text; year_text] /\
    Py.int month_text = Ok month /\ Py.int year_text = Ok year /\
    it !! "public_agency" = Some (VStr (str_upper agency)) /\
    it !! "month" = Some (VInt month) /\
    it !! "year" = Some (VInt year) /\
    exists session_at,
      from_str_to_datetime date = Ok session_at /\
      it !! "session_at" = Some (of_opt_datetime session_at).

(** The record of a contract, by its parts. *)
Definition contract_item (contract_id : option string)
    (starts_at summary contractor_document contractor_name value ends_at : string)
    (crawled_at : datetime) (crawled_from : string) (document_url : option string)
  : Item :=
  let item : Item :=
    <["contract_id" := of_opt_str contract_id]>
    (<["starts_at" := VStr starts_at]>
    (<["summary" := VStr summary]>
    (<["contractor_document" := VStr contractor_document]>
    (<["contractor_name" := VStr contractor_name]>
    (<["value" := VStr value]>
    (<["ends_at" := VStr ends_at]>
    (<["crawled_at" := VDatetime crawled_at]>
    (<["crawled_from" := VStr crawled_from]> ∅)))))))) in
  if truthy document_url
  then <["files" := VFiles [ContractsSpider.base_url +:+ default "" document_url]]> item
  else item.

(** What a row of a page of contracts must hold for its record, and the
    record. *)
Definition contract_record `{PyStr} `{Utils} (crawled_at : datetime)
    (response : ContractsSpider.response)
    (row : ContractsSpider.headline_node * ContractsSpider.details_node)
    (it : Item) : Prop :=
  exists headline_text starts_at summary contractor_text value ends_at
         contract_id contractor_document contractor_name rest,
    Py.index (ContractsSpider.headline_th_texts (fst row)) 0 = Ok headline_text /\
    Py.index (ContractsSpider.headline_th_texts (fst row)) 1 = Ok starts_at /\
    identify_contract_id headline_text = Ok contract_id /\
    Py.index (ContractsSpider.clean_details (snd row)) 0 = Ok summary /\
    Py.index (ContractsSpider.clean_details (snd row)) 1 = Ok contractor_text /\
    Py.index (ContractsSpider.clean_details (snd row)) 2 = Ok value /\
    Py.index (ContractsSpider.clean_details (snd row)) 3 = Ok ends_at /\
    Py.split contractor_text " - " = contractor_document :: contractor_name :: rest /\
    it = contract_item contract_id starts_at summary contractor_document contractor_name
           value ends_at crawled_at (ContractsSpider.response_url response)
           (ContractsSpider.details_btn_href (snd row)).

(** What the requests of the pages of a query and the dictionary of the
    query are after [parse]: one request for each page from 1 to the last,
    in this order, each with the fields of the query and its two page
    fields; the dictionary ends with the fields of the last page, and is
    left as it was when there is no page. *)
Definition numbered_pages (url : string) (meta_data : gmap string string) (last_page : Z)
    (o : outcome request (gmap string string)) : Prop :=
  logged (trace o) = [] /\
  List.length (yields (trace o)) = Z.to_nat last_page /\
  (forall i r,
      yields (trace o) !! i = Some r ->
      request_url r = url /\
      request_callback r = ParsePage /\
      request_meta_data r = None /\
      request_formdata r !! "POST_PAGINA" = Some (Py.str (Z.of_nat i + 1)) /\
      request_formdata r !! "POST_PAGINAS" = Some (Py.str last_page) /\
      (forall k, k <> "POST_PAGINA" -> k <> "POST_PAGINAS" ->
                 request_formdata r !! k = meta_data !! k)) /\
  value o =
    Ok (if 1 <=? last_page
        then <["POST_PAGINAS" := Py.str last_page]>
               (<["POST_PAGINA" := Py.str last_page]> meta_data)
        else meta_data).

(** What [start_requests] leaves behind, for the address and the form of
    the spider: the start date is logged, then the clock is read, once;
    the requests of the days follow, and the loop ends at today, or at the
    start date when it is not before today. *)
Definition crawl_outcome (url : string) (data : gmap string string)
    (start_date today : date) (n : nat) : outcome request (option date) :=
  mkoutcome
    (Log INFO (InitialDate start_date) ::
     List.map (fun d => Yield (day_request url data d))
              (days_from start_date (days_between start_date today)))
    (S n)
    (Ok (Some (if date_ltb start_date today then today else start_date))).

(** The request of the i-th day of a crawl: the query of that one day, for
    the callback [parse], with the form data also under meta["data"]. *)
Definition request_of_day (url : string) (data : gmap string string)
    (start_date : date) (i : nat) (r : request) : Prop :=
  exists d,
    valid_date d = true /\
    toordinal d = toordinal start_date + Z.of_nat i /\
    request_url r = url /\
    request_callback r = Parse /\
    request_meta_data r = Some (request_formdata r) /\
    request_formdata r !! "POST_DATA" =
      Some (strftime_dmY d +:+ " - " +:+ strftime_dmY d) /\
    queried_window r = Some (day_window d) /\
    (forall k, k <> "POST_DATA" -> request_formdata r !! k = data !! k).

(** What the loop over the tokens of a block does, by the tokens: all
    pairs of a known label and a value, and the fields are assigned pair by
    pair; or pairs of known labels up to a pair whose label [mapping] does
    not have, and KeyError; or pairs of known labels and a last label
    alone, known or not, and IndexError. *)
Definition details_outcome (extract_details : list string -> Item -> result Item)
    (details : list string) (it : Item) : Prop :=
  (exists pairs,
      details = tokens pairs /\ Forall known pairs /\
      extract_details details it = Ok (foldl assign it pairs)) \/
  (exists pairs label value rest,
      details = tokens pairs ++ label :: value :: rest /\ Forall known pairs /\
      PaymentsSpider.mapping !! label = None /\
      extract_details details it = Raise KeyError) \/
  (exists pairs label,
      details = tokens pairs ++ [label] /\ Forall known pairs /\
      extract_details details it = Raise IndexError).

(** The value the pairs give to the field of a label: the value of the
    last pair with this label. *)
Definition last_value (label : string) (pairs : list (string * string))
  : option field_value :=
  (fun pair => VStr (snd pair)) <$>
    last (List.filter (fun pair => String.eqb (fst pair) label) pairs).

(** The record of a row of a page of payments: the four texts of the
    headline, stripped, the provenance, and for each label of the block the
    value of its last pair. *)
Definition payment_record `{PyStr} (crawled_at : datetime) (crawled_from : string)
    (row : list string * list string) (it : Item) : Prop :=
  exists published_at phase company_or_person value rest pairs,
    fst row = published_at :: phase :: company_or_person :: value :: rest /\
    List.map str_strip (snd row) = tokens pairs /\
    Forall known pairs /\
    it !! "published_at" = Some (VStr (str_strip published_at)) /\
    it !! "phase" = Some (VStr (str_strip phase)) /\
    it !! "company_or_person" = Some (VStr (str_strip company_or_person)) /\
    it !! "value" = Some (VStr (str_strip value)) /\
    it !! "crawled_at" = Some (VDatetime crawled_at) /\
    it !! "crawled_from" = Some (VStr crawled_from) /\
    (forall label field,
        PaymentsSpider.mapping !! label = Some field ->
        it !! field = last_value label pairs) /\
    (forall field,
        is_Some (it !! field) ->
        field ∈ ["published_at"; "phase"; "company_or_person"; "value";
                 "crawled_at"; "crawled_from"] \/
        exists label, PaymentsSpider.mapping !! label = Some field).

(** A row [parse_page] reads to the end. *)
Definition payment_row `{PyStr} (row : list string * list string) : Prop :=
  (4 <= List.length (fst row))%nat /\
  exists pairs, List.map str_strip (snd row) = tokens pairs /\ Forall known pairs.

(** A page of links of the bids: two months, a link of the services and
    a link with an address of its own. *)
Definition example_index : BidsSpider.index_response :=
  BidsSpider.mkindex
    "http://www.feiradesantana.ba.gov.br/seadm/licitacoes.asp"
    ["licitacoes_pm.asp?cat=PMFS&dt=07-2020";
     "licitacoes_pm.asp?cat=PMFS&dt=08-2020";
     "servicos.asp?id=2&dt=09-2020";
     "http://www.feiradesantana.ba.gov.br/seadm/licitacoes_pm.asp?cat=FMS&dt=10-2020"].

(** The same page with a link that has no date between two that have. *)
Definition example_index_undated : BidsSpider.index_response :=
  BidsSpider.mkindex
    "http://www.feiradesantana.ba.gov.br/seadm/licitacoes.asp"
    ["licitacoes_pm.asp?cat=PMFS&dt=08-2020";
     "licitacoes_pm.asp?cat=PMFS";
     "licitacoes_pm.asp?cat=PMFS&dt=09-2020"].


(** A page of bids at an address that is not one of a month of bids. *)
Definition example_bids_elsewhere : BidsSpider.response :=
  BidsSpider.mkresponse
    "http://www.feiradesantana.ba.gov.br/seadm/licitacoes.asp"
    (BidsSpider.raw_modalities example_bids)
    (BidsSpider.raw_descriptions example_bids)
    (BidsSpider.raw_bids_history example_bids)
    (BidsSpider.raw_date example_bids).

(** * Properties *)

(** ** Results and generators *)

Lemma raises_Raise {A} (e : exn) : raises (@Raise A e).
Proof. by exists e. Qed.

Lemma raises_not_Ok {A} (a : A) : ~ raises (Ok a).
Proof. by intros [e He]. Qed.

Lemma yields_app {Y} (t1 t2 : list (event Y)) :
  yields (t1 ++ t2) = yields t1 ++ yields t2.
Proof.
  induction t1 as [|[y|l r] t1 IH]; simpl; [done| |done].
  by rewrite IH.
Qed.

Lemma logged_app {Y} (t1 t2 : list (event Y)) :
  logged (t1 ++ t2) = logged t1 ++ logged t2.
Proof.
  induction t1 as [|[y|l r] t1 IH]; simpl; [done|done|].
  by rewrite IH.
Qed.

Lemma for_each_nil {Y A} (body : A -> gen Y unit) n :
  for_each [] body n = mkoutcome [] n (Ok tt).
Proof. done. Qed.

Lemma for_each_cons {Y A} (body : A -> gen Y unit) x l n :
  for_each (x :: l) body n =
  match value (body x n) with
  | Ok _ =>
      let o := for_each l body (reads (body x n)) in
      mkoutcome (trace (body x n) ++ trace o) (reads o) (value o)
  | Raise e => mkoutcome (trace (body x n)) (reads (body x n)) (Raise e)
  end.
Proof. done. Qed.

Lemma for_each_one_item {Y A} (Q : nat -> Y -> Prop) (body : A -> gen Y unit) :
  (forall x, one_item Q (body x)) ->
  forall l n i y,
    yields (trace (for_each l body n)) !! i = Some y -> Q (n + i)%nat y.
Proof.
  intros Hbody l. induction l as [|x l IH]; intros n i y; [done|].
  rewrite for_each_cons.
  destruct (Hbody x n) as [[Hy [e He]]|(y0 & Hy & Hr & Hv & HQ)].
  - rewrite He. simpl. by rewrite Hy.
  - rewrite Hv. simpl. rewrite Hy, Hr. simpl.
    destruct i as [|i]; simpl.
    + intros [= <-]. by rewrite Nat.add_0_r.
    + intros Hi. apply IH in Hi. by replace (n + S i)%nat with (S n + i)%nat by lia.
Qed.

Lemma for_each_one_item_bound {Y A} (Q : nat -> Y -> Prop) (body : A -> gen Y unit) :
  (forall x, one_item Q (body x)) ->
  forall l n,
    (List.length (yields (trace (for_each l body n))) <= List.length l)%nat /\
    logged (trace (for_each l body n)) = [].
Proof.
  intros Hbody l. induction l as [|x l IH]; intros n; [done|].
  rewrite for_each_cons.
  destruct (Hbody x n) as [[Hy [e He]]|(y0 & Hy & Hr & Hv & HQ)].
  - rewrite He. simpl. rewrite Hy. simpl. split; [lia|done].
  - rewrite Hv. simpl. rewrite Hy. simpl.
    destruct (IH (reads (body x n))) as [Hlen Hlog]. split; [lia|done].
Qed.

(** A round that raises ends the loop: the rounds after it do not run. *)
Lemma for_each_one_item_raises {Y A} (Q : nat -> Y -> Prop) (body : A -> gen Y unit) :
  (forall x, one_item Q (body x)) ->
  forall l1 x l2 n,
    (forall k, raises (value (body x k))) ->
    raises (value (for_each (l1 ++ x :: l2) body n)) /\
    (List.length (yields (trace (for_each (l1 ++ x :: l2) body n))) <= List.length l1)%nat /\
    logged (trace (for_each (l1 ++ x :: l2) body n)) = [].
Proof.
  intros Hbody l1 x l2. induction l1 as [|x1 l1 IH]; intros n Hx.
  - simpl app. rewrite for_each_cons.
    destruct (Hbody x n) as [[Hy [e He]]|(y0 & Hy & Hr & Hv & HQ)].
    + rewrite He. simpl. rewrite Hy. repeat split; [apply raises_Raise|done].
    + destruct (Hx n) as [e He]. congruence.
  - simpl app. rewrite for_each_cons.
    destruct (Hbody x1 n) as [[Hy [e He]]|(y0 & Hy & Hr & Hv & HQ)].
    + rewrite He. simpl. rewrite Hy. simpl. repeat split; [apply raises_Raise|lia].
    + rewrite Hv. simpl. rewrite Hy. simpl.
      destruct (IH (reads (body x1 n)) Hx) as (Hraise & Hlen & Hlog).
      repeat split; [done|lia|done].
Qed.

Lemma outcome_eta {Y A} (o : outcome Y A) :
  mkoutcome (trace o) (reads o) (value o) = o.
Proof. by destruct o. Qed.

Lemma gbind_gret {Y A B} (a : A) (k : A -> gen Y B) n : gbind (gret a) k n = k a n.
Proof. unfold gbind, gret. simpl. apply outcome_eta. Qed.

Lemma gbind_lift_Ok {Y A B} (a : A) (k : A -> gen Y B) n :
  gbind (lift (Ok a)) k n = k a n.
Proof. unfold gbind, lift. simpl. apply outcome_eta. Qed.

Lemma gbind_lift_Raise {Y A B} (e : exn) (k : A -> gen Y B) n :
  gbind (lift (Raise e)) k n = mkoutcome [] n (Raise e).
Proof. done. Qed.

Lemma gbind_utcnow {Y B} clock (k : datetime -> gen Y B) n :
  gbind (datetime_utcnow_aware clock) k n = k (clock n) (S n).
Proof. unfold gbind, datetime_utcnow_aware. simpl. apply outcome_eta. Qed.

Lemma gbind_log {Y B} l r (k : unit -> gen Y B) n :
  gbind (log l r) k n =
  mkoutcome (Log l r :: trace (k tt n)) (reads (k tt n)) (value (k tt n)).
Proof. done. Qed.

(** The next step of a generator: a result taken by cases, or a reading
    of the clock. *)
Ltac gen_step :=
  match goal with
  | |- context [gbind (lift ?r) _ _] =>
      let E := fresh "E" in
      destruct r eqn:E; [rewrite gbind_lift_Ok | rewrite gbind_lift_Raise]
  | |- context [gbind (datetime_utcnow_aware _) _ _] => rewrite gbind_utcnow
  | |- context [gbind (gret _) _ _] => rewrite gbind_gret
  end.

Ltac stopped := left; split; [reflexivity | apply raises_Raise].

(** ** The modality of a bid *)

Lemma get_modality_table `{PyStr} `{Utils} (text : string) :
  BidsSpider.get_modality (Some text) = first_match modality_table (normalized text).
Proof.
  unfold BidsSpider.get_modality, normalized, modality_table, first_match.
  repeat (destruct (Py.contains _ _); [reflexivity|]).
  reflexivity.
Qed.

Lemma first_match_none table text :
  Forall (fun entry => Py.contains (fst entry) text = false) table ->
  first_match table text = None.
Proof.
  induction 1 as [|[keyword category] rest Hk _ IH]; simpl in *; [done|].
  by rewrite Hk.
Qed.

(** C7, as the code has it: the classifier lowers the text, strips its
    accents and returns the category of the first keyword of the ordered
    table that occurs in it.  A text whose normalized form holds
    "pregao eletronico" as one piece, and neither "tomada" nor
    "pregao presencial", is a pregao_eletronico; a text with no keyword has
    no modality (None); "Tomada de Preço" is a tomada_de_precos. *)
Theorem get_modality_first_match :
  (forall (S : PyStr) (U : Utils) (text : string),
      BidsSpider.get_modality (Some text) = first_match modality_table (normalized text)) /\
  (forall (S : PyStr) (U : Utils) (text : string),
      Py.contains "pregao eletronico" (normalized text) = true ->
      Py.contains "tomada" (normalized text) = false ->
      Py.contains "pregao presencial" (normalized text) = false ->
      BidsSpider.get_modality (Some text) = Some "pregao_eletronico") /\
  (forall (S : PyStr) (U : Utils) (text : string),
      Forall (fun entry => Py.contains (fst entry) (normalized text) = false)
             modality_table ->
      BidsSpider.get_modality (Some text) = None) /\
  BidsSpider.get_modality (Some "Tomada de Preço") = Some "tomada_de_precos".
Proof.
  split; [|split; [|split]].
  - intros. apply get_modality_table.
  - intros S U text He Ht Hp. rewrite get_modality_table. simpl. by rewrite Ht, Hp, He.
  - intros S U text Hnone. rewrite get_modality_table. by apply first_match_none.
  - reflexivity.
Qed.

Lemma get_modality_first_match_witness :
  BidsSpider.get_modality (Some "PREGÃO ELETRÔNICO 12/2020") = Some "pregao_eletronico".
Proof.
  apply (proj1 (proj2 get_modality_first_match) latin1_pystr helpers_utils);
    reflexivity.
Defined.

(** C7, as the claim states it, fails: this text holds both "pregão" and
    "eletrônico" and is a pregao_presencial, and the same two words in the
    other order have no modality. *)
Lemma get_modality_both_words :
  Py.contains "pregão" "pregão presencial e eletrônico" = true /\
  Py.contains "eletrônico" "pregão presencial e eletrônico" = true /\
  BidsSpider.get_modality (Some "pregão presencial e eletrônico") = Some "pregao_presencial" /\
  BidsSpider.get_modality (Some "eletrônico, pregão") = None.
Proof. repeat split. Qed.

(** ** The start requests of the covid expenses *)

(** C9: the three start requests are built from the dictionary of the
    class, whatever the phase written to the copy: they are the same
    request, and its form data have no POST_FASE. *)
Theorem covid_start_requests_ignore_phase :
  (forall n,
     yields (trace (COVID19ExpensesSpider.start_requests n)) =
     List.repeat (FormRequest COVID19ExpensesSpider.url COVID19ExpensesSpider.data Parse None) 3) /\
  (forall n, value (COVID19ExpensesSpider.start_requests n) = Ok tt) /\
  (forall self_data phase n,
     yields (trace (COVID19ExpensesSpider.start_requests_phase self_data phase n)) =
     [FormRequest COVID19ExpensesSpider.url self_data Parse None]) /\
  COVID19ExpensesSpider.data !! "POST_FASE" = None /\
  (forall n,
     Forall (fun r => request_formdata r !! "POST_FASE" = None)
            (yields (trace (COVID19ExpensesSpider.start_requests n)))).
Proof.
  assert (Hfase : COVID19ExpensesSpider.data !! "POST_FASE" = None) by reflexivity.
  repeat split; try done.
  intros n. simpl. by repeat constructor.
Qed.

(** ** The pages of a query *)

Lemma page_fields_again (data : gmap string string) (l p q : string) :
  <["POST_PAGINAS" := l]> (<["POST_PAGINA" := q]>
    (<["POST_PAGINAS" := l]> (<["POST_PAGINA" := p]> data))) =
  <["POST_PAGINAS" := l]> (<["POST_PAGINA" := q]> data).
Proof.
  apply map_eq. intros k.
  destruct (decide (k = "POST_PAGINAS")) as [->|Hk1]; [by rewrite !lookup_insert_eq|].
  rewrite !(lookup_insert_ne _ "POST_PAGINAS") by done.
  destruct (decide (k = "POST_PAGINA")) as [->|Hk2]; [by rewrite !lookup_insert_eq|].
  by repeat (rewrite lookup_insert_ne by congruence).
Qed.

Lemma page_request_again url data last p q :
  page_request url (<["POST_PAGINAS" := Py.str last]> (<["POST_PAGINA" := Py.str p]> data)) last q =
  page_request url data last q.
Proof. unfold page_request. by rewrite page_fields_again. Qed.

(** The rounds write to one dictionary, and each request keeps what the
    dictionary held when it was built. *)
Lemma page_requests_trace url pages last data n :
  trace (page_requests url pages last data n) =
    List.map (fun p => Yield (page_request url data last p)) pages /\
  reads (page_requests url pages last data n) = n /\
  ~ raises (value (page_requests url pages last data n)).
Proof.
  revert data n. induction pages as [|p pages IH]; intros data n; simpl.
  - repeat split. apply raises_not_Ok.
  - unfold gbind, yield. simpl.
    destruct (IH (<["POST_PAGINAS" := Py.str last]> (<["POST_PAGINA" := Py.str p]> data)) n)
      as (Ht & Hr & Hv).
    rewrite Ht, Hr. repeat split; [|done].
    f_equal. apply map_ext. intros q. by rewrite page_request_again.
Qed.

Lemma covid_page_requests_trace pages last n :
  trace (COVID19ExpensesSpider.page_requests pages last n) =
    List.map (fun p => Yield (page_request COVID19ExpensesSpider.url
                                           COVID19ExpensesSpider.data last p)) pages /\
  reads (COVID19ExpensesSpider.page_requests pages last n) = n /\
  ~ raises (value (COVID19ExpensesSpider.page_requests pages last n)).
Proof.
  revert n. induction pages as [|p pages IH]; intros n; simpl.
  - repeat split. apply raises_not_Ok.
  - unfold gbind, yield. simpl. destruct (IH n) as (Ht & Hr & Hv).
    rewrite Ht, Hr. by repeat split.
Qed.

Lemma yields_map_Yield {Y A} (f : A -> Y) (l : list A) :
  yields (List.map (fun a => Yield (f a)) l) = List.map f l.
Proof. induction l as [|a l IH]; simpl; [done|]. by rewrite IH. Qed.

Lemma contracts_parse_walk response :
  ContractsSpider.parse response = walk ContractsSpider.url response.
Proof. reflexivity. Qed.

Lemma payments_parse_walk response :
  PaymentsSpider.parse response = walk PaymentsSpider.url response.
Proof. reflexivity. Qed.

Lemma index_from_end_exn {A} (l : list A) k e :
  Py.index_from_end l k = Raise e -> e = IndexError.
Proof.
  unfold Py.index_from_end. destruct (_ && _)%bool; [|congruence].
  destruct (l !! _); simpl; congruence.
Qed.

Lemma int_exn s e : Py.int s = Raise e -> e = ValueError.
Proof.
  unfold Py.int. match goal with |- of_option _ ?o = _ -> _ => destruct o end;
    simpl; congruence.
Qed.

Lemma walk_walked url response n : walked url response n.
Proof.
  destruct (pagination_texts response) as [|t ts] eqn:Hp.
  - apply walked_single; [done| |]; unfold walk; by rewrite Hp.
  - destruct (Py.index_from_end (pagination_texts response) 2) as [last_text|e] eqn:Hi.
    + destruct (Py.int last_text) as [last_page|e] eqn:Hl.
      * apply (walked_pages _ _ _ last_text last_page); [done|done| |];
          unfold walk; rewrite Hp, <- Hp; unfold gbind, lift; simpl;
          rewrite Hi; simpl; rewrite Hl; simpl;
          destruct (page_requests_trace url (Py.range 1 (last_page + 1)) last_page
                      (response_meta_data response) n) as (Ht & Hr & Hv).
        -- rewrite Ht. apply yields_map_Yield.
        -- by destruct (value (page_requests _ _ _ _ _)).
      * pose proof (int_exn _ _ Hl) as ->.
        apply (walked_unparsable _ _ _ last_text); [done|done| |];
          unfold walk; rewrite Hp, <- Hp; unfold gbind, lift; simpl;
          rewrite Hi; simpl; by rewrite Hl.
    + pose proof (index_from_end_exn _ _ _ Hi) as ->.
      apply walked_short; [by rewrite Hp|done| |];
        unfold walk; rewrite Hp, <- Hp; unfold gbind, lift; simpl; by rewrite Hi.
Qed.

Lemma index_from_end_nil {A} k : Py.index_from_end (@nil A) k = Raise IndexError.
Proof. unfold Py.index_from_end. simpl. by destruct k; simpl; rewrite ?andb_false_r. Qed.

(** Two results of one computation are the same result. *)
Ltac same_result :=
  repeat match goal with
  | H1 : ?r = Ok ?a, H2 : ?r = Ok ?b |- _ =>
      assert (b = a) by congruence; subst b; clear H2
  | H1 : ?r = Ok _, H2 : ?r = Raise _ |- _ => congruence
  end.

Lemma walk_walks url : walks (walk url) url.
Proof.
  intros response n.
  destruct (walk_walked url response n) as
    [Hp Ht Hv|last_text last_page Hi Hl Hy Hv|Hp Hi Ht Hv|last_text Hi Hl Ht Hv];
    (split; [|split; [|split]]); intros;
    try match goal with
        | Hp : pagination_texts _ = [], Hi : Py.index_from_end _ _ = Ok _ |- _ =>
            rewrite Hp, index_from_end_nil in Hi; discriminate
        end;
    same_result; try done.
Qed.

(** C3, as the code has it: with no pagination entry the response is the
    only page and [parse] yields nothing; otherwise the last page is the
    integer of the second entry from the end and [parse] yields the requests
    of the pages 1 to last, each with the dictionary of the query and its
    two page fields; with one entry only, or with a second entry from the
    end that is no integer, [parse] raises (IndexError, ValueError) and
    yields nothing.  The entries "« Prev", "1", "2", "7", "Next »" give the
    pages 1 to 7. *)
Theorem pagination_walker :
  walks ContractsSpider.parse ContractsSpider.url /\
  walks PaymentsSpider.parse PaymentsSpider.url /\
  yields (trace (ContractsSpider.parse
                   (mkquery ["« Prev"; "1"; "2"; "7"; "Next »"] ContractsSpider.data) 0%nat)) =
    List.map (page_request ContractsSpider.url ContractsSpider.data 7) [1; 2; 3; 4; 5; 6; 7].
Proof.
  split; [|split].
  - apply walk_walks.
  - apply walk_walks.
  - reflexivity.
Qed.

Lemma pagination_walker_witness :
  yields (trace (PaymentsSpider.parse
                   (mkquery ["« Anterior"; "1"; "2"; "33"; "Próximo »"] PaymentsSpider.data) 0%nat)) =
    List.map (page_request PaymentsSpider.url PaymentsSpider.data 33) (Py.range 1 (33 + 1)) /\
  ~ raises (value (PaymentsSpider.parse
                     (mkquery ["« Anterior"; "1"; "2"; "33"; "Próximo »"] PaymentsSpider.data) 0%nat)).
Proof.
  apply (proj1 (proj2 (proj1 (proj2 pagination_walker)
           (mkquery ["« Anterior"; "1"; "2"; "33"; "Próximo »"] PaymentsSpider.data)
           0%nat)) "33" 33); reflexivity.
Defined.

(** C3, as the claim states it, fails: a control whose entries are no
    numbers stops [parse] with ValueError, and a control with one entry
    stops it with IndexError; there is no fall back to a single page. *)
Lemma pagination_unparsable_raises :
  value (ContractsSpider.parse
           (mkquery ["« Anterior"; "Próximo »"] ContractsSpider.data) 0%nat) = Raise ValueError /\
  value (PaymentsSpider.parse
           (mkquery ["« Anterior"; "Próximo »"] PaymentsSpider.data) 0%nat) = Raise ValueError /\
  value (ContractsSpider.parse (mkquery ["1"] ContractsSpider.data) 0%nat) = Raise IndexError.
Proof. repeat split. Qed.

(** What [int] reads: the digits and the white space of Unicode, a sign,
    single underscores between digits; the separators of ASCII (28 to 31)
    are no white space for it, and more than 4300 digits are refused. *)
Lemma int_examples :
  Py.int "7" = Ok 7 /\ Py.int " 08 " = Ok 8 /\ Py.int "-7" = Ok (-7) /\
  Py.int "1_000" = Ok 1000 /\ Py.int "1__0" = Raise ValueError /\
  Py.int "_1" = Raise ValueError /\ Py.int "" = Raise ValueError /\
  Py.int (nbsp +:+ "7") = Ok 7 /\ Py.int "０８" = Ok 8 /\ Py.int "٣٤" = Ok 34 /\
  Py.int (String "028" "7") = Raise ValueError /\
  Py.int "7.0" = Raise ValueError /\
  Py.int (String.concat "" (List.repeat "1" 4301)) = Raise ValueError.
Proof. repeat split; vm_compute; reflexivity. Qed.

(** A last page written with a no-break space is read; one written with
    a separator of ASCII is not. *)
Lemma pagination_white_space :
  yields (trace (ContractsSpider.parse
                   (mkquery ["1"; nbsp +:+ "7"; "Next"] ContractsSpider.data) 0%nat)) =
    List.map (page_request ContractsSpider.url ContractsSpider.data 7) [1; 2; 3; 4; 5; 6; 7] /\
  value (ContractsSpider.parse
           (mkquery ["1"; String "028" "7"; "Next"] ContractsSpider.data) 0%nat) =
    Raise ValueError.
Proof. split; vm_compute; reflexivity. Qed.

(** ** The fields of a payment *)

Lemma mapping_list : PaymentsSpider.mapping = list_to_map mapping_entries.
Proof. reflexivity. Qed.

Lemma covid_mapping : COVID19ExpensesSpider.mapping = PaymentsSpider.mapping.
Proof. reflexivity. Qed.

Lemma mapping_entry label field :
  PaymentsSpider.mapping !! label = Some field -> (label, field) ∈ mapping_entries.
Proof. rewrite mapping_list. apply elem_of_list_to_map_2. Qed.

Lemma mapping_label_of label field :
  PaymentsSpider.mapping !! label = Some field -> label_of field = label.
Proof.
  intros H%mapping_entry. revert H. unfold mapping_entries.
  rewrite !elem_of_cons, elem_of_nil.
  intros H. repeat (destruct H as [[= -> ->]|H]; [reflexivity|]). done.
Qed.

Lemma mapping_inj l1 l2 field :
  PaymentsSpider.mapping !! l1 = Some field ->
  PaymentsSpider.mapping !! l2 = Some field -> l1 = l2.
Proof. intros H1%mapping_label_of H2%mapping_label_of. congruence. Qed.

(** No label writes to the two fields of the provenance. *)
Lemma mapping_not_provenance label field :
  PaymentsSpider.mapping !! label = Some field ->
  field <> "crawled_at" /\ field <> "crawled_from".
Proof.
  intros H%mapping_entry. revert H. unfold mapping_entries.
  rewrite !elem_of_cons, elem_of_nil.
  intros H. repeat (destruct H as [[= -> ->]|H]; [done|]). done.
Qed.

Lemma covid_extract_details details (it : Item) :
  COVID19ExpensesSpider.extract_details details it = PaymentsSpider.extract_details details it.
Proof.
  revert it. induction details as [details IH] using (induction_ltof1 _ (@List.length _)).
  unfold ltof in IH. intros it.
  destruct details as [|key [|value details]]; simpl; [done|done|].
  rewrite covid_mapping. destruct (PaymentsSpider.mapping !! key); simpl; [|done].
  apply IH. simpl. lia.
Qed.

Lemma pairs_ind {A} (P : list A -> Prop) :
  P [] -> (forall a, P [a]) -> (forall a b l, P l -> P (a :: b :: l)) ->
  forall l, P l.
Proof.
  intros Hnil Hone Hstep.
  assert (H : forall l, P l /\ forall a, P (a :: l)).
  { induction l as [|b l [IH1 IH2]]; [by split|]. split; [apply IH2|].
    intros a. by apply Hstep. }
  intros l. apply H.
Qed.

(** The loop leaves alone the fields no label writes to. *)
Lemma extract_details_other details (it it' : Item) (field : string) :
  (forall label, PaymentsSpider.mapping !! label <> Some field) ->
  PaymentsSpider.extract_details details it = Ok it' ->
  it' !! field = it !! field.
Proof.
  intros Hfield. revert it.
  induction details as [|key|key value details IH] using pairs_ind; intros it; simpl.
  - by intros [= ->].
  - done.
  - destruct (PaymentsSpider.mapping !! key) as [f|] eqn:Hkey; simpl; [|done].
    intros Hd%IH. rewrite Hd. apply lookup_insert_ne. intros ->. by eapply Hfield.
Qed.

Lemma extract_details_provenance details (it it' : Item) :
  PaymentsSpider.extract_details details it = Ok it' ->
  it' !! "crawled_at" = it !! "crawled_at" /\
  it' !! "crawled_from" = it !! "crawled_from".
Proof.
  intros Hd. split; (eapply extract_details_other; [|exact Hd]);
    intros label Hl%mapping_not_provenance; by destruct Hl.
Qed.

(** An odd number of tokens stops the loop with an exception: the last
    label has no value to pop, unless an unknown label stopped it before. *)
Lemma extract_details_odd details (it : Item) :
  Nat.Odd (List.length details) ->
  raises (PaymentsSpider.extract_details details it).
Proof.
  revert it.
  induction details as [|key|key value details IH] using pairs_ind; intros it Hodd; simpl.
  - destruct Hodd as [k Hk]. simpl in Hk. lia.
  - apply raises_Raise.
  - destruct (PaymentsSpider.mapping !! key) as [f|]; simpl; [|apply raises_Raise].
    apply IH. destruct Hodd as [k Hk]. simpl in Hk. exists (k - 1)%nat. lia.
Qed.

Lemma extract_details_odd_known details (it : Item) :
  Nat.Odd (List.length details) ->
  (forall i label, details !! (2 * i)%nat = Some label ->
                   is_Some (PaymentsSpider.mapping !! label)) ->
  PaymentsSpider.extract_details details it = Raise IndexError.
Proof.
  revert it.
  induction details as [|key|key value details IH] using pairs_ind;
    intros it Hodd Hknown; simpl.
  - destruct Hodd as [k Hk]. simpl in Hk. lia.
  - done.
  - destruct (Hknown 0%nat key eq_refl) as [f ->]. simpl.
    apply IH.
    + destruct Hodd as [k Hk]. simpl in Hk. exists (k - 1)%nat. lia.
    + intros i label Hi. apply (Hknown (S i)).
      by replace (2 * S i)%nat with (S (S (2 * i))) by lia.
Qed.

Section Payments.
Context `{PyStr}.
Variable clock : nat -> datetime.

Lemma payments_parse_page_item response row :
  one_item (provenance clock (payments_url response))
           (PaymentsSpider.parse_page_item clock response row).
Proof.
  intros n. destruct row as [headline raw_details].
  unfold PaymentsSpider.parse_page_item.
  repeat (gen_step; [|stopped]). gen_step. gen_step; [|stopped].
  right. eexists. split; [reflexivity|]. split; [reflexivity|]. split; [reflexivity|].
  unfold provenance. apply extract_details_provenance in E3 as [-> ->].
  by simplify_map_eq.
Qed.

Lemma covid_parse_page_item response row :
  one_item (provenance clock COVID19ExpensesSpider.source)
           (COVID19ExpensesSpider.parse_page_item clock response row).
Proof.
  intros n. destruct row as [headline raw_details].
  unfold COVID19ExpensesSpider.parse_page_item.
  repeat (gen_step; [|stopped]). gen_step. gen_step; [|stopped].
  right. eexists. split; [reflexivity|]. split; [reflexivity|]. split; [reflexivity|].
  rewrite covid_extract_details in E3.
  unfold provenance. apply extract_details_provenance in E3 as [-> ->].
  by simplify_map_eq.
Qed.

Lemma payments_item_odd response headline raw_details n :
  Nat.Odd (List.length raw_details) ->
  raises (value (PaymentsSpider.parse_page_item clock response (headline, raw_details) n)).
Proof.
  intros Hodd.
  assert (Hodd' : Nat.Odd (List.length (List.map str_strip raw_details)))
    by (by rewrite length_map).
  unfold PaymentsSpider.parse_page_item.
  repeat (gen_step; [|apply raises_Raise]). gen_step. gen_step; [|apply raises_Raise].
  match type of E3 with
  | PaymentsSpider.extract_details _ ?it = _ =>
      destruct (extract_details_odd _ it Hodd') as [e He]
  end.
  congruence.
Qed.

Lemma covid_item_odd response headline raw_details n :
  Nat.Odd (List.length raw_details) ->
  raises (value (COVID19ExpensesSpider.parse_page_item clock response (headline, raw_details) n)).
Proof.
  intros Hodd.
  assert (Hodd' : Nat.Odd (List.length (List.map str_strip raw_details)))
    by (by rewrite length_map).
  unfold COVID19ExpensesSpider.parse_page_item.
  repeat (gen_step; [|apply raises_Raise]). gen_step. gen_step; [|apply raises_Raise].
  rewrite covid_extract_details in E3.
  match type of E3 with
  | PaymentsSpider.extract_details _ ?it = _ =>
      destruct (extract_details_odd _ it Hodd') as [e He]
  end.
  congruence.
Qed.

End Payments.

Lemma zip_app {A B} (l1 l2 : list A) (k1 k2 : list B) :
  List.length l1 = List.length k1 ->
  Py.zip (l1 ++ l2) (k1 ++ k2) = Py.zip l1 k1 ++ Py.zip l2 k2.
Proof.
  revert k1. induction l1 as [|a l1 IH]; intros [|b k1] Hlen; simpl in *; try done.
  f_equal. apply IH. lia.
Qed.

Lemma zip_length {A B} (l : list A) (k : list B) :
  List.length l = List.length k -> List.length (Py.zip l k) = List.length l.
Proof.
  revert k. induction l as [|a l IH]; intros [|b k] Hlen; simpl in *; try done.
  f_equal. apply IH. lia.
Qed.

(** C5, as the code has it: a block with an odd number of tokens raises
    (IndexError at the value that is not there) and ends the page: its
    record and the records of the blocks after it are not yielded, and no
    warning is logged.  An odd block whose labels are all known raises
    IndexError. *)
Theorem odd_details_raise :
  (forall (S : PyStr) (clock : nat -> datetime),
      stops_at_odd_block (PaymentsSpider.parse_page clock) /\
      stops_at_odd_block (COVID19ExpensesSpider.parse_page clock)) /\
  (forall (details : list string) (it : Item),
      Nat.Odd (List.length details) ->
      raises (PaymentsSpider.extract_details details it) /\
      raises (COVID19ExpensesSpider.extract_details details it)) /\
  (forall (details : list string) (it : Item),
      Nat.Odd (List.length details) ->
      (forall i label, details !! (2 * i)%nat = Some label ->
                       is_Some (PaymentsSpider.mapping !! label)) ->
      PaymentsSpider.extract_details details it = Raise IndexError /\
      COVID19ExpensesSpider.extract_details details it = Raise IndexError).
Proof.
  split; [|split].
  - intros S clock. split.
    + intros response n hs h hs' ds d ds' Hh Hd Hlen Hodd.
      unfold PaymentsSpider.parse_page. rewrite Hh, Hd, zip_app by done. simpl.
      destruct (for_each_one_item_raises _ _
                  (payments_parse_page_item clock response)
                  (Py.zip hs ds) (h, d) (Py.zip hs' ds') n) as (Hr & Hy & Hl).
      { intros k. by apply payments_item_odd. }
      rewrite zip_length in Hy by done. done.
    + intros response n hs h hs' ds d ds' Hh Hd Hlen Hodd.
      unfold COVID19ExpensesSpider.parse_page. rewrite Hh, Hd, zip_app by done. simpl.
      destruct (for_each_one_item_raises _ _
                  (covid_parse_page_item clock response)
                  (Py.zip hs ds) (h, d) (Py.zip hs' ds') n) as (Hr & Hy & Hl).
      { intros k. by apply covid_item_odd. }
      rewrite zip_length in Hy by done. done.
  - intros details it Hodd.
    split; [|rewrite (covid_extract_details details it)]; by apply extract_details_odd.
  - intros details it Hodd Hknown.
    split; [|rewrite (covid_extract_details details it)];
      by apply extract_details_odd_known.
Qed.

Lemma odd_details_raise_witness :
  raises (value (PaymentsSpider.parse_page example_clock odd_page 0%nat)) /\
  logged (trace (PaymentsSpider.parse_page example_clock odd_page 0%nat)) = [] /\
  (List.length (yields (trace (PaymentsSpider.parse_page example_clock odd_page 0%nat)))
   <= 0)%nat.
Proof.
  apply (proj1 (proj1 odd_details_raise latin1_pystr example_clock) odd_page 0%nat
           [] ["22/10/2019"; "PAG"; "ACME LTDA"; "R$ 62.960,00"]
           [["23/10/2019"; "PAG"; "OUTRA LTDA"; "R$ 10,00"]]
           [] ["Data:"; "22/10/2019"; "N°:"]
           [["Data:"; "23/10/2019"; "N°:"; "19000215/0005"]]);
    [reflexivity | reflexivity | reflexivity | by exists 1%nat].
Defined.

(** C5, as the claim states it, fails: on a page whose first block has
    three tokens the generator ends with IndexError; it logs no warning and
    yields no record, neither the partial one of that block nor the one of
    the well-formed block after it. *)
Lemma odd_details_no_warning :
  value (PaymentsSpider.parse_page example_clock odd_page 0%nat) = Raise IndexError /\
  trace (PaymentsSpider.parse_page example_clock odd_page 0%nat) = [] /\
  value (COVID19ExpensesSpider.parse_page example_clock odd_page 0%nat) = Raise IndexError /\
  trace (COVID19ExpensesSpider.parse_page example_clock odd_page 0%nat) = [].
Proof. repeat split. Qed.

(** ** The order of the labels *)

Lemma extract_details_pair label value details (it : Item) field :
  PaymentsSpider.mapping !! label = Some field ->
  PaymentsSpider.extract_details (label :: value :: details) it =
  PaymentsSpider.extract_details details (<[field := VStr value]> it).
Proof. intros Hf. cbn [PaymentsSpider.extract_details]. by rewrite Hf. Qed.

Lemma extract_details_tokens pairs (it : Item) :
  Forall known pairs ->
  PaymentsSpider.extract_details (tokens pairs) it = Ok (foldl assign it pairs).
Proof.
  intros Hknown. revert it.
  induction Hknown as [|[label value] pairs [field Hf] _ IH]; intros it; [done|].
  cbn [tokens foldl]. cbn [fst] in Hf.
  rewrite (extract_details_pair _ _ _ _ field Hf), IH.
  replace (assign it (label, value)) with (<[field := VStr value]> it); [done|].
  unfold assign. cbn [fst snd]. by rewrite Hf.
Qed.

Lemma assign_swap (it : Item) p q :
  known p -> known q -> fst p <> fst q ->
  assign (assign it p) q = assign (assign it q) p.
Proof.
  intros [f Hf] [g Hg] Hne. unfold assign. rewrite Hf, Hg.
  apply insert_insert_ne. intros ->. apply Hne. by eapply mapping_inj.
Qed.

Lemma foldl_assign_permutation pairs1 pairs2 :
  Permutation pairs1 pairs2 ->
  NoDup (List.map fst pairs1) -> Forall known pairs1 ->
  forall it, foldl assign it pairs1 = foldl assign it pairs2.
Proof.
  induction 1 as [|p l l' Hperm IH|p q l|l l' l'' Hp1 IH1 Hp2 IH2];
    intros Hnodup Hknown it; simpl.
  - done.
  - apply IH; [by inversion Hnodup|by inversion Hknown].
  - apply Forall_cons in Hknown as [Hq Hknown].
    apply Forall_cons in Hknown as [Hp _].
    simpl in Hnodup. apply NoDup_cons in Hnodup as [Hnin _].
    f_equal. apply assign_swap; [done|done|].
    intros Heq. apply Hnin. rewrite Heq. by left.
  - rewrite IH1 by done. apply IH2.
    + assert (Hm : List.map fst l ≡ₚ List.map fst l') by by apply Permutation_map.
      by rewrite <- Hm.
    + by rewrite <- Hp1.
Qed.

(** C6, as the code has it: for pairs with known labels that are pairwise
    distinct, the loop gives the same fields in whatever order the pairs
    come; "Data:", "22/10/2019", "N°:", "19000215/0004" and the two pairs
    in the other order give date 22/10/2019 and number 19000215/0004. *)
Theorem label_order_insignificant :
  (forall (pairs1 pairs2 : list (string * string)) (it : Item),
      Permutation pairs1 pairs2 ->
      NoDup (List.map fst pairs1) ->
      Forall known pairs1 ->
      PaymentsSpider.extract_details (tokens pairs1) it =
        PaymentsSpider.extract_details (tokens pairs2) it /\
      COVID19ExpensesSpider.extract_details (tokens pairs1) it =
        COVID19ExpensesSpider.extract_details (tokens pairs2) it /\
      ~ raises (PaymentsSpider.extract_details (tokens pairs1) it)) /\
  PaymentsSpider.extract_details ["Data:"; "22/10/2019"; "N°:"; "19000215/0004"] ∅ =
    Ok (<["date" := VStr "22/10/2019"]> (<["number" := VStr "19000215/0004"]> ∅)) /\
  PaymentsSpider.extract_details ["N°:"; "19000215/0004"; "Data:"; "22/10/2019"] ∅ =
    Ok (<["date" := VStr "22/10/2019"]> (<["number" := VStr "19000215/0004"]> ∅)).
Proof.
  split; [|split; reflexivity].
  intros pairs1 pairs2 it Hperm Hnodup Hknown.
  assert (Hknown2 : Forall known pairs2) by by rewrite <- Hperm.
  assert (Heq : PaymentsSpider.extract_details (tokens pairs1) it =
                PaymentsSpider.extract_details (tokens pairs2) it).
  { rewrite !extract_details_tokens by done.
    by rewrite (foldl_assign_permutation pairs1 pairs2). }
  split; [exact Heq|]. split.
  - by rewrite (covid_extract_details (tokens pairs1)), (covid_extract_details (tokens pairs2)).
  - rewrite extract_details_tokens by done. apply raises_not_Ok.
Qed.

Lemma label_order_insignificant_witness :
  PaymentsSpider.extract_details
    (tokens [("Data:", "22/10/2019"); ("N°:", "19000215/0004"); ("CPF/CNPJ:", "90.180.605/0001-02")]) ∅ =
  PaymentsSpider.extract_details
    (tokens [("CPF/CNPJ:", "90.180.605/0001-02"); ("Data:", "22/10/2019"); ("N°:", "19000215/0004")]) ∅.
Proof.
  apply (proj1 label_order_insignificant
           [("Data:", "22/10/2019"); ("N°:", "19000215/0004"); ("CPF/CNPJ:", "90.180.605/0001-02")]
           [("CPF/CNPJ:", "90.180.605/0001-02"); ("Data:", "22/10/2019"); ("N°:", "19000215/0004")]
           ∅).
  - apply Permutation_sym.
    exact (Permutation_cons_append
             [("Data:", "22/10/2019"); ("N°:", "19000215/0004")]
             ("CPF/CNPJ:", "90.180.605/0001-02")).
  - apply (bool_decide_unpack (NoDup ["Data:"; "N°:"; "CPF/CNPJ:"])). vm_compute. exact I.
  - repeat constructor; eexists; reflexivity.
Defined.

(** C6, as the claim states it, fails: when a label comes twice the last
    value stays, so the two orders of the pairs give two records. *)
Lemma label_order_duplicate :
  PaymentsSpider.extract_details ["Data:"; "22/10/2019"; "Data:"; "23/10/2019"] ∅ =
    Ok {["date" := VStr "23/10/2019"]} /\
  PaymentsSpider.extract_details ["Data:"; "23/10/2019"; "Data:"; "22/10/2019"] ∅ =
    Ok {["date" := VStr "22/10/2019"]} /\
  PaymentsSpider.extract_details ["Data:"; "22/10/2019"; "Data:"; "23/10/2019"] ∅ <>
  PaymentsSpider.extract_details ["Data:"; "23/10/2019"; "Data:"; "22/10/2019"] ∅.
Proof.
  assert (H1 : PaymentsSpider.extract_details
                 ["Data:"; "22/10/2019"; "Data:"; "23/10/2019"] ∅ =
               Ok {["date" := VStr "23/10/2019"]}) by reflexivity.
  assert (H2 : PaymentsSpider.extract_details
                 ["Data:"; "23/10/2019"; "Data:"; "22/10/2019"] ∅ =
               Ok {["date" := VStr "22/10/2019"]}) by reflexivity.
  split; [done|]. split; [done|].
  rewrite H1, H2. intros [= Heq].
Qed.

(** ** The provenance of the records *)

Lemma gbind_value_Ok {Y A B} (m : gen Y A) (k : A -> gen Y B) n a :
  value (m n) = Ok a ->
  gbind m k n = mkoutcome (trace (m n) ++ trace (k a (reads (m n))))
                          (reads (k a (reads (m n)))) (value (k a (reads (m n)))).
Proof. intros Hv. unfold gbind. by rewrite Hv. Qed.

Lemma gbind_value_Raise {Y A B} (m : gen Y A) (k : A -> gen Y B) n e :
  value (m n) = Raise e ->
  gbind m k n = mkoutcome (trace (m n)) (reads (m n)) (Raise e).
Proof. intros Hv. unfold gbind. by rewrite Hv. Qed.

Section Items.
Context `{PyStr} `{Utils}.
Variable clock : nat -> datetime.

Lemma contracts_parse_page_item response row :
  one_item (provenance clock (ContractsSpider.response_url response))
           (ContractsSpider.parse_page_item clock response row).
Proof.
  intros n. destruct row as [headline raw_details].
  unfold ContractsSpider.parse_page_item.
  repeat (gen_step; [|stopped]). gen_step.
  right. eexists. split; [reflexivity|]. split; [reflexivity|]. split; [reflexivity|].
  unfold provenance.
  destruct (ContractsSpider.details_btn_href raw_details) as [u|]; [destruct (truthy (Some u))|];
    by simplify_map_eq.
Qed.

(** The descriptions are read without the clock and yield nothing. *)
Lemma _parse_descriptions_quiet raw_descriptions n :
  reads (BidsSpider._parse_descriptions raw_descriptions n) = n /\
  yields (trace (BidsSpider._parse_descriptions raw_descriptions n)) = [].
Proof.
  revert n. induction raw_descriptions as [|raw rest IH]; intros n; [done|].
  cbn [BidsSpider._parse_descriptions].
  assert (Hstep : exists found t,
             BidsSpider._parse_descriptions_step raw n = mkoutcome t n (Ok found) /\
             yields t = []).
  { unfold BidsSpider._parse_descriptions_step.
    destruct (head (BidsSpider.description_hrefs raw)) as [u|];
      [destruct (truthy (Some u) && negb (is_url u))%bool|];
      destruct (Nat.ltb 1 (List.length (BidsSpider.description_hrefs raw)));
      by eexists _, _. }
  destruct Hstep as (found & t & Hstep & Ht).
  rewrite (gbind_value_Ok _ _ _ found) by by rewrite Hstep.
  rewrite Hstep. cbn [trace reads value].
  destruct (IH n) as [Hr Hy].
  destruct (value (BidsSpider._parse_descriptions rest n)) as [descriptions|e] eqn:Hv.
  - rewrite (gbind_value_Ok _ _ _ descriptions) by done.
    cbn [trace reads value gret]. rewrite !yields_app, Ht, Hy, Hr. by split.
  - rewrite (gbind_value_Raise _ _ _ e) by done.
    cbn [trace reads value]. rewrite !yields_app, Ht, Hy, Hr. by split.
Qed.

Lemma bids_parse_page_item response row :
  one_item (provenance clock (BidsSpider.url response))
           (BidsSpider.parse_page_item clock response row).
Proof.
  intros n. destruct row as [[[modality_and_code [description document_url]] history] date].
  unfold BidsSpider.parse_page_item.
  gen_step; [|stopped]. gen_step; [|stopped]. gen_step.
  repeat (gen_step; [|stopped]).
  right. eexists. split; [reflexivity|]. split; [reflexivity|]. split; [reflexivity|].
  unfold provenance.
  destruct document_url as [u|]; [destruct (truthy (Some u))|]; by simplify_map_eq.
Qed.

Lemma bids_parse_page_yields response n :
  exists rows,
    yields (trace (BidsSpider.parse_page clock response n)) =
    yields (trace (for_each rows (BidsSpider.parse_page_item clock response) n)).
Proof.
  unfold BidsSpider.parse_page.
  destruct (_parse_descriptions_quiet (BidsSpider.raw_descriptions response) n) as [Hr Hy].
  destruct (value (BidsSpider._parse_descriptions (BidsSpider.raw_descriptions response) n))
    as [descriptions|e] eqn:Hv.
  - rewrite (gbind_value_Ok _ _ _ descriptions) by done.
    cbn [trace]. rewrite yields_app, Hy, Hr. simpl app.
    destruct (BidsSpider._parse_bids_history (BidsSpider.raw_bids_history response))
      as [bids_history|e].
    + rewrite gbind_lift_Ok. by eexists.
    + rewrite gbind_lift_Raise. by exists [].
  - rewrite (gbind_value_Raise _ _ _ e) by done. cbn [trace]. rewrite Hy. by exists [].
Qed.

End Items.

(** C1, as the code has it: the i-th record a page yields has in
    crawled_at the reading of the clock made when the record was built;
    the records of the bids, of the contracts and of the payments have in
    crawled_from the address of the response, and the records of the covid
    expenses have there the address [source] of the spider, whatever the
    address of the response. *)
Theorem records_carry_provenance (S : PyStr) (U : Utils) (clock : nat -> datetime) :
  (forall (response : BidsSpider.response) (n i : nat) (it : Item),
      yields (trace (BidsSpider.parse_page clock response n)) !! i = Some it ->
      provenance clock (BidsSpider.url response) (n + i) it) /\
  (forall (response : ContractsSpider.response) (n i : nat) (it : Item),
      yields (trace (ContractsSpider.parse_page clock response n)) !! i = Some it ->
      provenance clock (ContractsSpider.response_url response) (n + i) it) /\
  (forall (response : payments_response) (n i : nat) (it : Item),
      yields (trace (PaymentsSpider.parse_page clock response n)) !! i = Some it ->
      provenance clock (payments_url response) (n + i) it) /\
  (forall (response : payments_response) (n i : nat) (it : Item),
      yields (trace (COVID19ExpensesSpider.parse_page clock response n)) !! i = Some it ->
      provenance clock COVID19ExpensesSpider.source (n + i) it).
Proof.
  split; [|split; [|split]].
  - intros response n i it. destruct (bids_parse_page_yields clock response n) as [rows ->].
    apply for_each_one_item. apply bids_parse_page_item.
  - intros response n i it. apply for_each_one_item. apply contracts_parse_page_item.
  - intros response n i it. apply for_each_one_item. apply payments_parse_page_item.
  - intros response n i it. apply for_each_one_item. apply covid_parse_page_item.
Qed.

Lemma records_carry_provenance_witness :
  exists it,
    yields (trace (PaymentsSpider.parse_page example_clock
                     (example_payments PaymentsSpider.url) 5%nat)) !! 0%nat = Some it /\
    provenance example_clock PaymentsSpider.url (5 + 0)%nat it.
Proof.
  eexists. split; [reflexivity|].
  apply (proj1 (proj2 (proj2 (records_carry_provenance latin1_pystr helpers_utils example_clock)))
           (example_payments PaymentsSpider.url) 5%nat 0%nat).
  reflexivity.
Defined.

(** C1, as the claim states it, fails for the covid expenses: the record
    extracted from a response of the address [url] of the spider says it
    comes from [source], another address. *)
Lemma covid_crawled_from_source :
  exists it,
    yields (trace (COVID19ExpensesSpider.parse_page example_clock
                     (example_payments COVID19ExpensesSpider.url) 0%nat)) = [it] /\
    it !! "crawled_from" = Some (VStr COVID19ExpensesSpider.source) /\
    it !! "crawled_from" <> Some (VStr (payments_url (example_payments COVID19ExpensesSpider.url))).
Proof.
  eexists. split; [reflexivity|]. split; [reflexivity|]. discriminate.
Qed.

(** ** Two runs on the same page *)

Lemma same_but_time_refl {A} (o : outcome Item A) : same_but_time o o.
Proof. done. Qed.

Lemma gbind_same_but_time {A B} (m : gen Item A) (k1 k2 : A -> gen Item B) n :
  (forall a j, same_but_time (k1 a j) (k2 a j)) ->
  same_but_time (gbind m k1 n) (gbind m k2 n).
Proof.
  intros Hk. unfold gbind. destruct (value (m n)) as [a|e]; [|done].
  destruct (Hk a (reads (m n))) as (Hr & Hv & Ht).
  repeat split; simpl; [done|done|]. by rewrite !map_app, Ht.
Qed.

Lemma for_each_same_but_time {A} (body1 body2 : A -> gen Item unit) :
  (forall x j, same_but_time (body1 x j) (body2 x j)) ->
  forall l n, same_but_time (for_each l body1 n) (for_each l body2 n).
Proof.
  intros Hbody l. induction l as [|x l IH]; intros n; [done|].
  rewrite !for_each_cons. destruct (Hbody x n) as (Hr & Hv & Ht).
  rewrite <- Hv, <- Hr. destruct (value (body1 x n)) as [[]|e].
  - destruct (IH (reads (body1 x n))) as (Hr' & Hv' & Ht').
    repeat split; simpl; [done|done|]. by rewrite !map_app, Ht, Ht'.
  - by repeat split.
Qed.

Lemma gbind_ext {Y A B} (m : gen Y A) (k1 k2 : A -> gen Y B) n :
  (forall a j, k1 a j = k2 a j) -> gbind m k1 n = gbind m k2 n.
Proof. intros Hk. unfold gbind. destruct (value (m n)); [|done]. by rewrite Hk. Qed.

Lemma for_each_ext {Y A} (body1 body2 : A -> gen Y unit) :
  (forall x j, body1 x j = body2 x j) ->
  forall l n, for_each l body1 n = for_each l body2 n.
Proof.
  intros Hbody l. induction l as [|x l IH]; intros n; [done|].
  rewrite !for_each_cons, Hbody. destruct (value (body2 x n)); [|done]. by rewrite IH.
Qed.

(** Two records that differ at most in one field. *)
Lemma delete_eq_lookup (field : string) (m1 m2 : Item) :
  (forall k, k <> field -> m1 !! k = m2 !! k) -> delete field m1 = delete field m2.
Proof.
  intros Hm. apply map_eq. intros k. destruct (decide (k = field)) as [->|Hk].
  - by rewrite !lookup_delete_eq.
  - rewrite !lookup_delete_ne by done. by apply Hm.
Qed.

Ltac same_fields :=
  apply delete_eq_lookup; intros ? ?;
  rewrite !lookup_insert; repeat case_decide; congruence.

(** The next step of two runs of one generator. *)
Ltac gen_step2 :=
  match goal with
  | |- context [gbind (lift ?r) _ _] =>
      let E := fresh "E" in
      destruct r eqn:E; [rewrite !gbind_lift_Ok | by rewrite !gbind_lift_Raise]
  | |- context [gbind (datetime_utcnow_aware _) _ _] => rewrite !gbind_utcnow
  end.

Section TwoRuns.
Context `{PyStr} `{Utils}.
Variables clock1 clock2 : nat -> datetime.

Lemma contracts_item_same_but_time response row n :
  same_but_time (ContractsSpider.parse_page_item clock1 response row n)
                (ContractsSpider.parse_page_item clock2 response row n).
Proof.
  destruct row as [headline raw_details]. unfold ContractsSpider.parse_page_item.
  repeat gen_step2.
  unfold yield, same_but_time. cbn [reads value trace List.map forget_time].
  split; [done|]. split; [done|]. do 2 f_equal.
  destruct (ContractsSpider.details_btn_href raw_details) as [u|];
    [destruct (truthy (Some u))|]; same_fields.
Qed.

Lemma bids_item_same_but_time response row n :
  same_but_time (BidsSpider.parse_page_item clock1 response row n)
                (BidsSpider.parse_page_item clock2 response row n).
Proof.
  destruct row as [[[modality_and_code [description document_url]] history] date].
  unfold BidsSpider.parse_page_item.
  repeat gen_step2.
  unfold yield, same_but_time. cbn [reads value trace List.map forget_time].
  split; [done|]. split; [done|]. do 2 f_equal.
  destruct document_url as [u|]; [destruct (truthy (Some u))|]; same_fields.
Qed.

Lemma contracts_same_but_time response n :
  same_but_time (ContractsSpider.parse_page clock1 response n)
                (ContractsSpider.parse_page clock2 response n).
Proof. apply for_each_same_but_time. intros. apply contracts_item_same_but_time. Qed.

Lemma bids_same_but_time response n :
  same_but_time (BidsSpider.parse_page clock1 response n)
                (BidsSpider.parse_page clock2 response n).
Proof.
  unfold BidsSpider.parse_page.
  apply gbind_same_but_time. intros descriptions j.
  apply gbind_same_but_time. intros bids_history j'.
  apply for_each_same_but_time. intros. apply bids_item_same_but_time.
Qed.

Hypothesis same_readings : forall n, clock1 n = clock2 n.

Lemma contracts_same_clock response n :
  ContractsSpider.parse_page clock1 response n = ContractsSpider.parse_page clock2 response n.
Proof.
  apply for_each_ext. intros [headline raw_details] j.
  unfold ContractsSpider.parse_page_item.
  repeat (apply gbind_ext; intros).
  by rewrite !gbind_utcnow, same_readings.
Qed.

Lemma bids_same_clock response n :
  BidsSpider.parse_page clock1 response n = BidsSpider.parse_page clock2 response n.
Proof.
  unfold BidsSpider.parse_page.
  apply gbind_ext. intros descriptions j. apply gbind_ext. intros bids_history j'.
  apply for_each_ext.
  intros [[[modality_and_code [description document_url]] history] date] k.
  unfold BidsSpider.parse_page_item.
  repeat (apply gbind_ext; intros).
  by rewrite !gbind_utcnow, same_readings.
Qed.

End TwoRuns.

Lemma yields_forget_time (t : list (event Item)) :
  yields (List.map forget_time t) = List.map (delete "crawled_at") (yields t).
Proof. induction t as [|[it|l r] t IH]; simpl; [done| |done]. by rewrite IH. Qed.

Lemma logged_forget_time (t : list (event Item)) :
  logged (List.map forget_time t) = logged t.
Proof. induction t as [|[it|l r] t IH]; simpl; [done|done|]. by rewrite IH. Qed.

Lemma same_but_time_agree {A} (o1 o2 : outcome Item A) :
  same_but_time o1 o2 -> agree_but_time o1 o2.
Proof.
  intros (Hr & Hv & Ht). split; [done|]. split.
  - by rewrite <- (logged_forget_time (trace o1)), Ht, logged_forget_time.
  - by rewrite <- !yields_forget_time, Ht.
Qed.

(** C8, as the code has it: two runs on the same page, each with its own
    clock, end the same way, log the same and yield records that agree in
    every field but crawled_at; with the same readings of the clock the two
    runs are the same. *)
Theorem extraction_deterministic_but_time
    (S : PyStr) (U : Utils) (clock1 clock2 : nat -> datetime) :
  (forall (response : BidsSpider.response) (n : nat),
      agree_but_time (BidsSpider.parse_page clock1 response n)
                     (BidsSpider.parse_page clock2 response n)) /\
  (forall (response : ContractsSpider.response) (n : nat),
      agree_but_time (ContractsSpider.parse_page clock1 response n)
                     (ContractsSpider.parse_page clock2 response n)) /\
  ((forall n, clock1 n = clock2 n) ->
   (forall (response : BidsSpider.response) (n : nat),
       BidsSpider.parse_page clock1 response n = BidsSpider.parse_page clock2 response n) /\
   (forall (response : ContractsSpider.response) (n : nat),
       ContractsSpider.parse_page clock1 response n =
       ContractsSpider.parse_page clock2 response n)).
Proof.
  split; [|split].
  - intros. apply same_but_time_agree, bids_same_but_time.
  - intros. apply same_but_time_agree, contracts_same_but_time.
  - intros Hclock. split; intros.
    + by apply bids_same_clock.
    + by apply contracts_same_clock.
Qed.

Lemma extraction_deterministic_but_time_witness :
  ContractsSpider.parse_page example_clock example_contracts 0%nat =
  ContractsSpider.parse_page (fun n => example_clock (n + 0)) example_contracts 0%nat.
Proof.
  apply (proj2 (proj2 (extraction_deterministic_but_time latin1_pystr helpers_utils
                         example_clock (fun n => example_clock (n + 0))))).
  intros n. simpl. by rewrite Nat.add_0_r.
Defined.

(** C8, as the claim states it, fails: the same page read at two times
    gives two records that differ in crawled_at. *)
Lemma extraction_differs_in_time :
  yields (trace (ContractsSpider.parse_page example_clock example_contracts 0%nat)) <>
  yields (trace (ContractsSpider.parse_page example_clock example_contracts 1%nat)).
Proof.
  intros Heq.
  assert (Hat : forall n,
    (fun its : list Item => its ≫= (fun it => option_list (it !! "crawled_at")))
      (yields (trace (ContractsSpider.parse_page example_clock example_contracts n))) =
    [VDatetime (example_clock n)]) by reflexivity.
  pose proof (Hat 0%nat) as H0. pose proof (Hat 1%nat) as H1.
  cbv beta in H0, H1. rewrite Heq in H0. rewrite H0 in H1. discriminate.
Qed.

(** ** The contractor of a contract *)

Section Contractor.
Context `{PyStr} `{Utils}.
Variable clock : nat -> datetime.

Lemma contractor_fields response headline raw_details n contractor_text
    document name rest it :
  Py.index (ContractsSpider.clean_details raw_details) 1 = Ok contractor_text ->
  Py.split contractor_text " - " = document :: name :: rest ->
  it ∈ yields (trace (ContractsSpider.parse_page_item clock response
                        (headline, raw_details) n)) ->
  it !! "contractor_document" = Some (VStr document) /\
  it !! "contractor_name" = Some (VStr name).
Proof.
  intros Hc Hs. unfold ContractsSpider.parse_page_item. rewrite Hc.
  do 3 (gen_step; [|by intros ?%elem_of_nil]).
  rewrite gbind_lift_Ok, Hs. cbn [Py.index lookup list_lookup of_option].
  rewrite !gbind_lift_Ok.
  repeat (gen_step; [|by intros ?%elem_of_nil]). gen_step.
  unfold yield. cbn [trace yields]. intros ->%list_elem_of_singleton.
  destruct (ContractsSpider.details_btn_href raw_details) as [u|];
    [destruct (truthy (Some u))|]; by simplify_map_eq.
Qed.

(** Two contractor texts with the same first two segments give the same
    outcome. *)
Lemma contractor_rest_dropped response headline texts1 texts2 href n
    summary contractor1 contractor2 others document name rest1 rest2 :
  ContractsSpider.clean_details (ContractsSpider.mkdetails texts1 href) =
    summary :: contractor1 :: others ->
  ContractsSpider.clean_details (ContractsSpider.mkdetails texts2 href) =
    summary :: contractor2 :: others ->
  Py.split contractor1 " - " = document :: name :: rest1 ->
  Py.split contractor2 " - " = document :: name :: rest2 ->
  ContractsSpider.parse_page_item clock response
    (headline, ContractsSpider.mkdetails texts1 href) n =
  ContractsSpider.parse_page_item clock response
    (headline, ContractsSpider.mkdetails texts2 href) n.
Proof.
  intros Hc1 Hc2 Hs1 Hs2. unfold ContractsSpider.parse_page_item.
  rewrite Hc1, Hc2. cbn [Py.index lookup list_lookup of_option].
  do 3 (apply gbind_ext; intros).
  rewrite !gbind_lift_Ok, Hs1, Hs2. cbn [Py.index lookup list_lookup of_option].
  by rewrite !gbind_lift_Ok.
Qed.

End Contractor.

(** C10: of the segments of the contractor text between " - ", the first
    is the contractor_document of the record and the second its
    contractor_name; the segments after the second are in no field, and two
    texts that differ only there give the same record, with nothing logged
    and no exception.  For "74.096.231/0001-80 - WAMBERTO LOPES DE ARAUJO -
    ME" the name is "WAMBERTO LOPES DE ARAUJO" and "ME" is dropped. *)
Theorem contractor_segments_dropped :
  (forall (S : PyStr) (U : Utils) (clock : nat -> datetime)
          (response : ContractsSpider.response)
          (headline : ContractsSpider.headline_node)
          (raw_details : ContractsSpider.details_node) (n : nat)
          (contractor_text document name : string) (rest : list string) (it : Item),
      Py.index (ContractsSpider.clean_details raw_details) 1 = Ok contractor_text ->
      Py.split contractor_text " - " = document :: name :: rest ->
      it ∈ yields (trace (ContractsSpider.parse_page_item clock response
                            (headline, raw_details) n)) ->
      it !! "contractor_document" = Some (VStr document) /\
      it !! "contractor_name" = Some (VStr name)) /\
  (forall (S : PyStr) (U : Utils) (clock : nat -> datetime)
          (response : ContractsSpider.response)
          (headline : ContractsSpider.headline_node)
          (texts1 texts2 : list string) (href : option string) (n : nat)
          (summary contractor1 contractor2 : string) (others : list string)
          (document name : string) (rest1 rest2 : list string),
      ContractsSpider.clean_details (ContractsSpider.mkdetails texts1 href) =
        summary :: contractor1 :: others ->
      ContractsSpider.clean_details (ContractsSpider.mkdetails texts2 href) =
        summary :: contractor2 :: others ->
      Py.split contractor1 " - " = document :: name :: rest1 ->
      Py.split contractor2 " - " = document :: name :: rest2 ->
      ContractsSpider.parse_page_item clock response
        (headline, ContractsSpider.mkdetails texts1 href) n =
      ContractsSpider.parse_page_item clock response
        (headline, ContractsSpider.mkdetails texts2 href) n) /\
  Py.split "74.096.231/0001-80 - WAMBERTO LOPES DE ARAUJO - ME" " - " =
    ["74.096.231/0001-80"; "WAMBERTO LOPES DE ARAUJO"; "ME"] /\
  ContractsSpider.parse_page example_clock example_contracts 0%nat =
    mkoutcome [Yield example_contract_item] 1%nat (Ok tt).
Proof.
  split; [|split; [|split]].
  - intros. by eapply contractor_fields.
  - intros. by eapply contractor_rest_dropped.
  - reflexivity.
  - reflexivity.
Qed.

Lemma contractor_segments_dropped_witness :
  example_contract_item !! "contractor_document" = Some (VStr "74.096.231/0001-80") /\
  example_contract_item !! "contractor_name" = Some (VStr "WAMBERTO LOPES DE ARAUJO").
Proof.
  apply (proj1 contractor_segments_dropped latin1_pystr helpers_utils example_clock
           example_contracts
           (ContractsSpider.mkheadline
              ["CONTRATO N° 11-2017-1926C   REFERENTE A CONTRATAÇÃO DE EMPRESA AQUISIÇÃO DE ÁGUA MINERAL NATURAL PARA A...";
               "01/06/2017"])
           (ContractsSpider.mkdetails
              ["Objeto:";
               "REFERENTE A CONTRATAÇÃO DE EMPRESA AQUISIÇÃO DE ÁGUA MINERAL NATURAL PARA ATENDER AS NECESSIDADES DA SUPERINTENDÊNCIA MUNICIPAL DE TRÂNSITO.";
               "Contratada:";
               " 74.096.231/0001-80 - WAMBERTO LOPES DE ARAUJO - ME ";
               "Valor:"; "R$ 62.960,00";
               "Data Final de Contrato:"; "01/06/2018";
               "VISUALIZAR"]
              (Some "/contratos/11-2017-1926C.pdf"))
           0%nat
           "74.096.231/0001-80 - WAMBERTO LOPES DE ARAUJO - ME"
           "74.096.231/0001-80" "WAMBERTO LOPES DE ARAUJO" ["ME"]).
  - reflexivity.
  - reflexivity.
  - change (example_contract_item ∈ [example_contract_item]). left.
Defined.

(** ** The calendar *)

Lemma days_before_year_succ y :
  days_before_year (y + 1) = days_before_year y + 365 + leap_day y.
Proof.
  unfold days_before_year, leap_day, is_leap.
  replace (y + 1 - 1) with (y - 1 + 1) by lia.
  destruct (Z.eqb_spec (y mod 4) 0), (Z.eqb_spec (y mod 100) 0),
    (Z.eqb_spec (y mod 400) 0); cbn [andb orb negb]; Z.div_mod_to_equations; lia.
Qed.

Lemma days_before_year_mono y1 y2 :
  y1 <= y2 -> days_before_year y1 <= days_before_year y2.
Proof.
  unfold days_before_year. intros Hle.
  assert (H4 : (y1 - 1) / 4 <= (y2 - 1) / 4) by (apply Z.div_le_mono; lia).
  assert (H400 : (y1 - 1) / 400 <= (y2 - 1) / 400) by (apply Z.div_le_mono; lia).
  assert (H100 : (y2 - 1) / 100 - (y1 - 1) / 100 <= y2 - y1)
    by (Z.div_mod_to_equations; lia).
  lia.
Qed.

Lemma month_cases m :
  1 <= m <= 12 ->
  m = 1 \/ m = 2 \/ m = 3 \/ m = 4 \/ m = 5 \/ m = 6 \/
  m = 7 \/ m = 8 \/ m = 9 \/ m = 10 \/ m = 11 \/ m = 12.
Proof. lia. Qed.

Ltac by_month m H :=
  destruct (month_cases m H) as [->|[->|[->|[->|[->|[->|[->|[->|[->|[->|[->| ->]]]]]]]]]]].

Lemma days_before_month_eq y m :
  1 <= m <= 12 -> days_before_month y m = days_before_month_table y m.
Proof.
  intros Hm. unfold days_before_month_table, leap_day.
  by_month m Hm; unfold days_before_month;
    match goal with
    | |- context [Z.to_nat ?e] =>
        let k := eval vm_compute in (Z.to_nat e) in change (Z.to_nat e) with k
    end;
    cbv -[is_leap Z.add]; destruct (is_leap y); lia.
Qed.

Lemma days_in_month_bounds y m : 28 <= days_in_month y m <= 31.
Proof.
  unfold days_in_month.
  destruct (m =? 2); [destruct (is_leap y); lia|].
  destruct ((m =? 4) || (m =? 6) || (m =? 9) || (m =? 11)); lia.
Qed.

Lemma valid_date_bounds d :
  valid_date d = true ->
  1 <= year d <= 9999 /\ 1 <= month d <= 12 /\
  1 <= day d <= days_in_month (year d) (month d).
Proof. unfold valid_date, MINYEAR, MAXYEAR. lia. Qed.

Lemma valid_date_intro d :
  1 <= year d <= 9999 -> 1 <= month d <= 12 ->
  1 <= day d <= days_in_month (year d) (month d) ->
  valid_date d = true.
Proof. unfold valid_date, MINYEAR, MAXYEAR. lia. Qed.

(** The days of a year before the end of a month of it. *)
Lemma days_before_month_end y m :
  1 <= m <= 12 ->
  days_before_month y m + days_in_month y m =
  if m =? 12 then 365 + leap_day y else days_before_month y (m + 1).
Proof.
  intros Hm.
  destruct (Z.eqb_spec m 12) as [->|Hne].
  - rewrite days_before_month_eq by lia.
    unfold days_before_month_table, days_in_month, leap_day.
    destruct (is_leap y); reflexivity.
  - rewrite !days_before_month_eq by lia.
    unfold days_before_month_table, days_in_month, leap_day.
    destruct (is_leap y); by_month m Hm; done.
Qed.

Lemma days_before_month_mono y m1 m2 :
  1 <= m1 -> m1 <= m2 -> m2 <= 12 ->
  days_before_month y m1 <= days_before_month y m2.
Proof.
  intros H1 H12 H2. rewrite !days_before_month_eq by lia.
  unfold days_before_month_table, leap_day.
  assert (Hm1 : 1 <= m1 <= 12) by lia. assert (Hm2 : 1 <= m2 <= 12) by lia.
  destruct (is_leap y); by_month m1 Hm1; by_month m2 Hm2; (done || lia).
Qed.

(** [next_day] is the day of the next ordinal. *)
Lemma toordinal_add_one_day d :
  valid_date d = true -> toordinal (next_day d) = toordinal d + 1.
Proof.
  intros (Hy & Hm & Hd)%valid_date_bounds. unfold next_day, toordinal.
  destruct (Z.ltb_spec (day d) (days_in_month (year d) (month d))); simpl; [lia|].
  pose proof (days_before_month_end (year d) (month d) Hm) as Hend.
  destruct (Z.ltb_spec (month d) 12); simpl.
  - destruct (Z.eqb_spec (month d) 12); lia.
  - destruct (Z.eqb_spec (month d) 12); [|lia].
    rewrite days_before_year_succ. vm_compute (days_before_month _ 1). lia.
Qed.

(** The order of the dates is the order of their ordinals. *)
Lemma date_ltb_toordinal a b :
  valid_date a = true -> valid_date b = true ->
  date_ltb a b = true -> toordinal a < toordinal b.
Proof.
  intros (Hya & Hma & Hda)%valid_date_bounds (Hyb & Hmb & Hdb)%valid_date_bounds.
  unfold date_ltb, toordinal. intros Hlt.
  pose proof (days_before_month_end (year a) (month a) Hma) as Hend.
  pose proof (days_before_month_mono (year b) 1 (month b)) as Hb0.
  vm_compute (days_before_month _ 1) in Hb0.
  destruct (Z.ltb_spec (year a) (year b)) as [Hy|Hy].
  - pose proof (days_before_year_mono (year a + 1) (year b)) as Hmono.
    rewrite days_before_year_succ in Hmono.
    pose proof (days_before_month_mono (year a) (month a + 1) 12) as Ha12.
    pose proof (days_before_month_end (year a) 12) as Hend12.
    change (12 =? 12) with true in Hend12. cbv iota in Hend12.
    pose proof (days_in_month_bounds (year a) 12).
    destruct (Z.eqb_spec (month a) 12); lia.
  - destruct (Z.eqb_spec (year a) (year b)) as [Hye|]; [|simpl in Hlt; lia].
    rewrite Hye in *. simpl in Hlt.
    destruct (Z.ltb_spec (month a) (month b)) as [Hm|Hm].
    + pose proof (days_before_month_mono (year b) (month a + 1) (month b)).
      destruct (Z.eqb_spec (month a) 12); lia.
    + destruct (Z.eqb_spec (month a) (month b)) as [Hme|]; [|simpl in Hlt; lia].
      rewrite Hme. simpl in Hlt. lia.
Qed.

Lemma date_trichotomy a b :
  date_ltb a b = true \/ a = b \/ date_ltb b a = true.
Proof.
  destruct a as [ya ma da], b as [yb mb db]. unfold date_ltb. simpl.
  destruct (Z.lt_total ya yb) as [?|[->|?]]; [left; lia| |right; right; lia].
  destruct (Z.lt_total ma mb) as [?|[->|?]]; [left; lia| |right; right; lia].
  destruct (Z.lt_total da db) as [?|[->|?]]; [left; lia| |right; right; lia].
  right. by left.
Qed.

Lemma date_ltb_irrefl a : date_ltb a a = false.
Proof. unfold date_ltb. lia. Qed.

Lemma toordinal_date_ltb a b :
  valid_date a = true -> valid_date b = true ->
  toordinal a < toordinal b -> date_ltb a b = true.
Proof.
  intros Ha Hb Hlt. destruct (date_trichotomy a b) as [?|[->|Hba]]; [done|lia|].
  apply date_ltb_toordinal in Hba; [lia|done|done].
Qed.

Lemma toordinal_inj a b :
  valid_date a = true -> valid_date b = true -> toordinal a = toordinal b -> a = b.
Proof.
  intros Ha Hb Heq. destruct (date_trichotomy a b) as [Hab|[->|Hba]]; [|done|].
  - apply date_ltb_toordinal in Hab; [lia|done|done].
  - apply date_ltb_toordinal in Hba; [lia|done|done].
Qed.

Lemma date_leb_toordinal a b :
  valid_date a = true -> valid_date b = true ->
  date_leb a b = true <-> toordinal a <= toordinal b.
Proof.
  intros Ha Hb. unfold date_leb. split.
  - intros Hle. destruct (Z.le_gt_cases (toordinal a) (toordinal b)) as [|Hgt]; [done|].
    apply toordinal_date_ltb in Hgt; [|done|done]. by rewrite Hgt in Hle.
  - intros Hle. destruct (date_ltb b a) eqn:Hba; [|done].
    apply date_ltb_toordinal in Hba; [lia|done|done].
Qed.

Lemma date_ltb_iff a b :
  valid_date a = true -> valid_date b = true ->
  date_ltb a b = true <-> toordinal a < toordinal b.
Proof.
  intros Ha Hb. split; [by apply date_ltb_toordinal|by apply toordinal_date_ltb].
Qed.

(** Before a date that exists, the next day exists. *)
Lemma next_day_valid d today :
  valid_date d = true -> valid_date today = true -> date_ltb d today = true ->
  valid_date (next_day d) = true.
Proof.
  intros (Hy & Hm & Hd)%valid_date_bounds (Hyt & Hmt & Hdt)%valid_date_bounds Hlt.
  unfold date_ltb in Hlt. unfold next_day.
  destruct (Z.ltb_spec (day d) (days_in_month (year d) (month d))).
  - apply valid_date_intro; simpl; lia.
  - destruct (Z.ltb_spec (month d) 12).
    + pose proof (days_in_month_bounds (year d) (month d + 1)).
      apply valid_date_intro; simpl; lia.
    + pose proof (days_in_month_bounds (year d + 1) 1).
      pose proof (days_in_month_bounds (year today) (month today)).
      pose proof (days_in_month_bounds (year d) (month d)).
      assert (month d = 12) as Hm12 by lia.
      assert (days_in_month (year d) (month d) = 31) as Hdim
        by (rewrite Hm12; reflexivity).
      apply valid_date_intro; simpl; lia.
Qed.

(** ** The days of a crawl *)

Lemma days_from_length d k : List.length (days_from d k) = k.
Proof. revert d. induction k as [|k IH]; intros d; simpl; [done|]. by rewrite IH. Qed.

Lemma days_from_next d k i a b :
  days_from d k !! i = Some a -> days_from d k !! S i = Some b -> b = next_day a.
Proof.
  revert d i. induction k as [|k IH]; intros d i; [done|].
  destruct i as [|i]; simpl.
  - intros [= <-]. destruct k; simpl; [done|]. by intros [= <-].
  - apply IH.
Qed.

Lemma day_round_next url data d n :
  valid_date (next_day d) = true ->
  day_round url data d n =
  mkoutcome [Yield (day_request url data d)] n (Ok (next_day d)).
Proof.
  intros (Hy & _)%valid_date_bounds. unfold day_round, add_one_day.
  destruct (Z.leb_spec (year (next_day d)) MAXYEAR) as [_|Hbad];
    [done|unfold MAXYEAR in Hbad; lia].
Qed.

Section Days.
Variable today : date.
Hypothesis today_valid : valid_date today = true.

Lemma days_between_O start :
  valid_date start = true ->
  days_between start today = O -> date_ltb start today = false.
Proof.
  intros Hs Hk. unfold days_between in Hk.
  destruct (date_ltb start today) eqn:Hlt; [|done].
  apply date_ltb_toordinal in Hlt; [lia|done|done].
Qed.

Lemma days_between_S start k :
  valid_date start = true ->
  days_between start today = S k ->
  date_ltb start today = true /\ valid_date (next_day start) = true /\
  days_between (next_day start) today = k.
Proof.
  intros Hs Hk. unfold days_between in *.
  assert (Hlt : date_ltb start today = true) by (apply toordinal_date_ltb; try done; lia).
  split; [done|]. split; [by apply (next_day_valid start today)|].
  rewrite toordinal_add_one_day by done. lia.
Qed.

Lemma days_from_lookup k : forall start i d,
  valid_date start = true -> days_between start today = k ->
  days_from start k !! i = Some d ->
  valid_date d = true /\ toordinal d = toordinal start + Z.of_nat i /\ (i < k)%nat.
Proof.
  induction k as [|k IH]; intros start i d Hs Hk; [done|].
  destruct (days_between_S start k Hs Hk) as (Hlt & Hn & Hk').
  destruct i as [|i]; simpl.
  - intros [= <-]. repeat split; [done|lia|lia].
  - intros Hi. destruct (IH _ _ _ Hn Hk' Hi) as (Hd & Ho & Hik).
    rewrite toordinal_add_one_day in Ho by done. repeat split; [done|lia|lia].
Qed.

(** The loop over the days: with rounds enough it yields the request of
    each day from [start] to the eve of [today] and ends at [today], or at
    [start] when [start] is not before [today]. *)
Lemma while_days url data k : forall start fuel n,
  valid_date start = true -> days_between start today = k -> (k <= fuel)%nat ->
  while fuel (fun d => date_ltb d today) (day_round url data) start n =
  mkoutcome (List.map (fun d => Yield (day_request url data d)) (days_from start k)) n
            (Ok (Some (if date_ltb start today then today else start))).
Proof.
  induction k as [|k IH]; intros start fuel n Hs Hk Hfuel.
  - rewrite (days_between_O start Hs Hk).
    destruct fuel; simpl; by rewrite (days_between_O start Hs Hk).
  - destruct (days_between_S start k Hs Hk) as (Hlt & Hn & Hk').
    destruct fuel as [|fuel]; [lia|]. cbn [while]. rewrite Hlt.
    rewrite (gbind_value_Ok _ _ _ (next_day start)) by by rewrite day_round_next.
    rewrite day_round_next by done. cbn [value reads trace].
    rewrite (IH (next_day start) fuel n Hn Hk') by lia.
    cbn [value reads trace days_from List.map app]. do 3 f_equal.
    destruct (date_ltb (next_day start) today) eqn:Hnext; [done|].
    apply toordinal_inj; [done|done|].
    assert (toordinal today <= toordinal (next_day start)).
    { apply date_leb_toordinal; [done|done|]. unfold date_leb. by rewrite Hnext. }
    apply date_ltb_toordinal in Hlt; [|done|done].
    rewrite toordinal_add_one_day in * by done. lia.
Qed.

End Days.

(** ** The text of a day *)

Lemma string_app_empty (cur : string) : cur +:+ "" = cur.
Proof.
  induction cur as [|x cur IHc]; [done|].
  change (String x (cur +:+ "") = String x cur). by f_equal.
Qed.

Lemma string_app_char (cur s : string) (c : ascii) :
  (cur +:+ String c "") +:+ s = cur +:+ String c s.
Proof.
  induction cur as [|x cur IHc]; [done|].
  change (String x ((cur +:+ String c "") +:+ s) = String x (cur +:+ String c s)).
  by f_equal.
Qed.

Lemma all_chars_app f a b :
  all_chars f (a +:+ b) = all_chars f a && all_chars f b.
Proof.
  induction a as [|c a IH]; [done|].
  change (f c && all_chars f (a +:+ b) = f c && all_chars f a && all_chars f b).
  rewrite IH. by destruct (f c).
Qed.

Lemma all_chars_impl (f g : ascii -> bool) s :
  (forall c, f c = true -> g c = true) ->
  all_chars f s = true -> all_chars g s = true.
Proof.
  intros Hfg. induction s as [|c s IH]; [done|]. cbn [all_chars].
  intros [Hc Hs]%andb_true_iff. by rewrite (Hfg c Hc), IH.
Qed.

Lemma prefix_app s r : String.prefix s (s +:+ r) = true.
Proof.
  induction s as [|c s IH]; [by destruct r|].
  change (String.prefix (String c s) (String c (s +:+ r)) = true).
  cbn [String.prefix]. by destruct (ascii_dec c c).
Qed.

(** The characters of a separator that was matched are skipped. *)
Lemma split_go_skip sep x rest cur :
  Py.split_go sep (x +:+ rest) (String.length x) cur = Py.split_go sep rest 0 cur.
Proof.
  induction x as [|c x IH]; [done|].
  change (Py.split_go sep (String c (x +:+ rest)) (S (String.length x)) cur =
          Py.split_go sep rest 0 cur).
  cbn [Py.split_go]. apply IH.
Qed.

(** A segment without the first character of the separator ends at the
    separator. *)
Lemma split_go_segment c0 sep' a rest cur :
  all_chars (fun c => negb (Ascii.eqb c c0)) a = true ->
  Py.split_go (String c0 sep') (a +:+ String c0 sep' +:+ rest) 0 cur =
  (cur +:+ a) :: Py.split_go (String c0 sep') rest 0 "".
Proof.
  revert cur. induction a as [|c a IH]; intros cur Ha.
  - change (Py.split_go (String c0 sep') (String c0 (sep' +:+ rest)) 0 cur =
            (cur +:+ "") :: Py.split_go (String c0 sep') rest 0 "").
    cbn [Py.split_go].
    change (String c0 (sep' +:+ rest)) with (String c0 sep' +:+ rest).
    rewrite prefix_app, string_app_empty. f_equal.
    cbn [String.length Nat.pred]. apply split_go_skip.
  - cbn [all_chars] in Ha. apply andb_true_iff in Ha as [Hc Ha].
    change (Py.split_go (String c0 sep') (String c (a +:+ String c0 sep' +:+ rest)) 0 cur =
            (cur +:+ String c a) :: Py.split_go (String c0 sep') rest 0 "").
    cbn [Py.split_go String.prefix].
    destruct (ascii_dec c0 c) as [->|_]; [by rewrite Ascii.eqb_refl in Hc|].
    by rewrite IH, string_app_char.
Qed.

Lemma split_go_last c0 sep' a cur :
  all_chars (fun c => negb (Ascii.eqb c c0)) a = true ->
  Py.split_go (String c0 sep') a 0 cur = [cur +:+ a].
Proof.
  revert cur. induction a as [|c a IH]; intros cur Ha.
  - cbn [Py.split_go]. by rewrite string_app_empty.
  - cbn [all_chars] in Ha. apply andb_true_iff in Ha as [Hc Ha].
    cbn [Py.split_go String.prefix].
    destruct (ascii_dec c0 c) as [->|_]; [by rewrite Ascii.eqb_refl in Hc|].
    by rewrite IH, string_app_char.
Qed.

Lemma range_forallb (f : Z -> bool) a b n :
  forallb f (Py.range a b) = true -> a <= n < b -> f n = true.
Proof.
  intros Hall Hn. rewrite forallb_forall in Hall. apply Hall.
  unfold Py.range. apply in_map_iff. exists (Z.to_nat (n - a)). split; [lia|].
  apply in_seq. lia.
Qed.

(** The days, the months and the years as [strftime] writes them. *)
Lemma day_texts :
  forallb (fun n => writes (zero_pad 2 n) n) (Py.range 1 32) = true.
Proof. vm_compute. reflexivity. Qed.

Lemma year_texts :
  forallb (fun y => writes (Py.str y) y) (Py.range 1 10000) = true.
Proof. vm_compute. reflexivity. Qed.

Lemma writes_text text n :
  writes text n = true ->
  read_number text = Some n /\
  forall c0, Py.is_digit c0 = false ->
             all_chars (fun c => negb (Ascii.eqb c c0)) text = true.
Proof.
  unfold writes. intros [Hd Hr]%andb_true_iff. split.
  - destruct (read_number text) as [k|]; [|done]. f_equal. lia.
  - intros c0 Hc0. apply (all_chars_impl Py.is_digit); [|done].
    intros c Hc. destruct (Ascii.eqb_spec c c0) as [->|]; [congruence|done].
Qed.

Section DayText.
Variable d : date.
Hypothesis d_valid : valid_date d = true.

Lemma strftime_parts :
  writes (zero_pad 2 (day d)) (day d) = true /\
  writes (zero_pad 2 (month d)) (month d) = true /\
  writes (Py.str (year d)) (year d) = true.
Proof.
  destruct (valid_date_bounds d d_valid) as (Hy & Hm & Hd).
  pose proof (days_in_month_bounds (year d) (month d)).
  split; [|split].
  - apply (range_forallb (fun n => writes (zero_pad 2 n) n) 1 32); [apply day_texts|lia].
  - apply (range_forallb (fun n => writes (zero_pad 2 n) n) 1 32); [apply day_texts|lia].
  - apply (range_forallb (fun y => writes (Py.str y) y) 1 10000); [apply year_texts|lia].
Qed.

(** What [strftime] writes reads back as the day. *)
Lemma read_day_strftime : read_day (strftime_dmY d) = Some d.
Proof.
  destruct strftime_parts as (Hd & Hm & Hy).
  apply writes_text in Hd as [Hd Hdc]. apply writes_text in Hm as [Hm Hmc].
  apply writes_text in Hy as [Hy Hyc].
  unfold read_day, strftime_dmY, Py.split.
  rewrite (split_go_segment "/"%char "" _ _ "") by (apply Hdc; reflexivity).
  rewrite (split_go_segment "/"%char "" _ _ "") by (apply Hmc; reflexivity).
  rewrite (split_go_last "/"%char "" _ "") by (apply Hyc; reflexivity).
  change ("" +:+ zero_pad 2 (day d)) with (zero_pad 2 (day d)).
  change ("" +:+ zero_pad 2 (month d)) with (zero_pad 2 (month d)).
  change ("" +:+ Py.str (year d)) with (Py.str (year d)).
  rewrite Hd, Hm, Hy. destruct d as [y m dd]. cbn [year month day] in *.
  by rewrite d_valid.
Qed.

Lemma strftime_no_space :
  all_chars (fun c => negb (Ascii.eqb c " "%char)) (strftime_dmY d) = true.
Proof.
  destruct strftime_parts as (Hd & Hm & Hy).
  apply writes_text in Hd as [_ Hdc]. apply writes_text in Hm as [_ Hmc].
  apply writes_text in Hy as [_ Hyc].
  unfold strftime_dmY. rewrite !all_chars_app.
  rewrite (Hdc " "%char) by reflexivity. rewrite (Hmc " "%char) by reflexivity.
  by rewrite (Hyc " "%char) by reflexivity.
Qed.

(** The query of a day asks for the window of the day. *)
Lemma queried_window_day_request url data :
  queried_window (day_request url data d) = Some (day_window d).
Proof.
  unfold queried_window, day_request. cbn [request_formdata].
  rewrite lookup_insert_eq. unfold Py.split.
  rewrite (split_go_segment " "%char "- " _ _ "") by apply strftime_no_space.
  rewrite (split_go_last " "%char "- " _ "") by apply strftime_no_space.
  change ("" +:+ strftime_dmY d) with (strftime_dmY d).
  by rewrite read_day_strftime.
Qed.

End DayText.

Lemma day_window_inj d1 d2 : day_window d1 = day_window d2 -> d1 = d2.
Proof. by intros [= ->]. Qed.

(** The queries of different days differ. *)
Lemma day_request_inj url data d1 d2 :
  valid_date d1 = true -> valid_date d2 = true ->
  day_request url data d1 = day_request url data d2 -> d1 = d2.
Proof.
  intros H1 H2 Heq. apply day_window_inj.
  assert (Hw : queried_window (day_request url data d1) =
               queried_window (day_request url data d2)) by by rewrite Heq.
  rewrite !queried_window_day_request in Hw by done. congruence.
Qed.

(** ** The windows of a crawl *)

Lemma days_from_windows start today :
  valid_date start = true -> valid_date today = true ->
  day_windows start today (day_window <$> days_from start (days_between start today)).
Proof.
  intros Hs Ht.
  pose proof (days_from_lookup today Ht (days_between start today)) as Hlookup.
  assert (Hday : forall i w,
    (day_window <$> days_from start (days_between start today)) !! i = Some w ->
    exists d, w = day_window d /\ valid_date d = true /\
              toordinal d = toordinal start + Z.of_nat i /\
              toordinal d < toordinal today).
  { intros i w (d & -> & Hd)%list_lookup_fmap_Some.
    destruct (Hlookup start i d Hs eq_refl Hd) as (Hv & Ho & Hi).
    exists d. repeat split; [done|done|]. unfold days_between in Hi. lia. }
  split.
  - intros i w (d & -> & Hv & _)%Hday. by split.
  - intros d Hv Hle Hlt.
    apply date_leb_toordinal in Hle; [|done|done].
    apply date_ltb_toordinal in Hlt; [|done|done].
    exists (Z.to_nat (toordinal d - toordinal start)).
    destruct (lookup_lt_is_Some_2 (days_from start (days_between start today))
                (Z.to_nat (toordinal d - toordinal start))) as [d' Hd'].
    { rewrite days_from_length. unfold days_between. lia. }
    rewrite list_lookup_fmap, Hd'. simpl. do 2 f_equal.
    destruct (Hlookup start _ d' Hs eq_refl Hd') as (Hv' & Ho & _).
    apply toordinal_inj; [done|done|lia].
  - intros i j w (d & -> & _ & Hoi & _)%Hday (d' & Heq & _ & Hoj & _)%Hday.
    injection Heq as <- _. lia.
  - intros i j wi wj Hij (di & -> & Hvi & Hoi & _)%Hday (dj & -> & Hvj & Hoj & _)%Hday.
    simpl. apply toordinal_date_ltb; [done|done|lia].
  - intros i w w' Hw Hw'.
    apply list_lookup_fmap_Some in Hw as (d & -> & Hd).
    apply list_lookup_fmap_Some in Hw' as (d' & -> & Hd').
    simpl. symmetry. by eapply days_from_next.
  - intros i w (d & -> & Hv & Ho & Hlt)%Hday. simpl.
    assert (Hdlt : date_ltb d today = true) by (by apply toordinal_date_ltb).
    split; [|split; [done|]].
    + apply date_leb_toordinal; [done|done|lia].
    + apply date_leb_toordinal; [by apply (next_day_valid d today)|done|].
      rewrite toordinal_add_one_day by done. lia.
  - intros Hle. apply date_leb_toordinal in Hle; [|done|done].
    unfold days_between. by replace (Z.to_nat _) with O by lia.
Qed.

Lemma loop_crawls_each_day url data clock start_date fuel n :
  valid_date start_date = true ->
  valid_date (datetime_date (clock n)) = true ->
  (days_between start_date (datetime_date (clock n)) <= fuel)%nat ->
  let o := (log INFO (InitialDate start_date) ;;
            now <- datetime_utcnow_aware clock ;;
            while fuel (fun d => date_ltb d (datetime_date now))
                  (day_round url data) start_date)%gen n in
  exists days,
    yields (trace o) = day_request url data <$> days /\
    (exists final, value o = Ok (Some final)) /\
    day_windows start_date (datetime_date (clock n)) (day_window <$> days) /\
    queried_window <$> yields (trace o) = Some <$> (day_window <$> days) /\
    NoDup (yields (trace o)).
Proof.
  intros Hs Ht Hfuel o. subst o.
  exists (days_from start_date (days_between start_date (datetime_date (clock n)))).
  rewrite gbind_log, gbind_utcnow.
  rewrite (while_days _ Ht url data _ start_date fuel (S n) Hs eq_refl Hfuel).
  cbn [trace value yields]. rewrite yields_map_Yield.
  pose proof (days_from_windows start_date (datetime_date (clock n)) Hs Ht) as Hw.
  pose proof (days_from_lookup _ Ht (days_between start_date (datetime_date (clock n))))
    as Hdays.
  assert (Hvalid : forall d,
    d ∈ days_from start_date (days_between start_date (datetime_date (clock n))) ->
    valid_date d = true).
  { intros d [i Hi]%list_elem_of_lookup_1.
    by destruct (Hdays start_date i d Hs eq_refl Hi). }
  split; [done|]. split; [by eexists|]. split; [done|]. split.
  - change (List.map (day_request url data)) with (fmap (M:=list) (day_request url data)).
    rewrite <- !list_fmap_compose. apply Forall_fmap_ext_1, Forall_forall.
    intros d Hd. cbn. by apply queried_window_day_request, Hvalid.
  - change (List.map (day_request url data)) with (fmap (M:=list) (day_request url data)).
    apply NoDup_fmap_2_strong.
    + intros d1 d2 Hd1 Hd2. apply day_request_inj; by apply Hvalid.
    + apply NoDup_alt. intros i j d Hi Hj.
      apply (windows_once _ _ _ Hw i j (day_window d)); by rewrite list_lookup_fmap, ?Hi, ?Hj.
Qed.

(** C4: from a start date and the date of today, [start_requests] yields
    one query for each calendar day, in ascending order; the windows of the
    days are contiguous and lie within [start, today), and there is none
    when the start is today or later.  The window of a day is what its
    query asks the portal for: the text of POST_DATA, read back as
    "day/month/year - day/month/year", is the day itself as first and as
    last day; and no two of the queries are the same. *)
Theorem windows_one_per_day :
  crawls_each_day ContractsSpider.start_requests ContractsSpider.url ContractsSpider.data /\
  crawls_each_day PaymentsSpider.start_requests PaymentsSpider.url PaymentsSpider.data.
Proof.
  split; intros clock start_date fuel n Hs Ht Hfuel.
  - exact (loop_crawls_each_day ContractsSpider.url ContractsSpider.data
             clock start_date fuel n Hs Ht Hfuel).
  - exact (loop_crawls_each_day PaymentsSpider.url PaymentsSpider.data
             clock start_date fuel n Hs Ht Hfuel).
Qed.

Lemma windows_one_per_day_witness :
  exists days,
    yields (trace (ContractsSpider.start_requests example_clock (mkdate 2020 8 12) 5%nat 0%nat)) =
      day_request ContractsSpider.url ContractsSpider.data <$> days /\
    (exists final,
        value (ContractsSpider.start_requests example_clock (mkdate 2020 8 12) 5%nat 0%nat) =
        Ok (Some final)) /\
    day_windows (mkdate 2020 8 12) (datetime_date (example_clock 0)) (day_window <$> days) /\
    queried_window <$>
      yields (trace (ContractsSpider.start_requests example_clock (mkdate 2020 8 12) 5%nat 0%nat)) =
      Some <$> (day_window <$> days) /\
    NoDup (yields (trace (ContractsSpider.start_requests example_clock (mkdate 2020 8 12)
                            5%nat 0%nat))).
Proof.
  apply (proj1 windows_one_per_day example_clock (mkdate 2020 8 12) 5%nat 0%nat);
    [reflexivity | reflexivity | vm_compute; lia].
Defined.

(** The queries of the crawl from the 12th of August 2020, read on the
    15th: what they hold in POST_DATA and the windows they ask for. *)
Lemma start_requests_texts :
  (fun r => request_formdata r !! "POST_DATA") <$>
    yields (trace (ContractsSpider.start_requests example_clock (mkdate 2020 8 12) 5%nat 0%nat)) =
    [Some "12/08/2020 - 12/08/2020"; Some "13/08/2020 - 13/08/2020";
     Some "14/08/2020 - 14/08/2020"] /\
  queried_window <$>
    yields (trace (PaymentsSpider.start_requests example_clock (mkdate 2020 8 12) 5%nat 0%nat)) =
    [Some (mkwindow (mkdate 2020 8 12) (mkdate 2020 8 13));
     Some (mkwindow (mkdate 2020 8 13) (mkdate 2020 8 14));
     Some (mkwindow (mkdate 2020 8 14) (mkdate 2020 8 15))] /\
  strftime_dmY (mkdate 999 1 1) = "01/01/999".
Proof. repeat split. Qed.

(** The crawl of the last days of February 2020, read on the 2nd of
    March. *)
Lemma start_requests_leap_year :
  let clock := fun _ : nat => mkdatetime (mkdate 2020 3 2) 0 in
  yields (trace (PaymentsSpider.start_requests clock (mkdate 2020 2 27) 10%nat 0%nat)) =
    day_request PaymentsSpider.url PaymentsSpider.data <$>
      [mkdate 2020 2 27; mkdate 2020 2 28; mkdate 2020 2 29; mkdate 2020 3 1] /\
  value (PaymentsSpider.start_requests clock (mkdate 2020 2 27) 10%nat 0%nat) =
    Ok (Some (mkdate 2020 3 2)) /\
  request_formdata (day_request PaymentsSpider.url PaymentsSpider.data (mkdate 2020 2 29))
    !! "POST_DATA" = Some "29/02/2020 - 29/02/2020".
Proof. repeat split. Qed.

(** ** The dates of the links *)

Lemma date_new_first y m :
  (1 <= y <= 9999 /\ 1 <= m <= 12 -> date_new y m 1 = Ok (mkdate y m 1)) /\
  (forall d, date_new y m 1 = Ok d -> d = mkdate y m 1 /\ 1 <= y <= 9999 /\ 1 <= m <= 12).
Proof.
  unfold date_new. split.
  - intros [Hy Hm].
    replace (is_c_int y && is_c_int m && is_c_int 1) with true
      by (unfold is_c_int; lia).
    rewrite valid_date_intro; [done|done|done|].
    simpl. pose proof (days_in_month_bounds y m). lia.
  - intros d. destruct (is_c_int y && is_c_int m && is_c_int 1); [|done].
    destruct (valid_date (mkdate y m 1)) eqn:Hv; [|done].
    intros [= <-]. apply valid_date_bounds in Hv. simpl in Hv. split; [done|lia].
Qed.

Lemma first_day_geb_date_geb y m start :
  valid_date start = true ->
  date_geb (mkdate y m 1) start = first_day_geb y m start.
Proof.
  intros (_ & _ & Hd)%valid_date_bounds.
  pose proof (days_in_month_bounds (year start) (month start)).
  unfold date_geb, date_leb, date_ltb, first_day_geb. simpl.
  destruct (Z.ltb_spec y (year start)), (Z.eqb_spec y (year start)),
    (Z.ltb_spec m (month start)), (Z.eqb_spec m (month start)),
    (Z.ltb_spec 1 (day start)), (Z.ltb_spec (year start) y),
    (Z.eqb_spec (year start) y), (Z.ltb_spec (month start) m),
    (Z.eqb_spec (month start) m), (Z.eqb_spec (day start) 1);
    simpl; try reflexivity; lia.
Qed.

Lemma first_day_geb_month_year y m start :
  day start = 1 -> first_day_geb y m start = month_year_geb y m start.
Proof.
  intros Hd. unfold first_day_geb, month_year_geb. rewrite Hd. simpl.
  destruct (Z.ltb_spec (year start) y), (Z.eqb_spec (year start) y),
    (Z.ltb_spec (month start) m), (Z.eqb_spec (month start) m),
    (Z.leb_spec (month start) m); simpl; try reflexivity; lia.
Qed.

Lemma index_two {A} (l : list A) (a b : A) :
  Py.index l 1 = Ok b -> Py.index l 0 = Ok a -> exists rest, l = a :: b :: rest.
Proof.
  destruct l as [|a' [|b' rest]]; try done.
  unfold Py.index. simpl. intros [= <-] [= <-]. by exists rest.
Qed.

Section Gate.
Context `{Utils}.
Variable start_date : date.

Lemma follow_this_date_Ok url b :
  BidsSpider.follow_this_date start_date url = Ok b <->
  exists y m, reads_month_year url y m /\ b = date_geb (mkdate y m 1) start_date.
Proof.
  unfold BidsSpider.follow_this_date, reads_month_year. split.
  - destruct (extract_param url "dt") as [[token|]|e] eqn:Hp; simpl; [|done|done].
    destruct (Py.index (Py.split token "-") 1) as [y_text|e] eqn:Hy; simpl; [|done].
    destruct (Py.int y_text) as [y|e] eqn:Hyi; simpl; [|done].
    destruct (Py.index (Py.split token "-") 0) as [m_text|e] eqn:Hm; simpl; [|done].
    destruct (Py.int m_text) as [m|e] eqn:Hmi; simpl; [|done].
    destruct (date_new y m 1) as [d|e] eqn:Hd; simpl; [|done].
    intros [= <-]. apply date_new_first in Hd as (-> & Hyr & Hmr).
    destruct (index_two _ _ _ Hy Hm) as [rest Hs].
    exists y, m. split; [|done]. by exists token, m_text, y_text, rest.
  - intros (y & m & (token & m_text & y_text & rest & Hp & Hs & Hy & Hm & Hyr & Hmr) & ->).
    rewrite Hp. simpl. rewrite Hs. unfold Py.index. simpl. rewrite Hy. simpl.
    rewrite Hm. simpl. by rewrite (proj1 (date_new_first y m)).
Qed.

Lemma follow_this_date_raises url :
  (~ exists y m, reads_month_year url y m) ->
  raises (BidsSpider.follow_this_date start_date url).
Proof.
  intros Hno. destruct (BidsSpider.follow_this_date start_date url) as [b|e] eqn:Hf.
  - apply follow_this_date_Ok in Hf as (y & m & Hr & _). destruct Hno. by exists y, m.
  - apply raises_Raise.
Qed.

End Gate.

(** What [follow_this_date] does for every start date: the value says
    whether the first day of the month of the link is the start date or
    later. *)
Lemma follow_this_date_first_day (U : Utils) (start_date : date) (url : string) (b : bool) :
  valid_date start_date = true ->
  BidsSpider.follow_this_date start_date url = Ok b <->
  exists y m, reads_month_year url y m /\ b = first_day_geb y m start_date.
Proof.
  intros Hs. rewrite follow_this_date_Ok. split.
  - intros (y & m & Hr & ->). exists y, m. split; [done|].
    by apply first_day_geb_date_geb.
  - intros (y & m & Hr & ->). exists y, m. split; [done|].
    symmetry. by apply first_day_geb_date_geb.
Qed.

(** C2, as the code has it, for a start date that is the first day of a
    month: [follow_this_date] returns a value exactly when the parameter
    dt of the link has two fields between "-" that are integers in the
    range of a month and of a year, and the value says whether that
    month/year is the month/year of the start date or later.  In all other
    cases (no parameter, one field, a field that is no integer, a month or
    a year out of range) it raises; fields after the second are not
    read. *)
Theorem follow_this_date_month_year (U : Utils) (start_date : date) (url : string) :
  valid_date start_date = true ->
  day start_date = 1 ->
  (forall b,
      BidsSpider.follow_this_date start_date url = Ok b <->
      exists y m, reads_month_year url y m /\ b = month_year_geb y m start_date) /\
  ((~ exists y m, reads_month_year url y m) ->
   raises (BidsSpider.follow_this_date start_date url)).
Proof.
  intros Hs Hd. split.
  - intros b. rewrite follow_this_date_first_day by done. split.
    + intros (y & m & Hr & ->). exists y, m. split; [done|].
      by apply first_day_geb_month_year.
    + intros (y & m & Hr & ->). exists y, m. split; [done|].
      symmetry. by apply first_day_geb_month_year.
  - apply follow_this_date_raises.
Qed.

Lemma follow_this_date_month_year_witness :
  exists y m, reads_month_year example_link y m /\
              true = month_year_geb y m (mkdate 2020 1 1).
Proof.
  apply (proj1 (follow_this_date_month_year helpers_utils (mkdate 2020 1 1) example_link
                  eq_refl eq_refl)).
  reflexivity.
Defined.

(** The examples of the specification, and links that are not read. *)
Lemma follow_this_date_examples :
  BidsSpider.follow_this_date (mkdate 2020 1 1) example_link = Ok true /\
  BidsSpider.follow_this_date (mkdate 2021 1 1) example_link = Ok false /\
  BidsSpider.follow_this_date (mkdate 2020 1 1)
    "http://www.feiradesantana.ba.gov.br/seadm/licitacoes_pm.asp?cat=PMFS" =
    Raise AttributeError /\
  BidsSpider.follow_this_date (mkdate 2020 1 1)
    "http://www.feiradesantana.ba.gov.br/seadm/licitacoes_pm.asp?cat=PMFS&dt=082020" =
    Raise IndexError /\
  BidsSpider.follow_this_date (mkdate 2020 1 1)
    "http://www.feiradesantana.ba.gov.br/seadm/licitacoes_pm.asp?cat=PMFS&dt=ago-2020" =
    Raise ValueError /\
  BidsSpider.follow_this_date (mkdate 2020 1 1)
    "http://www.feiradesantana.ba.gov.br/seadm/licitacoes_pm.asp?cat=PMFS&dt=13-2020" =
    Raise ValueError.
Proof. repeat split. Qed.

(** C2, as the claim states it, fails: a parameter dt with a third field
    that is no number is read as its first two fields and gives a value, no
    exception; and with the start on the 15th of January 2020 the link of
    January 2020 is not followed, though its month and year are those of
    the start. *)
Lemma follow_this_date_not_month_year :
  BidsSpider.follow_this_date (mkdate 2020 1 1)
    "http://www.feiradesantana.ba.gov.br/seadm/licitacoes_pm.asp?cat=PMFS&dt=08-2020-x" =
    Ok true /\
  BidsSpider.follow_this_date (mkdate 2020 1 15)
    "http://www.feiradesantana.ba.gov.br/seadm/licitacoes_pm.asp?cat=PMFS&dt=01-2020#links" =
    Ok false /\
  month_year_geb 2020 1 (mkdate 2020 1 15) = true.
Proof. repeat split. Qed.

(** A year followed by a no-break space is read; a month after a separator
    of ASCII is not. *)
Lemma follow_this_date_white_space :
  BidsSpider.follow_this_date (mkdate 2020 1 1)
    ("http://www.feiradesantana.ba.gov.br/seadm/licitacoes_pm.asp?cat=PMFS&dt=08-2020" +:+ nbsp) =
    Ok true /\
  BidsSpider.follow_this_date (mkdate 2020 1 1)
    ("http://www.feiradesantana.ba.gov.br/seadm/licitacoes_pm.asp?cat=PMFS&dt=" +:+
     String "028" "08-2020") = Raise ValueError.
Proof. split; vm_compute; reflexivity. Qed.

(** ** A page of bids *)

Lemma bids_parse_page_example :
  BidsSpider.parse_page example_clock example_bids 0%nat =
  mkoutcome
    [Log WARNING (InvalidURL "arquivos/edital.pdf");
     Log WARNING (MultipleURLs ["arquivos/edital.pdf"; "arquivos/anexo.pdf"]);
     Yield example_bid_item]
    1%nat (Ok tt).
Proof. reflexivity. Qed.

(** ** The rounds of the crawls *)

Lemma contracts_start_requests_body d :
  ContractsSpider.start_requests_body d =
  day_round ContractsSpider.url ContractsSpider.data d.
Proof. reflexivity. Qed.

Lemma payments_start_requests_body d :
  PaymentsSpider.start_requests_body d =
  day_round PaymentsSpider.url PaymentsSpider.data d.
Proof. reflexivity. Qed.

(** ** The links of the bids *)

Section Links.
Context `{PyStr} `{Utils}.
Variable start_date : date.
Variable response : BidsSpider.index_response.

Lemma parse_link_read url n :
  date_read start_date response url ->
  BidsSpider.parse_link start_date response url n =
  mkoutcome (if followed start_date response url
             then [Yield (link_request response url)] else []) n (Ok tt).
Proof.
  intros [b Hb]. unfold BidsSpider.parse_link, followed.
  rewrite Hb, gbind_lift_Ok. by destruct b.
Qed.

Lemma parse_link_raise url n e :
  BidsSpider.follow_this_date start_date (BidsSpider.absolute_link response url) = Raise e ->
  BidsSpider.parse_link start_date response url n = mkoutcome [] n (Raise e).
Proof.
  intros He. unfold BidsSpider.parse_link. by rewrite He, gbind_lift_Raise.
Qed.


Lemma for_each_links_raise before url after n e :
  Forall (date_read start_date response) before ->
  BidsSpider.follow_this_date start_date (BidsSpider.absolute_link response url) = Raise e ->
  for_each (before ++ url :: after) (BidsSpider.parse_link start_date response) n =
  mkoutcome (List.map (fun url => Yield (link_request response url))
                      (List.filter (followed start_date response) before)) n (Raise e).
Proof.
  intros Hbefore He. induction Hbefore as [|u urls Hu _ IH].
  - simpl app. rewrite for_each_cons, (parse_link_raise url n e He). done.
  - simpl app. rewrite for_each_cons, (parse_link_read u n Hu). cbn [value reads trace].
    rewrite IH. cbn [value reads trace List.filter].
    by destruct (followed start_date response u).
Qed.

End Links.


(** X2: at the first link whose date is not read, [parse] ends with the
    exception of [follow_this_date]: the links accepted before it have their
    requests, the links after it are not looked at. *)
Theorem bids_parse_stops (S : PyStr) (U : Utils) (start_date : date)
    (response : BidsSpider.index_response) (n : nat)
    (before : list string) (url : string) (after : list string) (e : exn) :
  BidsSpider.index_hrefs response = before ++ url :: after ->
  Forall (date_read start_date response) before ->
  BidsSpider.follow_this_date start_date (BidsSpider.absolute_link response url) = Raise e ->
  BidsSpider.parse start_date response n =
  mkoutcome
    (Log INFO (InitialDate start_date) ::
     List.map (fun url => Yield (link_request response url))
              (List.filter (followed start_date response) before))
    n (Raise e).
Proof.
  intros Hurls Hbefore He. unfold BidsSpider.parse. rewrite gbind_log, Hurls.
  by rewrite (for_each_links_raise start_date response before url after n e).
Qed.

(** ** The descriptions of the bids *)

Section Descriptions.
Context `{PyStr} `{Utils}.

Lemma _parse_descriptions_step_outcome raw n :
  BidsSpider._parse_descriptions_step raw n =
  mkoutcome (List.map (Log WARNING) (description_warnings raw)) n (Ok (described raw)).
Proof.
  unfold BidsSpider._parse_descriptions_step, description_warnings, described, kept_url.
  destruct (head (BidsSpider.description_hrefs raw)) as [u|];
    [destruct (truthy (Some u) && negb (is_url u))%bool|];
    destruct (Nat.ltb 1 (List.length (BidsSpider.description_hrefs raw))); reflexivity.
Qed.

Lemma _parse_descriptions_outcome raw_descriptions n :
  BidsSpider._parse_descriptions raw_descriptions n =
  mkoutcome (List.map (Log WARNING) (raw_descriptions ≫= description_warnings))
            n (Ok (raw_descriptions ≫= described)).
Proof.
  revert n. induction raw_descriptions as [|raw rest IH]; intros n; [done|].
  cbn [BidsSpider._parse_descriptions].
  rewrite (gbind_value_Ok _ _ _ (described raw))
    by by rewrite _parse_descriptions_step_outcome.
  rewrite _parse_descriptions_step_outcome. cbn [trace reads value].
  rewrite (gbind_value_Ok _ _ _ (rest ≫= described)) by by rewrite IH.
  rewrite IH. cbn [trace reads value gret]. rewrite app_nil_r.
  by rewrite <- map_app.
Qed.

End Descriptions.

Lemma described_kept `{PyStr} `{Utils} (raw_descriptions : list BidsSpider.description_node) :
  Forall (fun d => fst d <> "Objeto" /\
                   forall u, snd d = Some u -> u = "" \/ is_url u = true)
         (raw_descriptions ≫= described).
Proof.
  apply Forall_forall. intros [description document_url].
  rewrite list_elem_of_bind. intros (raw & Hd & _). revert Hd.
  unfold described.
  destruct (String.eqb_spec
              (BidsSpider._parse_description (BidsSpider.description_texts raw))
              "Objeto") as [|Hne]; [by intros ?%elem_of_nil|].
  intros [= -> ->]%list_elem_of_singleton. split; [done|].
  unfold kept_url. simpl. intros u.
  destruct (head (BidsSpider.description_hrefs raw)) as [v|]; [|done].
  destruct (String.eqb_spec v "") as [->|Hv]; simpl.
  - intros [= <-]. by left.
  - destruct (is_url v) eqn:Hurl; simpl; [|done]. intros [= <-]. by right.
Qed.

Lemma described_length `{PyStr} `{Utils} (raw_descriptions : list BidsSpider.description_node) :
  (List.length (raw_descriptions ≫= described) <= List.length raw_descriptions)%nat.
Proof.
  induction raw_descriptions as [|raw rest IH]; [done|].
  rewrite bind_cons, length_app. unfold described at 1.
  destruct (String.eqb _ "Objeto"); simpl; lia.
Qed.

(** X3: [_parse_descriptions] never raises and does not read the clock; it
    returns one description for each node whose text is not "Objeto", with
    the first link of the node, or no link when that link is not empty and
    is no URL; it logs a warning for each such link and a warning for each
    node with more than one link, and nothing else. *)
Theorem _parse_descriptions_total (S : PyStr) (U : Utils)
    (raw_descriptions : list BidsSpider.description_node) (n : nat) :
  BidsSpider._parse_descriptions raw_descriptions n =
    mkoutcome (List.map (Log WARNING) (raw_descriptions ≫= description_warnings))
              n (Ok (raw_descriptions ≫= described)) /\
  Forall (fun d => fst d <> "Objeto" /\
                   forall u, snd d = Some u -> u = "" \/ is_url u = true)
         (raw_descriptions ≫= described) /\
  (List.length (raw_descriptions ≫= described) <= List.length raw_descriptions)%nat.
Proof.
  split; [apply _parse_descriptions_outcome|].
  split; [apply described_kept|apply described_length].
Qed.

(** ** The records of a page of bids *)

(** A round that yields at most one value, which [Q] holds of. *)
Lemma for_each_lookup {Y A} (Q : A -> Y -> Prop) (body : A -> gen Y unit) :
  (forall x, one_item (fun _ => Q x) (body x)) ->
  forall l n i y,
    yields (trace (for_each l body n)) !! i = Some y ->
    exists x, l !! i = Some x /\ Q x y.
Proof.
  intros Hbody l. induction l as [|x l IH]; intros n i y; [done|].
  rewrite for_each_cons.
  destruct (Hbody x n) as [[Hy [e He]]|(y0 & Hy & Hr & Hv & HQ)].
  - rewrite He. simpl. by rewrite Hy.
  - rewrite Hv. simpl. rewrite Hy. simpl.
    destruct i as [|i]; simpl.
    + intros [= <-]. by exists x.
    + apply IH.
Qed.

Lemma zip_lookup {A B} (l : list A) (k : list B) i a b :
  Py.zip l k !! i = Some (a, b) <-> l !! i = Some a /\ k !! i = Some b.
Proof.
  revert k i. induction l as [|a' l IH]; intros [|b' k] i; simpl.
  - split; [done|]. by intros [? _].
  - split; [done|]. by intros [? _].
  - split; [done|]. by intros [_ ?].
  - destruct i as [|i]; simpl.
    + split; [by intros [= -> ->]|]. by intros [[= ->] [= ->]].
    + apply IH.
Qed.

Lemma zip_length_le {A B} (l : list A) (k : list B) :
  (List.length (Py.zip l k) <= List.length l)%nat /\
  (List.length (Py.zip l k) <= List.length k)%nat.
Proof.
  revert k. induction l as [|a l IH]; intros [|b k]; simpl; try lia.
  destruct (IH k). lia.
Qed.

Section BidRecords.
Context `{PyStr} `{Utils}.
Variable clock : nat -> datetime.

Lemma bids_parse_page_item_record response row :
  one_item (fun _ => bid_record response row)
           (BidsSpider.parse_page_item clock response row).
Proof.
  intros n. destruct row as [[[modality_and_code [description document_url]] history] date].
  unfold BidsSpider.parse_page_item.
  destruct (url_pattern_search (BidsSpider.url response)) as [[agency month_year]|] eqn:Hs;
    cbn [of_option]; [rewrite gbind_lift_Ok|rewrite gbind_lift_Raise; stopped].
  cbn [fst snd].
  destruct (Py.split month_year "-") as [|month_text [|year_text [|? ?]]] eqn:Hsplit;
    [rewrite gbind_lift_Raise; stopped|rewrite gbind_lift_Raise; stopped|
     rewrite gbind_lift_Ok|rewrite gbind_lift_Raise; stopped].
  gen_step. cbn [fst snd]. repeat (gen_step; [|stopped]).
  right. eexists. split; [reflexivity|]. split; [reflexivity|]. split; [reflexivity|].
  unfold bid_record.
  assert (Hfields : forall it : Item,
    it = (<["crawled_at" := VDatetime (clock n)]>
         (<["crawled_from" := VStr (BidsSpider.url response)]>
         (<["public_agency" := VStr (str_upper agency)]>
         (<["month" := VInt a]>
         (<["year" := VInt a0]>
         (<["description" := VStr description]>
         (<["history" := VHistory history]>
         (<["codes" := VStr (BidsSpider.codes modality_and_code)]>
         (<["modality" := of_opt_str (BidsSpider.modality modality_and_code)]>
         (<["session_at" := of_opt_datetime a1]> ∅)))))))))) ->
    it !! "crawled_from" = Some (VStr (BidsSpider.url response)) /\
    it !! "description" = Some (VStr description) /\
    it !! "history" = Some (VHistory history) /\
    it !! "codes" = Some (VStr (BidsSpider.codes modality_and_code)) /\
    it !! "modality" = Some (of_opt_str (BidsSpider.modality modality_and_code)) /\
    it !! "files" = None /\
    it !! "public_agency" = Some (VStr (str_upper agency)) /\
    it !! "month" = Some (VInt a) /\ it !! "year" = Some (VInt a0) /\
    it !! "session_at" = Some (of_opt_datetime a1)).
  { intros it ->. repeat split; by simplify_map_eq. }
  destruct (Hfields _ eq_refl) as (H1 & H2 & H3 & H4 & H5 & H6 & H7 & H8 & H9 & H10).
  destruct document_url as [u|]; [destruct (truthy (Some u)) eqn:Hu|]; cbn [default].
  - rewrite !(lookup_insert_ne _ "files") by done. rewrite lookup_insert_eq.
    repeat (split; [done|]).
    exists agency, month_year, month_text, year_text, a, a0.
    rewrite !(lookup_insert_ne _ "files") by done. repeat (split; [done|]). by exists a1.
  - repeat (split; [done|]).
    exists agency, month_year, month_text, year_text, a, a0.
    repeat (split; [done|]). by exists a1.
  - repeat (split; [done|]).
    exists agency, month_year, month_text, year_text, a, a0.
    repeat (split; [done|]). by exists a1.
Qed.

(** [parse_page], by the histories of the page. *)
Lemma bids_parse_page_outcome response n :
  BidsSpider.parse_page clock response n =
  let warnings :=
    List.map (Log WARNING) (BidsSpider.raw_descriptions response ≫= description_warnings) in
  match BidsSpider._parse_bids_history (BidsSpider.raw_bids_history response) with
  | Ok bids_history =>
      let o := for_each (bid_rows response bids_history)
                        (BidsSpider.parse_page_item clock response) n in
      mkoutcome (warnings ++ trace o) (reads o) (value o)
  | Raise e => mkoutcome warnings n (Raise e)
  end.
Proof.
  unfold BidsSpider.parse_page.
  rewrite (gbind_value_Ok _ _ _ (BidsSpider.raw_descriptions response ≫= described))
    by by rewrite _parse_descriptions_outcome.
  rewrite _parse_descriptions_outcome. cbn [trace reads value].
  destruct (BidsSpider._parse_bids_history (BidsSpider.raw_bids_history response))
    as [bids_history|e].
  - by rewrite gbind_lift_Ok.
  - rewrite gbind_lift_Raise. cbn [trace reads value]. by rewrite app_nil_r.
Qed.

End BidRecords.

Lemma yields_warnings {Y} (ws : list log_record) (t : list (event Y)) :
  yields (List.map (Log WARNING) ws ++ t) = yields t.
Proof. induction ws as [|w ws IH]; simpl; done. Qed.

Lemma logged_warnings {Y} (ws : list log_record) (t : list (event Y)) :
  logged (List.map (Log WARNING) ws ++ t) = List.map (pair WARNING) ws ++ logged t.
Proof. induction ws as [|w ws IH]; simpl; [done|]. by rewrite IH. Qed.

Lemma yields_only_warnings {Y} (ws : list log_record) :
  yields (List.map (@Log Y WARNING) ws) = [].
Proof. induction ws as [|w ws IH]; simpl; done. Qed.

Lemma logged_only_warnings {Y} (ws : list log_record) :
  logged (List.map (@Log Y WARNING) ws) = List.map (pair WARNING) ws.
Proof. induction ws as [|w ws IH]; simpl; [done|]. by rewrite IH. Qed.

Section BidPages.
Context `{PyStr} `{Utils}.
Variable clock : nat -> datetime.

Lemma _parse_bid_history_length rows events :
  BidsSpider._parse_bid_history rows = Ok events ->
  (List.length events <= List.length rows)%nat /\
  Forall (fun row => is_Some (BidsSpider.row_td2_text row)) rows.
Proof.
  revert events. induction rows as [|row rows IH]; intros events; simpl.
  - intros [= <-]. by split.
  - destruct (BidsSpider._parse_bid_history_row row) as [found|e] eqn:Hrow; simpl; [|done].
    destruct (BidsSpider._parse_bid_history rows) as [rest|e]; simpl; [|done].
    intros [= <-]. destruct (IH rest eq_refl) as [Hlen Hall].
    unfold BidsSpider._parse_bid_history_row in Hrow.
    destruct (BidsSpider.row_td2_text row) as [date|] eqn:Hdate; simpl in Hrow; [|done].
    split; [|by constructor].
    destruct (from_str_to_datetime (str_strip date)) as [d|e]; simpl in Hrow; [|done].
    rewrite length_app.
    assert (List.length found <= 1)%nat; [|simpl; lia].
    destruct (BidsSpider.row_td3_div_text row) as [ev|], d as [t|];
      try (injection Hrow as <-; simpl; lia).
    destruct (truthy (Some ev)); injection Hrow as <-; simpl; lia.
Qed.

Lemma _parse_bids_history_tables raw_bids_history all_bids_history :
  BidsSpider._parse_bids_history raw_bids_history = Ok all_bids_history ->
  Forall2 (fun rows events =>
             (List.length events <= List.length rows)%nat /\
             Forall (fun row => is_Some (BidsSpider.row_td2_text row)) rows)
          raw_bids_history all_bids_history.
Proof.
  revert all_bids_history.
  induction raw_bids_history as [|rows rest IH]; intros all_bids_history; simpl.
  - intros [= <-]. constructor.
  - destruct (BidsSpider._parse_bid_history rows) as [events|e] eqn:Hrows; simpl; [|done].
    destruct (BidsSpider._parse_bids_history rest) as [others|e]; simpl; [|done].
    intros [= <-]. constructor; [by apply _parse_bid_history_length|by apply IH].
Qed.

Lemma _parse_modalities_length raw_modalities :
  (List.length (BidsSpider._parse_modalities raw_modalities) <= List.length raw_modalities)%nat.
Proof.
  induction raw_modalities as [|raw rest IH]; simpl; [done|].
  destruct (String.eqb (str_strip raw) ""); simpl; lia.
Qed.

Lemma bids_yields response n :
  yields (trace (BidsSpider.parse_page clock response n)) =
  match BidsSpider._parse_bids_history (BidsSpider.raw_bids_history response) with
  | Ok bids_history =>
      yields (trace (for_each (bid_rows response bids_history)
                              (BidsSpider.parse_page_item clock response) n))
  | Raise _ => []
  end.
Proof.
  rewrite bids_parse_page_outcome. cbv zeta.
  destruct (BidsSpider._parse_bids_history (BidsSpider.raw_bids_history response));
    cbn [trace]; [apply yields_warnings|apply yields_only_warnings].
Qed.

End BidPages.

Lemma bids_record_at (S : PyStr) (U : Utils) (clock : nat -> datetime)
    (response : BidsSpider.response) (n i : nat) (it : Item) :
  yields (trace (BidsSpider.parse_page clock response n)) !! i = Some it ->
  exists modality_and_code description document_url history date bids_history,
    BidsSpider._parse_bids_history (BidsSpider.raw_bids_history response) = Ok bids_history /\
    BidsSpider._parse_modalities (BidsSpider.raw_modalities response) !! i =
      Some modality_and_code /\
    (BidsSpider.raw_descriptions response ≫= described) !! i =
      Some (description, document_url) /\
    bids_history !! i = Some history /\
    BidsSpider._parse_date (BidsSpider.raw_date response) !! i = Some date /\
    bid_record response (modality_and_code, (description, document_url), history, date) it.
Proof.
  rewrite bids_yields.
  destruct (BidsSpider._parse_bids_history (BidsSpider.raw_bids_history response))
    as [bids_history|e]; [|done].
  intros Hi.
  destruct (for_each_lookup (bid_record response) _
              (bids_parse_page_item_record clock response) _ _ _ _ Hi)
    as ([[[modality_and_code [description document_url]] history] date] & Hrow & Hrec).
  unfold bid_rows in Hrow.
  apply zip_lookup in Hrow as [Hrow Hdate].
  apply zip_lookup in Hrow as [Hrow Hhist].
  apply zip_lookup in Hrow as [Hmod Hdesc].
  by exists modality_and_code, description, document_url, history, date, bids_history.
Qed.

(** X4: the i-th record of a page of bids is made of the i-th modality
    cell that is not blank, the i-th description that is not "Objeto", the
    i-th table of history and the i-th date; the agency, the month and the
    year of all the records are those of the address of the page. *)
Theorem bids_records_by_position (S : PyStr) (U : Utils) (clock : nat -> datetime)
    (response : BidsSpider.response) (n i : nat) (it : Item) :
  yields (trace (BidsSpider.parse_page clock response n)) !! i = Some it ->
  exists modality_and_code description document_url history date bids_history,
    BidsSpider._parse_bids_history (BidsSpider.raw_bids_history response) = Ok bids_history /\
    BidsSpider._parse_modalities (BidsSpider.raw_modalities response) !! i =
      Some modality_and_code /\
    (BidsSpider.raw_descriptions response ≫= described) !! i =
      Some (description, document_url) /\
    bids_history !! i = Some history /\
    BidsSpider._parse_date (BidsSpider.raw_date response) !! i = Some date /\
    bid_record response (modality_and_code, (description, document_url), history, date) it.
Proof. apply bids_record_at. Qed.

(** X5: a page of bids yields no more records than it has modality cells,
    description nodes, tables of history or dates, and all it logs are the
    warnings of [_parse_descriptions]. *)
Theorem bids_records_bound (S : PyStr) (U : Utils) (clock : nat -> datetime)
    (response : BidsSpider.response) (n : nat) :
  let records := yields (trace (BidsSpider.parse_page clock response n)) in
  (List.length records <= List.length (BidsSpider.raw_modalities response))%nat /\
  (List.length records <= List.length (BidsSpider.raw_descriptions response))%nat /\
  (List.length records <= List.length (BidsSpider.raw_bids_history response))%nat /\
  (List.length records <= List.length (BidsSpider.raw_date response))%nat /\
  logged (trace (BidsSpider.parse_page clock response n)) =
    List.map (pair WARNING) (BidsSpider.raw_descriptions response ≫= description_warnings).
Proof.
  intros records. subst records. rewrite bids_yields, bids_parse_page_outcome. cbv zeta.
  destruct (BidsSpider._parse_bids_history (BidsSpider.raw_bids_history response))
    as [bids_history|e] eqn:Hh; cbn [trace].
  - destruct (for_each_one_item_bound _ _ (bids_parse_page_item clock response)
                (bid_rows response bids_history) n) as [Hlen Hlog].
    rewrite logged_warnings, Hlog, app_nil_r.
    pose proof (_parse_modalities_length (BidsSpider.raw_modalities response)).
    pose proof (described_length (BidsSpider.raw_descriptions response)).
    pose proof (Forall2_length _ _ _ (_parse_bids_history_tables _ _ Hh)) as Htables.
    unfold bid_rows in *.
    destruct (zip_length_le
      (Py.zip (Py.zip (BidsSpider._parse_modalities (BidsSpider.raw_modalities response))
                      (BidsSpider.raw_descriptions response ≫= described)) bids_history)
      (BidsSpider._parse_date (BidsSpider.raw_date response))) as [Hz1 Hz2].
    destruct (zip_length_le
      (Py.zip (BidsSpider._parse_modalities (BidsSpider.raw_modalities response))
              (BidsSpider.raw_descriptions response ≫= described)) bids_history) as [Hz3 Hz4].
    destruct (zip_length_le
      (BidsSpider._parse_modalities (BidsSpider.raw_modalities response))
      (BidsSpider.raw_descriptions response ≫= described)) as [Hz5 Hz6].
    unfold BidsSpider._parse_date in Hz2. rewrite length_map in Hz2.
    repeat split.
    + eapply Nat.le_trans; [exact Hlen|]. eapply Nat.le_trans; [exact Hz1|].
      eapply Nat.le_trans; [exact Hz3|]. eapply Nat.le_trans; [exact Hz5|]. done.
    + eapply Nat.le_trans; [exact Hlen|]. eapply Nat.le_trans; [exact Hz1|].
      eapply Nat.le_trans; [exact Hz3|]. eapply Nat.le_trans; [exact Hz6|]. done.
    + eapply Nat.le_trans; [exact Hlen|]. eapply Nat.le_trans; [exact Hz1|].
      eapply Nat.le_trans; [exact Hz4|]. by rewrite Htables.
    + eapply Nat.le_trans; [exact Hlen|]. exact Hz2.
  - rewrite logged_only_warnings. simpl. repeat split; lia.
Qed.


(** X7: a page whose address does not match the pattern of the pages of
    bids yields no record. *)
Theorem bids_page_without_pattern (S : PyStr) (U : Utils) (clock : nat -> datetime)
    (response : BidsSpider.response) (n : nat) :
  url_pattern_search (BidsSpider.url response) = None ->
  yields (trace (BidsSpider.parse_page clock response n)) = [].
Proof.
  intros Hnone.
  destruct (yields (trace (BidsSpider.parse_page clock response n))) as [|it its] eqn:Hy;
    [done|].
  destruct (bids_record_at S U clock response n 0%nat it) as
    (mc & d & doc & h & date & hs & _ & _ & _ & _ & _ & Hrec).
  { by rewrite Hy. }
  destruct Hrec as (_ & _ & _ & _ & _ & _ & agency & my & _ & _ & _ & _ & Hs & _).
  congruence.
Qed.

(** X8: when [_parse_bids_history] returns, it returns one history for
    each table, in the order of the tables and with no more events than the
    table has rows, and every row of every table has a date cell; a row
    without a date cell makes it raise. *)
Theorem _parse_bids_history_by_table (S : PyStr) (U : Utils)
    (raw_bids_history : list (list BidsSpider.history_row)) :
  (forall all_bids_history,
      BidsSpider._parse_bids_history raw_bids_history = Ok all_bids_history ->
      Forall2 (fun rows events =>
                 (List.length events <= List.length rows)%nat /\
                 Forall (fun row => is_Some (BidsSpider.row_td2_text row)) rows)
              raw_bids_history all_bids_history) /\
  (forall rows row,
      rows ∈ raw_bids_history -> row ∈ rows -> BidsSpider.row_td2_text row = None ->
      raises (BidsSpider._parse_bids_history raw_bids_history)).
Proof.
  split; [apply _parse_bids_history_tables|].
  intros rows row Hrows Hrow Hnone.
  destruct (BidsSpider._parse_bids_history raw_bids_history) as [hs|e] eqn:Hh;
    [|apply raises_Raise].
  apply _parse_bids_history_tables in Hh.
  apply list_elem_of_lookup_1 in Hrows as [i Hi].
  destruct (Forall2_lookup_l _ _ _ _ _ Hh Hi) as (events & _ & _ & Hall).
  rewrite Forall_forall in Hall. destruct (Hall row Hrow) as [d Hd]. congruence.
Qed.

Lemma _parse_bids_history_by_table_witness :
  raises (BidsSpider._parse_bids_history
            [[BidsSpider.mkrow (Some "20/08/2020") (Some "Edital") None];
             [BidsSpider.mkrow None (Some "Ata") None]]).
Proof.
  apply (proj2 (_parse_bids_history_by_table latin1_pystr helpers_utils
                  [[BidsSpider.mkrow (Some "20/08/2020") (Some "Edital") None];
                   [BidsSpider.mkrow None (Some "Ata") None]])
           [BidsSpider.mkrow None (Some "Ata") None]
           (BidsSpider.mkrow None (Some "Ata") None)).
  - right. left.
  - left.
  - reflexivity.
Defined.

(** ** The records of a page of contracts *)

(** A text without the separator is one segment. *)
Lemma split_go_without sep s cur :
  Py.contains sep s = false -> Py.split_go sep s O cur = [cur +:+ s].
Proof.
  revert cur. induction s as [|c s IH]; intros cur.
  - intros _. cbn [Py.split_go]. by rewrite string_app_empty.
  - cbn [Py.split_go Py.contains]. intros [Hp Hc]%orb_false_iff.
    by rewrite Hp, (IH _ Hc), string_app_char.
Qed.

Lemma split_without s sep : Py.contains sep s = false -> Py.split s sep = [s].
Proof. intros Hc. unfold Py.split. by rewrite split_go_without. Qed.

Lemma index_length {A} (l : list A) i a :
  Py.index l i = Ok a -> (i < List.length l)%nat.
Proof.
  unfold Py.index. destruct (l !! i) eqn:Hi; [|done]. intros _. by eapply lookup_lt_Some.
Qed.

Section ContractRecords.
Context `{PyStr} `{Utils}.
Variable clock : nat -> datetime.

Lemma contracts_parse_page_item_record response row :
  one_item (fun n => contract_record (clock n) response row)
           (ContractsSpider.parse_page_item clock response row).
Proof.
  intros n. destruct row as [headline raw_details].
  unfold ContractsSpider.parse_page_item.
  do 4 (gen_step; [|stopped]).
  destruct (Py.split a2 " - ") as [|contractor_document [|contractor_name rest]] eqn:Hsplit;
    cbn [Py.index lookup list_lookup of_option];
    [rewrite gbind_lift_Raise; stopped|
     rewrite gbind_lift_Ok, gbind_lift_Raise; stopped|].
  rewrite !gbind_lift_Ok.
  repeat (gen_step; [|stopped]). gen_step.
  right. eexists. split; [reflexivity|]. split; [reflexivity|]. split; [reflexivity|].
  exists a, a1, a3, a2, a4, a5, a0, contractor_document, contractor_name, rest.
  repeat (split; [done|]). unfold contract_item. cbn [snd].
  by destruct (ContractsSpider.details_btn_href raw_details) as [u|];
    [destruct (truthy (Some u))|].
Qed.

Lemma _clean_details_texts texts :
  Forall (fun d => d <> "" /\ d ∉ ContractsSpider.labels)
         (ContractsSpider.clean_details_texts texts) /\
  sublist (ContractsSpider.clean_details_texts texts) (List.map str_strip texts).
Proof.
  induction texts as [|t texts [IH1 IH2]];
    cbn [ContractsSpider.clean_details_texts List.map]; [split; [done|constructor]|].
  destruct (String.eqb_spec (str_strip t) "") as [|Hne]; cbn [negb andb].
  { split; [done|by constructor]. }
  destruct (existsb (String.eqb (str_strip t)) ContractsSpider.labels) eqn:Hl; cbn [negb].
  { split; [done|by constructor]. }
  split; [|by constructor].
  constructor; [|done]. split; [done|].
  intros Hin. apply list_elem_of_In in Hin.
  assert (existsb (String.eqb (str_strip t)) ContractsSpider.labels = true); [|congruence].
  apply existsb_exists. exists (str_strip t). split; [done|]. apply String.eqb_refl.
Qed.

End ContractRecords.

(** X9: [clean_details] returns texts of the block, stripped and in their
    order, none of them empty and none of them a label. *)
Theorem clean_details_no_label (S : PyStr) (raw_details : ContractsSpider.details_node) :
  Forall (fun d => d <> "" /\ d ∉ ContractsSpider.labels)
         (ContractsSpider.clean_details raw_details) /\
  sublist (ContractsSpider.clean_details raw_details)
          (List.map str_strip (ContractsSpider.details_p_texts raw_details)).
Proof. apply _clean_details_texts. Qed.

(** X10: the i-th record of a page of contracts comes from the i-th
    headline and the i-th block of details; it has the nine fields of a
    contract, and files when the block has a link that is not empty. *)
Theorem contracts_records_by_position (S : PyStr) (U : Utils) (clock : nat -> datetime)
    (response : ContractsSpider.response) (n i : nat) (it : Item) :
  yields (trace (ContractsSpider.parse_page clock response n)) !! i = Some it ->
  exists headline raw_details,
    ContractsSpider.headlines response !! i = Some headline /\
    ContractsSpider.contract_details response !! i = Some raw_details /\
    contract_record (clock (n + i)%nat) response (headline, raw_details) it /\
    dom it =
      ({["contract_id"; "starts_at"; "summary"; "contractor_document";
         "contractor_name"; "value"; "ends_at"; "crawled_at"; "crawled_from"]}
       ∪ (if truthy (ContractsSpider.details_btn_href raw_details)
          then {["files"]} else ∅) : gset string).
Proof.
  intros Hi. unfold ContractsSpider.parse_page in Hi.
  assert (Hrow : exists row,
    Py.zip (ContractsSpider.headlines response) (ContractsSpider.contract_details response)
      !! i = Some row /\ contract_record (clock (n + i)%nat) response row it).
  { revert n i Hi.
    generalize (Py.zip (ContractsSpider.headlines response)
                       (ContractsSpider.contract_details response)).
    intros l. induction l as [|x l IH]; intros n i; [done|].
    rewrite for_each_cons.
    destruct (contracts_parse_page_item_record clock response x n)
      as [[Hy [e He]]|(y0 & Hy & Hr & Hv & HQ)].
    - rewrite He. simpl. by rewrite Hy.
    - rewrite Hv. simpl. rewrite Hy, Hr. simpl. destruct i as [|i]; simpl.
      + intros [= <-]. exists x. by rewrite Nat.add_0_r.
      + intros Hi. apply IH in Hi as (row & Hrow & Hrec). exists row. split; [done|].
        by replace (n + Datatypes.S i)%nat with (Datatypes.S n + i)%nat by lia. }
  destruct Hrow as ([headline raw_details] & Hrow & Hrec).
  apply zip_lookup in Hrow as [Hh Hd].
  exists headline, raw_details. repeat (split; [done|]).
  destruct Hrec as (? & ? & ? & ? & ? & ? & ? & ? & ? & ? & _ & _ & _ & _ & _ & _ & _ & _ & ->).
  unfold contract_item. cbn [snd].
  destruct (truthy (ContractsSpider.details_btn_href raw_details));
    rewrite !dom_insert_L, dom_empty_L; set_solver.
Qed.

(** X11: a block with fewer than four texts after [clean_details], a
    contractor text without " - " or a headline with fewer than two texts
    gives no record: the generator ends there with an exception, having
    yielded and logged nothing for the block and without reading the
    clock. *)
Theorem contracts_block_without_record (S : PyStr) (U : Utils) (clock : nat -> datetime)
    (response : ContractsSpider.response)
    (headline : ContractsSpider.headline_node)
    (raw_details : ContractsSpider.details_node) (n : nat) :
  (List.length (ContractsSpider.clean_details raw_details) < 4)%nat \/
  (List.length (ContractsSpider.headline_th_texts headline) < 2)%nat \/
  (exists contractor_text,
      ContractsSpider.clean_details raw_details !! 1%nat = Some contractor_text /\
      Py.contains " - " contractor_text = false) ->
  trace (ContractsSpider.parse_page_item clock response (headline, raw_details) n) = [] /\
  raises (value (ContractsSpider.parse_page_item clock response (headline, raw_details) n)).
Proof.
  intros Hbad.
  destruct (contracts_parse_page_item_record clock response (headline, raw_details) n)
    as [Hstop|(it & _ & _ & _ & Hrec)]; [done|].
  exfalso.
  destruct Hrec as (ht & sa & su & ct & va & ea & ci & cd & cn & rest &
                    H0 & H1 & _ & _ & Hc & _ & H3 & Hs & _).
  cbn [fst snd] in *.
  destruct Hbad as [Hlen|[Hlen|(ct' & Hct & Hno)]].
  - apply index_length in H3. lia.
  - apply index_length in H1. lia.
  - unfold Py.index in Hc. rewrite Hct in Hc. injection Hc as ->.
    by rewrite (split_without ct " - " Hno) in Hs.
Qed.

(** ** The pages of a query, one by one *)

Lemma range_lookup a b i p :
  Py.range a b !! i = Some p -> p = a + Z.of_nat i /\ a + Z.of_nat i < b.
Proof.
  unfold Py.range. intros (j & -> & Hj)%list_lookup_fmap_Some.
  apply lookup_seq in Hj as [-> Hlt]. simpl in *. lia.
Qed.

Lemma range_length a b : List.length (Py.range a b) = Z.to_nat (b - a).
Proof. unfold Py.range. by rewrite length_map, length_seq. Qed.

Lemma range_last a b : a < b -> last (Py.range a b) = Some (b - 1).
Proof.
  intros Hab. rewrite last_lookup, range_length. unfold Py.range.
  rewrite list_lookup_fmap, lookup_seq_lt by lia. simpl. f_equal. lia.
Qed.

Lemma range_empty a b : b <= a -> Py.range a b = [].
Proof. intros Hab. unfold Py.range. by replace (Z.to_nat (b - a)) with O by lia. Qed.

Lemma logged_map_Yield {Y A} (f : A -> Y) (l : list A) :
  logged (List.map (fun a => Yield (f a)) l) = [].
Proof. by induction l. Qed.

(** The loop over the pages, with the content the dictionary has at the
    end. *)
Lemma page_requests_outcome url pages last_page data n :
  page_requests url pages last_page data n =
  mkoutcome (List.map (fun p => Yield (page_request url data last_page p)) pages) n
            (Ok (match last pages with
                 | Some p => <["POST_PAGINAS" := Py.str last_page]>
                               (<["POST_PAGINA" := Py.str p]> data)
                 | None => data
                 end)).
Proof.
  revert data n. induction pages as [|p pages IH]; intros data n; [done|].
  cbn [page_requests]. unfold gbind at 1, yield. cbn [value trace reads].
  rewrite IH. cbn [value trace reads List.map app]. f_equal.
  - f_equal. apply map_ext. intros q. by rewrite page_request_again.
  - f_equal. destruct pages as [|q pages]; [done|].
    change (last (p :: q :: pages)) with (last (q :: pages)).
    destruct (last (q :: pages)) as [p'|] eqn:Hlast.
    + by rewrite page_fields_again.
    + by apply last_None in Hlast.
Qed.

Lemma walk_pages url response last_text last_page n :
  Py.index_from_end (pagination_texts response) 2 = Ok last_text ->
  Py.int last_text = Ok last_page ->
  walk url response n =
  page_requests url (Py.range 1 (last_page + 1)) last_page (response_meta_data response) n.
Proof.
  intros Hi Hl. unfold walk.
  destruct (pagination_texts response) as [|t ts] eqn:Hp;
    [by rewrite index_from_end_nil in Hi|].
  by rewrite Hi, gbind_lift_Ok, Hl, gbind_lift_Ok.
Qed.

Lemma walk_numbered url response last_text last_page n :
  Py.index_from_end (pagination_texts response) 2 = Ok last_text ->
  Py.int last_text = Ok last_page ->
  numbered_pages url (response_meta_data response) last_page (walk url response n).
Proof.
  intros Hi Hl. rewrite (walk_pages url response last_text last_page n Hi Hl).
  rewrite page_requests_outcome. unfold numbered_pages. cbn [trace value].
  rewrite yields_map_Yield, logged_map_Yield, length_map, range_length.
  split; [done|]. split; [f_equal; lia|]. split.
  - intros i r (p & -> & Hp)%list_lookup_fmap_Some.
    apply range_lookup in Hp as [-> _]. unfold page_request. cbn.
    repeat (split; [done|]). split; [|split].
    + rewrite lookup_insert_ne by done. rewrite lookup_insert_eq. do 2 f_equal. lia.
    + by rewrite lookup_insert_eq.
    + intros k Hk1 Hk2. by rewrite !lookup_insert_ne by done.
  - f_equal.
    destruct (Z.leb_spec 1 last_page) as [Hle|Hlt].
    + rewrite range_last by lia. by replace (last_page + 1 - 1) with last_page by lia.
    + by rewrite range_empty by lia.
Qed.

(** X12: when the second entry from the end of the pagination control is
    the integer last_page, [parse] of the contracts and of the payments
    yields one request for each page from 1 to last_page, in this order
    (none when last_page is below 1), to the address of the spider and with
    parse_page as callback; the form data of the request of page i are the
    dictionary of the query (so the day of the query stays) with
    POST_PAGINA i and POST_PAGINAS last_page; the dictionary of the query,
    which the rounds write to, ends with the two fields of the last page. *)
Theorem parse_pages_numbered (response : query_response)
    (last_text : string) (last_page : Z) (n : nat) :
  Py.index_from_end (pagination_texts response) 2 = Ok last_text ->
  Py.int last_text = Ok last_page ->
  numbered_pages ContractsSpider.url (response_meta_data response) last_page
                 (ContractsSpider.parse response n) /\
  numbered_pages PaymentsSpider.url (response_meta_data response) last_page
                 (PaymentsSpider.parse response n).
Proof.
  intros Hi Hl. split.
  - rewrite contracts_parse_walk. by eapply walk_numbered.
  - rewrite payments_parse_walk. by eapply walk_numbered.
Qed.

Lemma parse_pages_numbered_witness :
  numbered_pages ContractsSpider.url
    (<["POST_DATA" := "12/08/2020 - 12/08/2020"]> ContractsSpider.data) 3
    (ContractsSpider.parse
       (mkquery ["«"; "1"; "2"; "3"; "»"]
                (<["POST_DATA" := "12/08/2020 - 12/08/2020"]> ContractsSpider.data)) 0%nat).
Proof.
  exact (proj1 (parse_pages_numbered
                  (mkquery ["«"; "1"; "2"; "3"; "»"]
                     (<["POST_DATA" := "12/08/2020 - 12/08/2020"]> ContractsSpider.data))
                  "3" 3 0%nat eq_refl eq_refl)).
Defined.

(** ** The pages of the covid expenses *)

Lemma covid_page_requests_outcome pages last n :
  COVID19ExpensesSpider.page_requests pages last n =
  mkoutcome (List.map (fun p => Yield (page_request COVID19ExpensesSpider.url
                                         COVID19ExpensesSpider.data last p)) pages)
            n (Ok tt).
Proof.
  revert n. induction pages as [|p pages IH]; intros n; [done|].
  cbn [COVID19ExpensesSpider.page_requests]. unfold gbind at 1, yield.
  cbn [value trace reads]. by rewrite IH.
Qed.

(** X13: [parse] of the covid expenses takes the last page from the
    second entry from the end of the pagination control and yields the
    requests of the pages 1 to last; each is built from a copy of the
    dictionary of the class, so it has the two page fields and the fields
    of the class, and no POST_FASE: the requests are the same whatever
    the response they come from. *)
Theorem covid_parse_pages (pagination_texts : list string)
    (last_text : string) (last_page : Z) (n : nat) :
  Py.index_from_end pagination_texts 2 = Ok last_text ->
  Py.int last_text = Ok last_page ->
  COVID19ExpensesSpider.parse pagination_texts n =
    mkoutcome
      (List.map (fun p => Yield (page_request COVID19ExpensesSpider.url
                                   COVID19ExpensesSpider.data last_page p))
                (Py.range 1 (last_page + 1)))
      n (Ok tt) /\
  Forall (fun r => request_formdata r !! "POST_FASE" = None /\
                   request_formdata r !! "POST_PARAMETRO" = Some "PesquisaDespesasCovid" /\
                   request_formdata r !! "POST_PAGINAS" = Some (Py.str last_page))
         (yields (trace (COVID19ExpensesSpider.parse pagination_texts n))).
Proof.
  intros Hi Hl.
  assert (Hparse : COVID19ExpensesSpider.parse pagination_texts n =
    mkoutcome
      (List.map (fun p => Yield (page_request COVID19ExpensesSpider.url
                                   COVID19ExpensesSpider.data last_page p))
                (Py.range 1 (last_page + 1)))
      n (Ok tt)).
  { unfold COVID19ExpensesSpider.parse.
    destruct pagination_texts as [|t ts] eqn:Hp; [by rewrite index_from_end_nil in Hi|].
    rewrite Hi, gbind_lift_Ok, Hl, gbind_lift_Ok. apply covid_page_requests_outcome. }
  split; [done|]. rewrite Hparse. cbn [trace]. rewrite yields_map_Yield.
  apply Forall_forall. intros r (p & -> & _)%list_elem_of_fmap.
  unfold page_request. cbn. by simplify_map_eq.
Qed.

Lemma covid_parse_pages_witness :
  COVID19ExpensesSpider.parse ["«"; "1"; "2"; "»"] 0%nat =
    mkoutcome
      (List.map (fun p => Yield (page_request COVID19ExpensesSpider.url
                                   COVID19ExpensesSpider.data 2 p))
                (Py.range 1 (2 + 1)))
      0%nat (Ok tt) /\
  Forall (fun r => request_formdata r !! "POST_FASE" = None /\
                   request_formdata r !! "POST_PARAMETRO" = Some "PesquisaDespesasCovid" /\
                   request_formdata r !! "POST_PAGINAS" = Some (Py.str 2))
         (yields (trace (COVID19ExpensesSpider.parse ["«"; "1"; "2"; "»"] 0%nat))).
Proof. apply (covid_parse_pages ["«"; "1"; "2"; "»"] "2" 2 0%nat); reflexivity. Defined.

(** ** The crawl of the days, event by event *)

Lemma loop_crawl_outcome url data clock start_date fuel n :
  valid_date start_date = true ->
  valid_date (datetime_date (clock n)) = true ->
  (days_between start_date (datetime_date (clock n)) <= fuel)%nat ->
  (log INFO (InitialDate start_date) ;;
   now <- datetime_utcnow_aware clock ;;
   while fuel (fun d => date_ltb d (datetime_date now))
         (day_round url data) start_date)%gen n =
  crawl_outcome url data start_date (datetime_date (clock n)) n.
Proof.
  intros Hs Ht Hfuel. rewrite gbind_log, gbind_utcnow.
  by rewrite (while_days _ Ht url data _ start_date fuel (S n) Hs eq_refl Hfuel).
Qed.

Lemma crawl_outcome_requests url data start_date today n i r :
  valid_date start_date = true -> valid_date today = true ->
  yields (trace (crawl_outcome url data start_date today n)) !! i = Some r ->
  request_of_day url data start_date i r.
Proof.
  intros Hs Ht. unfold crawl_outcome. cbn [trace yields].
  rewrite yields_map_Yield. intros (d & -> & Hd)%list_lookup_fmap_Some.
  destruct (days_from_lookup today Ht _ start_date i d Hs eq_refl Hd) as (Hv & Ho & _).
  exists d. split; [done|]. split; [done|].
  split; [done|]. split; [done|]. split; [done|].
  split; [unfold day_request; cbn; by rewrite lookup_insert_eq|].
  split; [by apply queried_window_day_request|].
  intros k Hk. unfold day_request. cbn. by rewrite lookup_insert_ne.
Qed.

(** X14: with rounds enough for the days between a valid start date and
    today, [start_requests] of the contracts and of the payments logs the
    start date, reads the clock once and yields one request for each day
    from the start date to the eve of today, then ends, at today; the i-th
    request asks for the i-th day after the start date alone (POST_DATA is
    that day twice, as [strftime] writes it, and read back as
    day/month/year it is the window of that day), keeps the other fields
    of the form of the class, and carries its form data under
    meta["data"]. *)
Theorem start_requests_outcome (clock : nat -> datetime) (start_date : date)
    (fuel n : nat) :
  valid_date start_date = true ->
  valid_date (datetime_date (clock n)) = true ->
  (days_between start_date (datetime_date (clock n)) <= fuel)%nat ->
  (ContractsSpider.start_requests clock start_date fuel n =
     crawl_outcome ContractsSpider.url ContractsSpider.data
                   start_date (datetime_date (clock n)) n /\
   forall i r,
     yields (trace (ContractsSpider.start_requests clock start_date fuel n)) !! i = Some r ->
     request_of_day ContractsSpider.url ContractsSpider.data start_date i r) /\
  (PaymentsSpider.start_requests clock start_date fuel n =
     crawl_outcome PaymentsSpider.url PaymentsSpider.data
                   start_date (datetime_date (clock n)) n /\
   forall i r,
     yields (trace (PaymentsSpider.start_requests clock start_date fuel n)) !! i = Some r ->
     request_of_day PaymentsSpider.url PaymentsSpider.data start_date i r).
Proof.
  intros Hs Ht Hfuel.
  pose proof (loop_crawl_outcome ContractsSpider.url ContractsSpider.data
                clock start_date fuel n Hs Ht Hfuel) as Hc.
  pose proof (loop_crawl_outcome PaymentsSpider.url PaymentsSpider.data
                clock start_date fuel n Hs Ht Hfuel) as Hp.
  split; (split; [done|]); intros i r.
  - unfold ContractsSpider.start_requests.
    replace (ContractsSpider.start_requests_body)
      with (day_round ContractsSpider.url ContractsSpider.data) by reflexivity.
    rewrite Hc. by apply crawl_outcome_requests.
  - unfold PaymentsSpider.start_requests.
    replace (PaymentsSpider.start_requests_body)
      with (day_round PaymentsSpider.url PaymentsSpider.data) by reflexivity.
    rewrite Hp. by apply crawl_outcome_requests.
Qed.

Lemma start_requests_outcome_witness :
  PaymentsSpider.start_requests example_clock (mkdate 2020 8 12) 5%nat 0%nat =
    crawl_outcome PaymentsSpider.url PaymentsSpider.data
                  (mkdate 2020 8 12) (datetime_date (example_clock 0)) 0%nat /\
  forall i r,
    yields (trace (PaymentsSpider.start_requests example_clock (mkdate 2020 8 12)
                     5%nat 0%nat)) !! i = Some r ->
    request_of_day PaymentsSpider.url PaymentsSpider.data (mkdate 2020 8 12) i r.
Proof.
  exact (proj2 (start_requests_outcome example_clock (mkdate 2020 8 12) 5%nat 0%nat
                  eq_refl eq_refl ltac:(vm_compute; lia))).
Defined.

(** ** The records of a page of payments *)

Lemma extract_details_cases details (it : Item) :
  details_outcome PaymentsSpider.extract_details details it.
Proof.
  revert it.
  induction details as [|key|key value details IH] using pairs_ind; intros it.
  - left. exists []. by repeat split.
  - right; right. exists [], key. by repeat split.
  - destruct (PaymentsSpider.mapping !! key) as [field|] eqn:Hkey.
    + unfold details_outcome.
      rewrite (extract_details_pair key value details it field Hkey).
      assert (Hassign : assign it (key, value) = <[field := VStr value]> it).
      { unfold assign. cbn [fst snd]. by rewrite Hkey. }
      assert (Hknown : known (key, value)) by (by exists field).
      destruct (IH (<[field := VStr value]> it))
        as [(pairs & -> & Hk & He)|[(pairs & l & v & rest & -> & Hk & Hl & He)|
                                     (pairs & l & -> & Hk & He)]].
      * left. exists ((key, value) :: pairs).
        split; [done|]. split; [by constructor|]. cbn [foldl]. by rewrite Hassign.
      * right; left. exists ((key, value) :: pairs), l, v, rest.
        split; [done|]. split; [by constructor|]. done.
      * right; right. exists ((key, value) :: pairs), l.
        split; [done|]. split; [by constructor|]. done.
    + right; left. exists [], key, value, details.
      split; [done|]. split; [done|]. split; [done|].
      cbn [PaymentsSpider.extract_details]. by rewrite Hkey.
Qed.

Lemma tokens_length pairs : List.length (tokens pairs) = (2 * List.length pairs)%nat.
Proof. induction pairs as [|[l v] pairs IH]; simpl; lia. Qed.

Lemma extract_details_Ok details (it it' : Item) :
  PaymentsSpider.extract_details details it = Ok it' <->
  exists pairs, details = tokens pairs /\ Forall known pairs /\ it' = foldl assign it pairs.
Proof.
  split.
  - intros Hd.
    destruct (extract_details_cases details it)
      as [(pairs & -> & Hk & He)|[(pairs & l & v & rest & -> & Hk & Hl & He)|
                                   (pairs & l & -> & Hk & He)]]; [|congruence|congruence].
    exists pairs. repeat split; [done|congruence].
  - intros (pairs & -> & Hk & ->). by apply extract_details_tokens.
Qed.

Lemma foldl_assign_last (it : Item) pairs label field :
  Forall known pairs ->
  PaymentsSpider.mapping !! label = Some field ->
  foldl assign it pairs !! field =
  match last_value label pairs with
  | Some v => Some v
  | None => it !! field
  end.
Proof.
  intros Hknown Hfield. unfold last_value.
  induction pairs as [|[l v] pairs IH] using rev_ind; [done|].
  apply Forall_app in Hknown as [Hknown Hlast].
  apply Forall_cons in Hlast as [[f Hf] _]. cbn [fst] in Hf.
  rewrite foldl_app. cbn [foldl]. unfold assign at 1. cbn [fst snd]. rewrite Hf.
  rewrite List.filter_app. cbn [List.filter fst].
  destruct (String.eqb_spec l label) as [->|Hne].
  - rewrite last_snoc. cbn. replace f with field by congruence.
    by rewrite lookup_insert_eq.
  - rewrite app_nil_r, lookup_insert_ne; [by apply IH|].
    intros ->. apply Hne. by eapply mapping_inj.
Qed.

Lemma foldl_assign_other (it : Item) pairs field :
  Forall known pairs ->
  (forall label, PaymentsSpider.mapping !! label <> Some field) ->
  foldl assign it pairs !! field = it !! field.
Proof.
  intros Hknown Hfield.
  apply (extract_details_other (tokens pairs)); [done|].
  by apply extract_details_tokens.
Qed.

Lemma foldl_assign_dom (it : Item) pairs field :
  Forall known pairs ->
  is_Some (foldl assign it pairs !! field) ->
  is_Some (it !! field) \/ exists label, PaymentsSpider.mapping !! label = Some field.
Proof.
  intros Hknown. induction pairs as [|[l v] pairs IH] using rev_ind; [by left|].
  apply Forall_app in Hknown as [Hknown Hlast].
  apply Forall_cons in Hlast as [[f Hf] _]. cbn [fst] in Hf.
  rewrite foldl_app. cbn [foldl]. unfold assign at 1. cbn [fst snd]. rewrite Hf.
  destruct (decide (f = field)) as [->|Hne]; [right; by exists l|].
  rewrite lookup_insert_ne by done. by apply IH.
Qed.

Lemma mapping_not_headline label field :
  PaymentsSpider.mapping !! label = Some field ->
  field ∉ ["published_at"; "phase"; "company_or_person"; "value";
           "crawled_at"; "crawled_from"].
Proof.
  intros H%mapping_entry. revert H. unfold mapping_entries.
  rewrite !elem_of_cons, elem_of_nil.
  intros H.
  repeat (destruct H as [[= -> ->]|H];
          [intros Hin; repeat (destruct Hin as [Hin|Hin]; [discriminate|]);
           by apply elem_of_nil in Hin|]).
  done.
Qed.

Lemma for_each_lookup_at {Y A} (Q : nat -> A -> Y -> Prop) (body : A -> gen Y unit) :
  (forall x, one_item (fun n => Q n x) (body x)) ->
  forall l n i y,
    yields (trace (for_each l body n)) !! i = Some y ->
    exists x, l !! i = Some x /\ Q (n + i)%nat x y.
Proof.
  intros Hbody l. induction l as [|x l IH]; intros n i y; [done|].
  rewrite for_each_cons.
  destruct (Hbody x n) as [[Hy [e He]]|(y0 & Hy & Hr & Hv & HQ)].
  - rewrite He. simpl. by rewrite Hy.
  - rewrite Hv. simpl. rewrite Hy, Hr. simpl. destruct i as [|i]; simpl.
    + intros [= <-]. exists x. by rewrite Nat.add_0_r.
    + intros Hi. apply IH in Hi as (x' & Hx' & HQ'). exists x'. split; [done|].
      by replace (n + Datatypes.S i)%nat with (Datatypes.S n + i)%nat by lia.
Qed.

(** A loop whose rounds end well exactly on the rows [P] holds of ends
    well exactly when [P] holds of all rows; it has then yielded once and
    read the clock once for each row. *)
Lemma for_each_complete {Y A} (Q : nat -> Y -> Prop) (P : A -> Prop)
    (body : A -> gen Y unit) :
  (forall x, one_item Q (body x)) ->
  (forall x n, value (body x n) = Ok tt <-> P x) ->
  forall l n,
    (value (for_each l body n) = Ok tt <-> Forall P l) /\
    (Forall P l ->
     List.length (yields (trace (for_each l body n))) = List.length l /\
     reads (for_each l body n) = (n + List.length l)%nat).
Proof.
  intros Hbody HP l. induction l as [|x l IH]; intros n.
  - split; [done|]. intros _. simpl. split; [done|lia].
  - rewrite for_each_cons.
    destruct (Hbody x n) as [[Hy [e He]]|(y0 & Hy & Hr & Hv & HQ)].
    + rewrite He. cbn [value].
      split; [split; [done|]|];
        intros [Hx _]%Forall_cons; apply (HP x n) in Hx; congruence.
    + rewrite Hv. cbn [value trace reads]. rewrite Hy, Hr.
      destruct (IH (Datatypes.S n)) as [Hiff Hlen]. split.
      * rewrite Hiff. split; [|by intros [_ ?]%Forall_cons].
        intros Hl. constructor; [|done]. by apply (HP x n).
      * intros [_ Hl]%Forall_cons. destruct (Hlen Hl) as [Hlen' Hreads].
        simpl. rewrite Hlen', Hreads. split; lia.
Qed.

Section PaymentRecords.
Context `{PyStr}.
Variable clock : nat -> datetime.

Lemma index_map_strip (l : list string) i a :
  Py.index (List.map str_strip l) i = Ok a -> exists x, l !! i = Some x /\ a = str_strip x.
Proof.
  unfold Py.index. rewrite list_lookup_fmap.
  destruct (l !! i) as [x|]; [|done]. intros [= <-]. by exists x.
Qed.

Lemma headline_cells (headline : list string) a b c d :
  Py.index (List.map str_strip headline) 0 = Ok a ->
  Py.index (List.map str_strip headline) 1 = Ok b ->
  Py.index (List.map str_strip headline) 2 = Ok c ->
  Py.index (List.map str_strip headline) 3 = Ok d ->
  exists h0 h1 h2 h3 rest,
    headline = h0 :: h1 :: h2 :: h3 :: rest /\
    a = str_strip h0 /\ b = str_strip h1 /\ c = str_strip h2 /\ d = str_strip h3.
Proof.
  destruct headline as [|h0 [|h1 [|h2 [|h3 rest]]]]; try done.
  unfold Py.index. simpl. intros [= <-] [= <-] [= <-] [= <-].
  by exists h0, h1, h2, h3, rest.
Qed.

Lemma payment_record_intro crawled_at crawled_from h0 h1 h2 h3 rest raw_details pairs it :
  List.map str_strip raw_details = tokens pairs ->
  Forall known pairs ->
  it = foldl assign
         (<["published_at" := VStr (str_strip h0)]>
          (<["phase" := VStr (str_strip h1)]>
          (<["company_or_person" := VStr (str_strip h2)]>
          (<["value" := VStr (str_strip h3)]>
          (<["crawled_at" := VDatetime crawled_at]>
          (<["crawled_from" := VStr crawled_from]> ∅)))))) pairs ->
  payment_record crawled_at crawled_from (h0 :: h1 :: h2 :: h3 :: rest, raw_details) it.
Proof.
  intros Htokens Hknown ->.
  exists h0, h1, h2, h3, rest, pairs. split; [done|]. split; [done|]. split; [done|].
  assert (Hhead : forall field,
    field ∈ ["published_at"; "phase"; "company_or_person"; "value";
             "crawled_at"; "crawled_from"] ->
    forall label, PaymentsSpider.mapping !! label <> Some field).
  { intros field Hin label Hl. by apply mapping_not_headline in Hl. }
  repeat (split; [rewrite foldl_assign_other; [by simplify_map_eq|done|
                    apply Hhead; set_solver]|]).
  split.
  - intros label field Hfield. rewrite (foldl_assign_last _ _ label field Hknown Hfield).
    destruct (last_value label pairs); [done|].
    pose proof (mapping_not_headline label field Hfield) as Hnot.
    repeat (rewrite lookup_insert_ne by (intros <-; apply Hnot; set_solver)).
    done.
  - intros field Hsome. apply foldl_assign_dom in Hsome as [Hsome|Hlabel]; [|by right|done].
    left. destruct Hsome as [v Hv].
    repeat (apply lookup_insert_Some in Hv as [[<- _]|[_ Hv]]; [set_solver|]).
    done.
Qed.

Lemma payments_parse_page_item_record response row :
  one_item (fun n => payment_record (clock n) (payments_url response) row)
           (PaymentsSpider.parse_page_item clock response row).
Proof.
  intros n. destruct row as [headline raw_details].
  unfold PaymentsSpider.parse_page_item.
  repeat (gen_step; [|stopped]). gen_step. gen_step; [|stopped].
  right. eexists. split; [reflexivity|]. split; [reflexivity|]. split; [reflexivity|].
  destruct (headline_cells headline a a0 a1 a2 E E0 E1 E2)
    as (h0 & h1 & h2 & h3 & rest & -> & -> & -> & -> & ->).
  apply extract_details_Ok in E3 as (pairs & Htokens & Hknown & ->).
  by eapply payment_record_intro.
Qed.

Lemma covid_parse_page_item_record response row :
  one_item (fun n => payment_record (clock n) COVID19ExpensesSpider.source row)
           (COVID19ExpensesSpider.parse_page_item clock response row).
Proof.
  intros n. destruct row as [headline raw_details].
  unfold COVID19ExpensesSpider.parse_page_item.
  repeat (gen_step; [|stopped]). gen_step. gen_step; [|stopped].
  right. eexists. split; [reflexivity|]. split; [reflexivity|]. split; [reflexivity|].
  destruct (headline_cells headline a a0 a1 a2 E E0 E1 E2)
    as (h0 & h1 & h2 & h3 & rest & -> & -> & -> & -> & ->).
  rewrite covid_extract_details in E3.
  apply extract_details_Ok in E3 as (pairs & Htokens & Hknown & ->).
  by eapply payment_record_intro.
Qed.

Lemma payment_row_index (headline : list string) i :
  (4 <= List.length headline)%nat -> (i < 4)%nat ->
  exists a, Py.index (List.map str_strip headline) i = Ok a.
Proof.
  intros Hlen Hi. unfold Py.index.
  destruct (lookup_lt_is_Some_2 (List.map str_strip headline) i) as [a ->];
    [rewrite length_map; lia|]. by exists a.
Qed.

Lemma payments_parse_page_item_value response row n :
  value (PaymentsSpider.parse_page_item clock response row n) = Ok tt <-> payment_row row.
Proof.
  destruct row as [headline raw_details]. unfold payment_row. cbn [fst snd]. split.
  - unfold PaymentsSpider.parse_page_item.
    repeat (gen_step; [|done]). gen_step. gen_step; [|done]. intros _.
    destruct (headline_cells headline a a0 a1 a2 E E0 E1 E2)
      as (h0 & h1 & h2 & h3 & rest & -> & _).
    apply extract_details_Ok in E3 as (pairs & Htokens & Hknown & _).
    split; [simpl; lia|]. by exists pairs.
  - intros [Hlen (pairs & Htokens & Hknown)].
    unfold PaymentsSpider.parse_page_item.
    destruct (payment_row_index headline 0 Hlen) as [a Ha]; [lia|].
    destruct (payment_row_index headline 1 Hlen) as [b Hb]; [lia|].
    destruct (payment_row_index headline 2 Hlen) as [c Hc]; [lia|].
    destruct (payment_row_index headline 3 Hlen) as [d Hd]; [lia|].
    rewrite Ha, gbind_lift_Ok, Hb, gbind_lift_Ok, Hc, gbind_lift_Ok, Hd, gbind_lift_Ok.
    rewrite gbind_utcnow, Htokens, extract_details_tokens by done.
    by rewrite gbind_lift_Ok.
Qed.

Lemma covid_parse_page_item_value response row n :
  value (COVID19ExpensesSpider.parse_page_item clock response row n) = Ok tt <->
  payment_row row.
Proof.
  destruct row as [headline raw_details]. unfold payment_row. cbn [fst snd]. split.
  - unfold COVID19ExpensesSpider.parse_page_item.
    repeat (gen_step; [|done]). gen_step. gen_step; [|done]. intros _.
    destruct (headline_cells headline a a0 a1 a2 E E0 E1 E2)
      as (h0 & h1 & h2 & h3 & rest & -> & _).
    rewrite covid_extract_details in E3.
    apply extract_details_Ok in E3 as (pairs & Htokens & Hknown & _).
    split; [simpl; lia|]. by exists pairs.
  - intros [Hlen (pairs & Htokens & Hknown)].
    unfold COVID19ExpensesSpider.parse_page_item.
    destruct (payment_row_index headline 0 Hlen) as [a Ha]; [lia|].
    destruct (payment_row_index headline 1 Hlen) as [b Hb]; [lia|].
    destruct (payment_row_index headline 2 Hlen) as [c Hc]; [lia|].
    destruct (payment_row_index headline 3 Hlen) as [d Hd]; [lia|].
    rewrite Ha, gbind_lift_Ok, Hb, gbind_lift_Ok, Hc, gbind_lift_Ok, Hd, gbind_lift_Ok.
    rewrite gbind_utcnow, Htokens.
    rewrite (covid_extract_details (tokens pairs)), extract_details_tokens by done.
    by rewrite gbind_lift_Ok.
Qed.

End PaymentRecords.

(** X15: the loop over the tokens of a block of details, for every list
    of tokens: it returns the item with the fields of the pairs assigned in
    their order when the tokens are pairs of a label of [mapping] and a
    value; it raises KeyError at the first pair whose label [mapping] does
    not have; it raises IndexError at a last label without a value, whether
    [mapping] has the label or not.  The covid spider has the same loop. *)
Theorem extract_details_outcomes (details : list string) (it : Item) :
  details_outcome PaymentsSpider.extract_details details it /\
  details_outcome COVID19ExpensesSpider.extract_details details it.
Proof.
  split; [apply extract_details_cases|].
  unfold details_outcome. rewrite (covid_extract_details details it).
  apply extract_details_cases.
Qed.

(** X16: the i-th record of a page of payments, and of a page of covid
    expenses, comes from the i-th headline and the i-th block of details:
    its first four fields are the first four texts of the headline,
    stripped, and no label of the block overwrites them; crawled_at is the
    i-th reading of the clock after the start of the page; the field of a
    label holds the value of the last pair of the block with this label;
    the record has no other field. *)
Theorem payments_records_by_position (S : PyStr) (clock : nat -> datetime)
    (response : payments_response) (n i : nat) (it : Item) :
  (yields (trace (PaymentsSpider.parse_page clock response n)) !! i = Some it ->
   exists headline raw_details,
     payments_headlines response !! i = Some headline /\
     payments_details response !! i = Some raw_details /\
     payment_record (clock (n + i)%nat) (payments_url response)
                    (headline, raw_details) it) /\
  (yields (trace (COVID19ExpensesSpider.parse_page clock response n)) !! i = Some it ->
   exists headline raw_details,
     payments_headlines response !! i = Some headline /\
     payments_details response !! i = Some raw_details /\
     payment_record (clock (n + i)%nat) COVID19ExpensesSpider.source
                    (headline, raw_details) it).
Proof.
  split; intros Hi.
  - apply (for_each_lookup_at
             (fun n row => payment_record (clock n) (payments_url response) row)) in Hi
      as ([headline raw_details] & Hrow & Hrec);
      [|apply payments_parse_page_item_record].
    apply zip_lookup in Hrow as [Hh Hd]. by exists headline, raw_details.
  - apply (for_each_lookup_at
             (fun n row => payment_record (clock n) COVID19ExpensesSpider.source row)) in Hi
      as ([headline raw_details] & Hrow & Hrec);
      [|apply covid_parse_page_item_record].
    apply zip_lookup in Hrow as [Hh Hd]. by exists headline, raw_details.
Qed.

(** X17: a page of payments, and a page of covid expenses, is read to
    the end exactly when each of its rows has a headline of four texts or
    more and a block whose tokens are pairs of a label of [mapping] and a
    value; the generator has then yielded one record for each row, logged
    nothing and read the clock once for each row. *)
Theorem payments_page_complete (S : PyStr) (clock : nat -> datetime)
    (response : payments_response) (n : nat) :
  let rows := Py.zip (payments_headlines response) (payments_details response) in
  (value (PaymentsSpider.parse_page clock response n) = Ok tt <-> Forall payment_row rows) /\
  (value (COVID19ExpensesSpider.parse_page clock response n) = Ok tt <->
   Forall payment_row rows) /\
  (Forall payment_row rows ->
   List.length (yields (trace (PaymentsSpider.parse_page clock response n))) =
     List.length rows /\
   logged (trace (PaymentsSpider.parse_page clock response n)) = [] /\
   reads (PaymentsSpider.parse_page clock response n) = (n + List.length rows)%nat /\
   List.length (yields (trace (COVID19ExpensesSpider.parse_page clock response n))) =
     List.length rows /\
   logged (trace (COVID19ExpensesSpider.parse_page clock response n)) = [] /\
   reads (COVID19ExpensesSpider.parse_page clock response n) = (n + List.length rows)%nat).
Proof.
  intros rows.
  destruct (for_each_complete _ payment_row _
              (payments_parse_page_item clock response)
              (payments_parse_page_item_value clock response) rows n) as [Hp Hplen].
  destruct (for_each_complete _ payment_row _
              (covid_parse_page_item clock response)
              (covid_parse_page_item_value clock response) rows n) as [Hc Hclen].
  split; [exact Hp|]. split; [exact Hc|]. intros Hrows.
  destruct (Hplen Hrows) as [Hpy Hpr]. destruct (Hclen Hrows) as [Hcy Hcr].
  split; [exact Hpy|]. split.
  { apply (for_each_one_item_bound _ _ (payments_parse_page_item clock response)). }
  split; [exact Hpr|]. split; [exact Hcy|]. split; [|exact Hcr].
  apply (for_each_one_item_bound _ _ (covid_parse_page_item clock response)).
Qed.

(** ** The start date and the links *)

(** X18: an earlier start date follows more links: a link
    [follow_this_date] accepts for a start date is accepted for every
    earlier start date; and whether it raises, and what, does not depend on
    the start date. *)
Theorem follow_this_date_earlier_start (U : Utils) (start_date earlier : date)
    (url : string) :
  valid_date start_date = true ->
  valid_date earlier = true ->
  date_leb earlier start_date = true ->
  (BidsSpider.follow_this_date start_date url = Ok true ->
   BidsSpider.follow_this_date earlier url = Ok true) /\
  (forall e, BidsSpider.follow_this_date start_date url = Raise e <->
             BidsSpider.follow_this_date earlier url = Raise e).
Proof.
  intros Hs He Hle. split.
  - intros Hf. apply follow_this_date_Ok in Hf as (y & m & Hr & Hb).
    apply follow_this_date_Ok. exists y, m. split; [done|].
    assert (Hv : valid_date (mkdate y m 1) = true).
    { destruct Hr as (? & ? & ? & ? & _ & _ & _ & _ & Hy & Hm).
      apply valid_date_intro; simpl; [done|done|].
      pose proof (days_in_month_bounds y m). lia. }
    symmetry. symmetry in Hb. unfold date_geb in *.
    apply date_leb_toordinal in Hb; [|done|done].
    apply date_leb_toordinal in Hle; [|done|done].
    apply date_leb_toordinal; [done|done|lia].
  - intros e. unfold BidsSpider.follow_this_date.
    destruct (extract_param url "dt") as [[token|]|e0]; simpl; [|done|done].
    destruct (Py.index (Py.split token "-") 1) as [y_text|e0]; simpl; [|done].
    destruct (Py.int y_text) as [y|e0]; simpl; [|done].
    destruct (Py.index (Py.split token "-") 0) as [m_text|e0]; simpl; [|done].
    destruct (Py.int m_text) as [m|e0]; simpl; [|done].
    by destruct (date_new y m 1) as [d|e0]; simpl.
Qed.

Lemma follow_this_date_earlier_start_witness :
  BidsSpider.follow_this_date (mkdate 2019 12 31) example_link = Ok true.
Proof.
  apply (proj1 (follow_this_date_earlier_start helpers_utils
                  (mkdate 2020 8 1) (mkdate 2019 12 31) example_link
                  eq_refl eq_refl eq_refl)).
  reflexivity.
Defined.

(** ** Examples for the pages *)


Lemma bids_parse_stops_witness :
  BidsSpider.parse (mkdate 2020 8 1) example_index_undated 0%nat =
  mkoutcome
    (Log INFO (InitialDate (mkdate 2020 8 1)) ::
     List.map (fun url => Yield (link_request example_index_undated url))
              (List.filter (followed (mkdate 2020 8 1) example_index_undated)
                           ["licitacoes_pm.asp?cat=PMFS&dt=08-2020"]))
    0%nat (Raise AttributeError).
Proof.
  apply (bids_parse_stops latin1_pystr helpers_utils (mkdate 2020 8 1)
           example_index_undated 0%nat
           ["licitacoes_pm.asp?cat=PMFS&dt=08-2020"]
           "licitacoes_pm.asp?cat=PMFS"
           ["licitacoes_pm.asp?cat=PMFS&dt=09-2020"] AttributeError).
  - reflexivity.
  - repeat constructor; eexists; reflexivity.
  - reflexivity.
Defined.

Lemma bids_parse_example :
  yields (trace (BidsSpider.parse (mkdate 2020 8 1) example_index 0%nat)) =
  [BidsSpider.Follow
     "http://www.feiradesantana.ba.gov.br/seadm/licitacoes_pm.asp?cat=PMFS&dt=08-2020";
   BidsSpider.Follow "http://www.feiradesantana.ba.gov.br/servicos.asp?id=2&dt=09-2020";
   BidsSpider.Follow
     "http://www.feiradesantana.ba.gov.br/seadm/licitacoes_pm.asp?cat=FMS&dt=10-2020"].
Proof. reflexivity. Qed.

(** ** The examples, as instances *)

Lemma bids_records_by_position_witness :
  exists modality_and_code description document_url history date bids_history,
    BidsSpider._parse_bids_history (BidsSpider.raw_bids_history example_bids) =
      Ok bids_history /\
    BidsSpider._parse_modalities (BidsSpider.raw_modalities example_bids) !! 0%nat =
      Some modality_and_code /\
    (BidsSpider.raw_descriptions example_bids ≫= described) !! 0%nat =
      Some (description, document_url) /\
    bids_history !! 0%nat = Some history /\
    BidsSpider._parse_date (BidsSpider.raw_date example_bids) !! 0%nat = Some date /\
    bid_record example_bids (modality_and_code, (description, document_url), history, date)
               example_bid_item.
Proof.
  apply (bids_records_by_position latin1_pystr helpers_utils example_clock
           example_bids 0%nat 0%nat example_bid_item).
  reflexivity.
Defined.


Lemma bids_page_without_pattern_witness :
  yields (trace (BidsSpider.parse_page example_clock example_bids_elsewhere 0%nat)) = [].
Proof.
  apply (bids_page_without_pattern latin1_pystr helpers_utils example_clock
           example_bids_elsewhere 0%nat).
  reflexivity.
Defined.

Lemma contracts_records_by_position_witness :
  exists headline raw_details,
    ContractsSpider.headlines example_contracts !! 0%nat = Some headline /\
    ContractsSpider.contract_details example_contracts !! 0%nat = Some raw_details /\
    contract_record (example_clock (0 + 0)%nat) example_contracts (headline, raw_details)
                    example_contract_item /\
    dom example_contract_item =
      ({["contract_id"; "starts_at"; "summary"; "contractor_document";
         "contractor_name"; "value"; "ends_at"; "crawled_at"; "crawled_from"]}
       ∪ (if truthy (ContractsSpider.details_btn_href raw_details)
          then {["files"]} else ∅) : gset string).
Proof.
  apply (contracts_records_by_position latin1_pystr helpers_utils example_clock
           example_contracts 0%nat 0%nat example_contract_item).
  reflexivity.
Defined.

Lemma contracts_block_without_record_witness :
  trace (ContractsSpider.parse_page_item example_clock example_contracts
           (ContractsSpider.mkheadline ["CONTRATO N° 11-2017-1926C"; "01/06/2017"],
            ContractsSpider.mkdetails
              ["Objeto:"; "AQUISIÇÃO DE ÁGUA MINERAL"; "Contratada:";
               "12.345.678/0001-90 - ACME LTDA"; "Valor:"; ""] None) 0%nat) = [] /\
  raises (value (ContractsSpider.parse_page_item example_clock example_contracts
           (ContractsSpider.mkheadline ["CONTRATO N° 11-2017-1926C"; "01/06/2017"],
            ContractsSpider.mkdetails
              ["Objeto:"; "AQUISIÇÃO DE ÁGUA MINERAL"; "Contratada:";
               "12.345.678/0001-90 - ACME LTDA"; "Valor:"; ""] None) 0%nat)).
Proof.
  apply (contracts_block_without_record latin1_pystr helpers_utils example_clock
           example_contracts).
  left. vm_compute. lia.
Defined.

Lemma payments_records_by_position_witness :
  exists it,
    yields (trace (PaymentsSpider.parse_page example_clock
                     (example_payments PaymentsSpider.url) 5%nat)) !! 0%nat = Some it /\
    exists headline raw_details,
      payments_headlines (example_payments PaymentsSpider.url) !! 0%nat = Some headline /\
      payments_details (example_payments PaymentsSpider.url) !! 0%nat = Some raw_details /\
      payment_record (example_clock (5 + 0)%nat) PaymentsSpider.url
                     (headline, raw_details) it.
Proof.
  eexists. split; [reflexivity|].
  apply (proj1 (payments_records_by_position latin1_pystr example_clock
                  (example_payments PaymentsSpider.url) 5%nat 0%nat _)).
  reflexivity.
Defined.

Lemma payments_page_complete_witness :
  List.length (yields (trace (PaymentsSpider.parse_page example_clock
                                (example_payments PaymentsSpider.url) 0%nat))) = 1%nat /\
  reads (PaymentsSpider.parse_page example_clock
           (example_payments PaymentsSpider.url) 0%nat) = 1%nat.
Proof.
  destruct (proj2 (proj2 (payments_page_complete latin1_pystr example_clock
                            (example_payments PaymentsSpider.url) 0%nat)))
    as (Hy & _ & Hr & _).
  - repeat constructor.
    exists [("N°:", "19000215/0004"); ("CPF/CNPJ:", "90.180.605/0001-02");
            ("Data:", "22/10/2019"); ("N° do processo:", "010-2019")].
    split; [reflexivity|]. repeat constructor; eexists; reflexivity.
  - split; [exact Hy|exact Hr].
Defined.
